(** * CANSAME5x: the SAME5x CAN driver of arduino-CAN

    A shallow embedding of [src/CANSAME5x.cpp]: the nominal bit-timing
    computation [compute_nbtp], the nestable critical section
    ([cpu_irq_enter_critical] / [cpu_irq_leave_critical]), the message RAM
    ([_canSAME5x_state]) and the controller methods [begin], [end],
    [endPacket], [parsePacket], [onReceive], [handleInterrupt], [filter],
    [filterExtended], [observe], [loopback], [sleep] and [wakeup], with the
    interrupt entry points [onInterrupt], [CAN0_Handler] and
    [CAN1_Handler].

    Machine integers are [Z] with their wrap-around written out; the
    registers and message-RAM words are 32-bit words whose bit-fields are
    read and written through [rd] and [wr].  A method is a function from
    the world it runs in to its result and the world it leaves, or to
    nothing where the C++ has no defined result (a division by zero, a
    copy past the end of an array, a wait that never ends). *)

From Stdlib Require Import ZArith List Bool Lia.
Import ListNotations.
Local Open Scope Z_scope.

(** ** Machine arithmetic *)

(** [uint32_t] arithmetic: every result is reduced modulo 2^32. *)
Definition u32 (x : Z) : Z := x mod 2 ^ 32.

(** Unsigned division; the divisor zero has no defined result. *)
Definition udiv (a b : Z) : option Z :=
  if b =? 0 then None else Some (a / b).

(** [#define DIV_ROUND(a, b) (((a) + (b) / 2) / (b))] on [uint32_t]. *)
Definition DIV_ROUND (a b : Z) : option Z :=
  udiv (u32 (a + b / 2)) b.

(** [#define DIV_ROUND_UP(a, b) (((a) + (b)-1) / (b))] on [uint32_t]. *)
Definition DIV_ROUND_UP (a b : Z) : option Z :=
  udiv (u32 (u32 (a + b) - 1)) b.

(** Arduino's [max(a, b)] macro: [((a) > (b) ? (a) : (b))]. *)
Definition max (a b : Z) : Z := if a >? b then a else b.

(** ** Bit-fields of 32-bit words *)

Record bitfield : Set := BitField { pos : Z; width : Z }.

Definition mask (f : bitfield) : Z := Z.shiftl (Z.ones (width f)) (pos f).

(** Reading [reg.bit.F]. *)
Definition rd (f : bitfield) (reg : Z) : Z :=
  Z.land (Z.shiftr reg (pos f)) (Z.ones (width f)).

(** The word after [reg.bit.F = v]: the value is truncated to the field. *)
Definition wr (f : bitfield) (reg v : Z) : Z :=
  Z.lor (Z.land reg (Z.lnot (mask f))) (Z.land (Z.shiftl v (pos f)) (mask f)).

(** ** The nominal bit timing and prescaler register

    [CAN_NBTP_Type] comes from the device header (same51.h), which is not
    part of the driver: NTSEG2 is bits 6:0, NTSEG1 bits 15:8, NBRP bits
    24:16 and NSJW bits 31:25 of the register. *)
Definition CAN_NBTP_Type : Set := Z.

Definition NBTP_NTSEG2 : bitfield := BitField 0 7.
Definition NBTP_NTSEG1 : bitfield := BitField 8 8.
Definition NBTP_NBRP : bitfield := BitField 16 9.
Definition NBTP_NSJW : bitfield := BitField 25 7.

(** [bool compute_nbtp(uint32_t baudrate, CAN_NBTP_Type &result)].
    [can_frequency] is the constant [VARIANT_GCLK1_FREQ] of the board
    variant; it is taken as an argument.  The outcome [None] is a division
    by zero; otherwise the returned flag comes with the contents of
    [result] after the call. *)
Definition compute_nbtp (can_frequency baudrate : Z) (result : CAN_NBTP_Type)
  : option (bool * CAN_NBTP_Type) :=
  match DIV_ROUND can_frequency baudrate with
  | None => None
  | Some clocks_per_bit =>
  match DIV_ROUND (u32 (clocks_per_bit * 7)) 8 with
  | None => None
  | Some clocks_to_sample =>
  let clocks_after_sample := u32 (clocks_per_bit - clocks_to_sample) in
  match DIV_ROUND_UP clocks_to_sample 256,
        DIV_ROUND_UP clocks_after_sample 128 with
  | Some up1, Some up2 =>
    let divisor := max up1 up2 in
    if divisor >? 32 then Some (false, result)
    else
      match DIV_ROUND clocks_to_sample divisor,
            DIV_ROUND clocks_after_sample divisor,
            DIV_ROUND clocks_after_sample (u32 (divisor * 4)) with
      | Some q1, Some q2, Some q4 =>
        let result := wr NBTP_NTSEG1 result (u32 (q1 - 2)) in
        let result := wr NBTP_NTSEG2 result (u32 (q2 - 1)) in
        let result := wr NBTP_NBRP result (u32 (divisor - 1)) in
        let result := wr NBTP_NSJW result q4 in
        Some (true, result)
      | _, _, _ => None
      end
  | _, _ => None
  end
  end
  end.

(** ** The bit-timing algorithm as the specification words it

    Unbounded integers, exact round-half-up and ceiling division. *)
Module Spec.

(** [round(a / b)], halves rounded up: the floor of [a/b + 1/2]. *)
Definition round_div (a b : Z) : Z := (2 * a + b) / (2 * b).

(** [ceil(a / b)]. *)
Definition ceil_div (a b : Z) : Z := - ((- a) / b).

Definition clocks_per_bit (clock_hz baud_rate : Z) : Z :=
  round_div clock_hz baud_rate.

Definition clocks_to_sample (clock_hz baud_rate : Z) : Z :=
  round_div (clocks_per_bit clock_hz baud_rate * 7) 8.

Definition clocks_after_sample (clock_hz baud_rate : Z) : Z :=
  clocks_per_bit clock_hz baud_rate - clocks_to_sample clock_hz baud_rate.

(** A divisor keeps both segments inside their ranges. *)
Definition fits (to_sample after_sample d : Z) : Prop :=
  ceil_div to_sample d <= 256 /\ ceil_div after_sample d <= 128.

(** The smallest such divisor, counted from 1. *)
Definition smallest_divisor (to_sample after_sample d : Z) : Prop :=
  1 <= d /\ fits to_sample after_sample d /\
  forall d', 1 <= d' -> fits to_sample after_sample d' -> d <= d'.

Record TimingParameters : Set := Timing {
  segment1_length : Z;
  segment2_length : Z;
  prescaler : Z;
  sync_jump_width : Z
}.

(** The parameters derived from a divisor. *)
Definition derive (to_sample after_sample d : Z) : TimingParameters :=
  {| segment1_length := round_div to_sample d - 2;
     segment2_length := round_div after_sample d - 1;
     prescaler := d - 1;
     sync_jump_width := round_div after_sample (d * 4) |}.

(** [compute] yields [Some p] (the timing parameters) or [None]
    (Unachievable: the required divisor exceeds 32). *)
Definition compute (clock_hz baud_rate : Z)
           (out : option TimingParameters) : Prop :=
  exists d,
    smallest_divisor (clocks_to_sample clock_hz baud_rate)
                     (clocks_after_sample clock_hz baud_rate) d /\
    out = if d >? 32 then None
          else Some (derive (clocks_to_sample clock_hz baud_rate)
                            (clocks_after_sample clock_hz baud_rate) d).

End Spec.

(** The timing parameters held by a register value. *)
Definition timing_of (r : CAN_NBTP_Type) : Spec.TimingParameters :=
  {| Spec.segment1_length := rd NBTP_NTSEG1 r;
     Spec.segment2_length := rd NBTP_NTSEG2 r;
     Spec.prescaler := rd NBTP_NBRP r;
     Spec.sync_jump_width := rd NBTP_NSJW r |}.

(** ** Interrupt masking (adapted from ASF3 interrupt_sam_nvic.c) *)

Record cpu_irq : Set := CpuIrq {
  (** [volatile unsigned long cpu_irq_critical_section_counter] *)
  cpu_irq_critical_section_counter : Z;
  (** [volatile unsigned char cpu_irq_prev_interrupt_state] *)
  cpu_irq_prev_interrupt_state : Z;
  (** the core's PRIMASK register: 0 when interrupts are enabled *)
  PRIMASK : Z
}.

Definition cpu_irq_enter_critical (s : cpu_irq) : cpu_irq :=
  let s :=
    if cpu_irq_critical_section_counter s =? 0 then
      if PRIMASK s =? 0 then
        (* __disable_irq(); cpu_irq_prev_interrupt_state = 1; *)
        CpuIrq (cpu_irq_critical_section_counter s) 1 1
      else
        CpuIrq (cpu_irq_critical_section_counter s) 0 (PRIMASK s)
    else s in
  CpuIrq (u32 (cpu_irq_critical_section_counter s + 1))
         (cpu_irq_prev_interrupt_state s) (PRIMASK s).

Definition cpu_irq_leave_critical (s : cpu_irq) : cpu_irq :=
  if cpu_irq_critical_section_counter s >? 0 then
    let counter := u32 (cpu_irq_critical_section_counter s - 1) in
    if (counter =? 0) && negb (cpu_irq_prev_interrupt_state s =? 0) then
      (* __enable_irq(); *)
      CpuIrq counter (cpu_irq_prev_interrupt_state s) 0
    else
      CpuIrq counter (cpu_irq_prev_interrupt_state s) (PRIMASK s)
  else s.

(** Interrupts are delivered when PRIMASK is clear. *)
Definition irq_enabled (s : cpu_irq) : bool := PRIMASK s =? 0.

(** ** The message RAM

    The element types come from the device header.  Words are kept as
    32-bit values; the fields the driver names are listed below. *)

(** Tx buffer element, words T0 and T1. *)
Definition TXBE_0_ID : bitfield := BitField 0 29.
Definition TXBE_0_RTR : bitfield := BitField 29 1.
Definition TXBE_0_XTD : bitfield := BitField 30 1.
Definition TXBE_0_ESI : bitfield := BitField 31 1.
Definition TXBE_1_DLC : bitfield := BitField 16 4.
Definition TXBE_1_BRS : bitfield := BitField 20 1.
Definition TXBE_1_FDF : bitfield := BitField 21 1.
Definition TXBE_1_EFC : bitfield := BitField 23 1.
Definition TXBE_1_MM : bitfield := BitField 24 8.

(** Rx FIFO 0 element, words R0 and R1. *)
Definition RXF0E_0_ID : bitfield := BitField 0 29.
Definition RXF0E_0_RTR : bitfield := BitField 29 1.
Definition RXF0E_0_XTD : bitfield := BitField 30 1.
Definition RXF0E_1_DLC : bitfield := BitField 16 4.

(** Standard and extended message ID filter elements. *)
Definition SIDFE_0_SFID2 : bitfield := BitField 0 11.
Definition SIDFE_0_SFID1 : bitfield := BitField 16 11.
Definition SIDFE_0_SFEC : bitfield := BitField 27 3.
Definition SIDFE_0_SFT : bitfield := BitField 30 2.
Definition XIDFE_0_EFID1 : bitfield := BitField 0 29.
Definition XIDFE_0_EFEC : bitfield := BitField 29 3.
Definition XIDFE_1_EFID2 : bitfield := BitField 0 29.
Definition XIDFE_1_EFT : bitfield := BitField 30 2.

(** Filter element configuration: store in Rx FIFO 0 on match, or reject
    the identifier on match. *)
Definition CAN_SIDFE_0_SFEC_STF0M_Val : Z := 1.
Definition CAN_SIDFE_0_SFEC_REJECT_Val : Z := 3.
Definition CAN_SIDFE_0_SFT_CLASSIC_Val : Z := 2.
Definition CAN_XIDFE_0_EFEC_STF0M_Val : Z := 1.
Definition CAN_XIDFE_0_EFEC_REJECT_Val : Z := 3.
Definition CAN_XIDFE_1_EFT_CLASSIC_Val : Z := 2.

Definition ADAFRUIT_ZEROCAN_TX_BUFFER_SIZE : Z := 1.
Definition ADAFRUIT_ZEROCAN_RX_FILTER_SIZE : Z := 1.
Definition ADAFRUIT_ZEROCAN_RX_FIFO_SIZE : Z := 8.
Definition ADAFRUIT_ZEROCAN_MAX_MESSAGE_LENGTH : Z := 8.

Record _canSAME5x_tx_buf : Set := TxBuf {
  txb0 : Z;
  txb1 : Z;
  tx_data : list Z          (* uint8_t data[8] *)
}.

Record _canSAME5x_rx_fifo : Set := RxFifo {
  rxf0 : Z;
  rxf1 : Z;
  rx_data : list Z          (* uint8_t data[8] *)
}.

Record CanMramSidfe : Set := Sidfe { SIDFE_0 : Z }.
Record CanMramXifde : Set := Xifde { XIDFE_0 : Z; XIDFE_1 : Z }.

(** [struct _canSAME5x_state]; the arrays of one element are held as
    that element. *)
Record _canSAME5x_state : Set := CanState {
  tx_buffer : _canSAME5x_tx_buf;
  rx_fifo : list _canSAME5x_rx_fifo;
  standard_rx_filter : CanMramSidfe;
  extended_rx_filter : CanMramXifde
}.

(** The message RAM after [memset] has zeroed all of it. *)
Definition zero_bytes (n : Z) : list Z := repeat 0 (Z.to_nat n).

Definition zeroed_state : _canSAME5x_state :=
  {| tx_buffer := TxBuf 0 0 (zero_bytes 8);
     rx_fifo :=
       repeat (RxFifo 0 0 (zero_bytes ADAFRUIT_ZEROCAN_MAX_MESSAGE_LENGTH))
              (Z.to_nat ADAFRUIT_ZEROCAN_RX_FIFO_SIZE);
     standard_rx_filter := Sidfe 0;
     extended_rx_filter := Xifde 0 0 |}.

(** Byte offsets of the members of [_canSAME5x_state]. *)
Definition offsetof_tx_buffer : Z := 0.
Definition offsetof_rx_fifo : Z := 16.
Definition offsetof_standard_rx_filter : Z := 144.
Definition offsetof_extended_rx_filter : Z := 148.

(** [memcpy(dst, src, n)] between byte arrays; copying past the end of
    either array has no defined result. *)
Definition memcpy (dst src : list Z) (n : Z) : option (list Z) :=
  if (0 <=? n) && (n <=? Z.of_nat (length src))
     && (n <=? Z.of_nat (length dst))
  then Some (firstn (Z.to_nat n) src ++ skipn (Z.to_nat n) dst)
  else None.

(** [a[i]] for an array held as a list. *)
Definition index {A : Type} (a : list A) (i : Z) : option A :=
  if i <? 0 then None else nth_error a (Z.to_nat i).

(** [a[i] = v]. *)
Fixpoint store_nat {A : Type} (a : list A) (i : nat) (v : A) : list A :=
  match a, i with
  | [], _ => []
  | _ :: t, O => v :: t
  | h :: t, S i' => h :: store_nat t i' v
  end.

Definition store {A : Type} (a : list A) (i : Z) (v : A) : option (list A) :=
  if (0 <=? i) && (i <? Z.of_nat (length a))
  then Some (store_nat a (Z.to_nat i) v) else None.

(** ** The peripheral's registers *)

Definition CCCR_INIT : bitfield := BitField 0 1.
Definition CCCR_CCE : bitfield := BitField 1 1.
Definition CCCR_CSA : bitfield := BitField 3 1.
Definition CCCR_CSR : bitfield := BitField 4 1.
Definition CCCR_MON : bitfield := BitField 5 1.
Definition CCCR_TEST : bitfield := BitField 7 1.
Definition TEST_LBCK : bitfield := BitField 4 1.
Definition IE_RF0NE : bitfield := BitField 0 1.
Definition TXESC_TBDS : bitfield := BitField 0 3.
Definition TXBC_TBSA : bitfield := BitField 0 16.
Definition TXBC_NDTB : bitfield := BitField 16 6.
Definition TXBC_TFQM : bitfield := BitField 30 1.
Definition RXESC_F0DS : bitfield := BitField 0 3.
Definition RXESC_F1DS : bitfield := BitField 4 3.
Definition RXESC_RBDS : bitfield := BitField 8 3.
Definition RXF0C_F0SA : bitfield := BitField 0 16.
Definition RXF0C_F0S : bitfield := BitField 16 7.
Definition GFC_RRFE : bitfield := BitField 0 1.
Definition GFC_ANFE : bitfield := BitField 2 2.
Definition GFC_ANFS : bitfield := BitField 4 2.
Definition SIDFC_FLSSA : bitfield := BitField 0 16.
Definition SIDFC_LSS : bitfield := BitField 16 8.
Definition XIDFC_FLESA : bitfield := BitField 0 16.
Definition XIDFC_LSE : bitfield := BitField 16 7.
Definition RXF0S_F0FL : bitfield := BitField 0 7.
Definition RXF0S_F0GI : bitfield := BitField 8 6.
Definition RXF0A_F0AI : bitfield := BitField 0 6.

Definition CAN_IR_RF0N : Z := 1.
Definition CAN_TXESC_TBDS_DATA8_Val : Z := 0.
Definition CAN_RXESC_F0DS_DATA8_Val : Z := 0.
Definition CAN_RXESC_F1DS_DATA8_Val : Z := 0.
Definition CAN_RXESC_RBDS_DATA8_Val : Z := 0.
Definition CAN_GFC_ANFS_REJECT_Val : Z := 2.
Definition CAN_GFC_ANFE_REJECT_Val : Z := 2.
Definition GCLK_PCHCTRL_GEN_GCLK1_Val : Z := 1.
Definition GCLK_PCHCTRL_CHEN_Pos : Z := 6.
Definition GCLK_CAN1 : Z := GCLK_PCHCTRL_GEN_GCLK1_Val.
Definition CAN1_FUNCTION : Z := 7.
Definition INPUT : Z := 0.

(** The registers of [Can] that the driver touches.  A register holds the
    value last written to it. *)
Record Can : Set := CanRegs {
  CCCR : Z;
  TEST : Z;
  NBTP : Z;
  IR : Z;
  IE : Z;
  GFC : Z;
  SIDFC : Z;
  XIDFC : Z;
  RXF0C : Z;
  RXF0S : Z;
  RXF0A : Z;
  RXESC : Z;
  TXBC : Z;
  TXESC : Z;
  TXBAR : Z
}.

(** ** The controller object *)

(** The members of the base class [CANControllerClass] that the driver
    reads and writes.  A function pointer is [None] when null. *)
Record CANControllerClass : Set := Controller {
  _onReceive : option Z;    (* pointer to a void function of an int *)
  _txId : Z;
  _txExtended : bool;
  _txRtr : bool;
  _txLength : Z;
  _txData : list Z;         (* uint8_t _txData[8] *)
  _rxId : Z;
  _rxExtended : bool;
  _rxRtr : bool;
  _rxDlc : Z;
  _rxLength : Z;
  _rxIndex : Z;
  _rxData : list Z          (* uint8_t _rxData[8] *)
}.

Record CANSAME5x : Set := Driver {
  base : CANControllerClass;
  _tx : Z;
  _rx : Z;
  _idx : Z;
  _hw : Z;
  _state : Z
}.

(** Calls out of the driver: into the Arduino core and, through
    [_onReceive], into the application. *)
Inductive core_call : Set :=
| pinPeripheral (pin function : Z)
| pinMode (pin mode : Z)
| yield
| callback (f arg : Z).

(** Everything a method can read or change: the interrupt mask and its
    counters, the message RAM [can_state], the registers of [CAN1], the
    peripheral channel control of the generic clock, the object itself,
    the table [instances] (an entry is [true] when it points to this
    object) and the calls made out of the driver, latest first. *)
Record World : Set := MkWorld {
  irq : cpu_irq;
  can_state : _canSAME5x_state;
  CAN1 : Can;
  PCHCTRL_CAN1 : Z;
  this : CANSAME5x;
  instances : list bool;
  calls : list core_call
}.

(** ** Methods: state transformers that may have no defined result *)

Definition M (A : Type) : Type := World -> option (A * World).

Definition ret {A : Type} (a : A) : M A := fun w => Some (a, w).

Definition bind {A B : Type} (m : M A) (k : A -> M B) : M B :=
  fun w => match m w with
           | Some (a, w') => k a w'
           | None => None
           end.

Notation "x <- m ;; k" := (bind m (fun x => k))
  (at level 61, m at next level, right associativity).
Notation "m ;; k" := (bind m (fun _ => k))
  (at level 61, right associativity).

Definition get {A : Type} (f : World -> A) : M A := fun w => Some (f w, w).

Definition lift {A : Type} (o : option A) : M A :=
  fun w => match o with
           | Some a => Some (a, w)
           | None => None
           end.

Definition update_irq (f : cpu_irq -> cpu_irq) : M unit := fun w =>
  Some (tt, MkWorld (f (irq w)) (can_state w) (CAN1 w) (PCHCTRL_CAN1 w)
                    (this w) (instances w) (calls w)).

Definition update_can_state (f : _canSAME5x_state -> _canSAME5x_state)
  : M unit := fun w =>
  Some (tt, MkWorld (irq w) (f (can_state w)) (CAN1 w) (PCHCTRL_CAN1 w)
                    (this w) (instances w) (calls w)).

Definition update_CAN1 (f : Can -> Can) : M unit := fun w =>
  Some (tt, MkWorld (irq w) (can_state w) (f (CAN1 w)) (PCHCTRL_CAN1 w)
                    (this w) (instances w) (calls w)).

Definition set_PCHCTRL_CAN1 (v : Z) : M unit := fun w =>
  Some (tt, MkWorld (irq w) (can_state w) (CAN1 w) v
                    (this w) (instances w) (calls w)).

Definition update_this (f : CANSAME5x -> CANSAME5x) : M unit := fun w =>
  Some (tt, MkWorld (irq w) (can_state w) (CAN1 w) (PCHCTRL_CAN1 w)
                    (f (this w)) (instances w) (calls w)).

Definition set_instances (l : list bool) : M unit := fun w =>
  Some (tt, MkWorld (irq w) (can_state w) (CAN1 w) (PCHCTRL_CAN1 w)
                    (this w) l (calls w)).

Definition call (c : core_call) : M unit := fun w =>
  Some (tt, MkWorld (irq w) (can_state w) (CAN1 w) (PCHCTRL_CAN1 w)
                    (this w) (instances w) (c :: calls w)).

(** [while (!cond) { }]: a register holds what was last written to it, so
    a wait whose condition does not hold never ends. *)
Definition await (cond : World -> bool) : M unit := fun w =>
  if cond w then Some (tt, w) else None.

(** Register writes. *)
Definition set_CCCR (v : Z) (hw : Can) : Can :=
  CanRegs v (TEST hw) (NBTP hw) (IR hw) (IE hw) (GFC hw) (SIDFC hw)
          (XIDFC hw) (RXF0C hw) (RXF0S hw) (RXF0A hw) (RXESC hw) (TXBC hw)
          (TXESC hw) (TXBAR hw).
Definition set_TEST (v : Z) (hw : Can) : Can :=
  CanRegs (CCCR hw) v (NBTP hw) (IR hw) (IE hw) (GFC hw) (SIDFC hw)
          (XIDFC hw) (RXF0C hw) (RXF0S hw) (RXF0A hw) (RXESC hw) (TXBC hw)
          (TXESC hw) (TXBAR hw).
Definition set_NBTP (v : Z) (hw : Can) : Can :=
  CanRegs (CCCR hw) (TEST hw) v (IR hw) (IE hw) (GFC hw) (SIDFC hw)
          (XIDFC hw) (RXF0C hw) (RXF0S hw) (RXF0A hw) (RXESC hw) (TXBC hw)
          (TXESC hw) (TXBAR hw).
Definition set_IR (v : Z) (hw : Can) : Can :=
  CanRegs (CCCR hw) (TEST hw) (NBTP hw) v (IE hw) (GFC hw) (SIDFC hw)
          (XIDFC hw) (RXF0C hw) (RXF0S hw) (RXF0A hw) (RXESC hw) (TXBC hw)
          (TXESC hw) (TXBAR hw).
Definition set_IE (v : Z) (hw : Can) : Can :=
  CanRegs (CCCR hw) (TEST hw) (NBTP hw) (IR hw) v (GFC hw) (SIDFC hw)
          (XIDFC hw) (RXF0C hw) (RXF0S hw) (RXF0A hw) (RXESC hw) (TXBC hw)
          (TXESC hw) (TXBAR hw).
Definition set_GFC (v : Z) (hw : Can) : Can :=
  CanRegs (CCCR hw) (TEST hw) (NBTP hw) (IR hw) (IE hw) v (SIDFC hw)
          (XIDFC hw) (RXF0C hw) (RXF0S hw) (RXF0A hw) (RXESC hw) (TXBC hw)
          (TXESC hw) (TXBAR hw).
Definition set_SIDFC (v : Z) (hw : Can) : Can :=
  CanRegs (CCCR hw) (TEST hw) (NBTP hw) (IR hw) (IE hw) (GFC hw) v
          (XIDFC hw) (RXF0C hw) (RXF0S hw) (RXF0A hw) (RXESC hw) (TXBC hw)
          (TXESC hw) (TXBAR hw).
Definition set_XIDFC (v : Z) (hw : Can) : Can :=
  CanRegs (CCCR hw) (TEST hw) (NBTP hw) (IR hw) (IE hw) (GFC hw) (SIDFC hw)
          v (RXF0C hw) (RXF0S hw) (RXF0A hw) (RXESC hw) (TXBC hw)
          (TXESC hw) (TXBAR hw).
Definition set_RXF0C (v : Z) (hw : Can) : Can :=
  CanRegs (CCCR hw) (TEST hw) (NBTP hw) (IR hw) (IE hw) (GFC hw) (SIDFC hw)
          (XIDFC hw) v (RXF0S hw) (RXF0A hw) (RXESC hw) (TXBC hw)
          (TXESC hw) (TXBAR hw).
Definition set_RXF0A (v : Z) (hw : Can) : Can :=
  CanRegs (CCCR hw) (TEST hw) (NBTP hw) (IR hw) (IE hw) (GFC hw) (SIDFC hw)
          (XIDFC hw) (RXF0C hw) (RXF0S hw) v (RXESC hw) (TXBC hw)
          (TXESC hw) (TXBAR hw).
Definition set_RXESC (v : Z) (hw : Can) : Can :=
  CanRegs (CCCR hw) (TEST hw) (NBTP hw) (IR hw) (IE hw) (GFC hw) (SIDFC hw)
          (XIDFC hw) (RXF0C hw) (RXF0S hw) (RXF0A hw) v (TXBC hw)
          (TXESC hw) (TXBAR hw).
Definition set_TXBC (v : Z) (hw : Can) : Can :=
  CanRegs (CCCR hw) (TEST hw) (NBTP hw) (IR hw) (IE hw) (GFC hw) (SIDFC hw)
          (XIDFC hw) (RXF0C hw) (RXF0S hw) (RXF0A hw) (RXESC hw) v
          (TXESC hw) (TXBAR hw).
Definition set_TXESC (v : Z) (hw : Can) : Can :=
  CanRegs (CCCR hw) (TEST hw) (NBTP hw) (IR hw) (IE hw) (GFC hw) (SIDFC hw)
          (XIDFC hw) (RXF0C hw) (RXF0S hw) (RXF0A hw) (RXESC hw) (TXBC hw)
          v (TXBAR hw).
Definition set_TXBAR (v : Z) (hw : Can) : Can :=
  CanRegs (CCCR hw) (TEST hw) (NBTP hw) (IR hw) (IE hw) (GFC hw) (SIDFC hw)
          (XIDFC hw) (RXF0C hw) (RXF0S hw) (RXF0A hw) (RXESC hw) (TXBC hw)
          (TXESC hw) v.

(** [hw->CCCR.bit.F = v]. *)
Definition write_CCCR (f : bitfield) (v : Z) : M unit :=
  update_CAN1 (fun hw => set_CCCR (wr f (CCCR hw) v) hw).

(** Message RAM writes. *)
Definition set_tx_buffer (b : _canSAME5x_tx_buf) (s : _canSAME5x_state)
  : _canSAME5x_state :=
  CanState b (rx_fifo s) (standard_rx_filter s) (extended_rx_filter s).

Definition set_filters (sf : CanMramSidfe) (xf : CanMramXifde)
           (s : _canSAME5x_state) : _canSAME5x_state :=
  CanState (tx_buffer s) (rx_fifo s) sf xf.

(** The conversion of an integer to [bool]. *)
Definition to_bool (v : Z) : bool := negb (v =? 0).

(** ** filter and filterExtended

    Both are declared [int] and return no value. *)

Definition filter (id mask : Z) : M unit :=
  update_can_state (fun s =>
    (* accept matching standard messages *)
    let sf := SIDFE_0 (standard_rx_filter s) in
    let sf := wr SIDFE_0_SFID1 sf id in
    let sf := wr SIDFE_0_SFID2 sf mask in
    let sf := wr SIDFE_0_SFEC sf CAN_SIDFE_0_SFEC_STF0M_Val in
    let sf := wr SIDFE_0_SFT sf CAN_SIDFE_0_SFT_CLASSIC_Val in
    (* reject all extended messages *)
    let x0 := XIDFE_0 (extended_rx_filter s) in
    let x1 := XIDFE_1 (extended_rx_filter s) in
    let x0 := wr XIDFE_0_EFID1 x0 0 in
    let x0 := wr XIDFE_0_EFEC x0 CAN_XIDFE_0_EFEC_REJECT_Val in
    let x1 := wr XIDFE_1_EFID2 x1 0 in
    let x1 := wr XIDFE_1_EFT x1 CAN_XIDFE_1_EFT_CLASSIC_Val in
    set_filters (Sidfe sf) (Xifde x0 x1) s).

Definition filterExtended (id mask : Z) : M unit :=
  update_can_state (fun s =>
    (* reject all standard messages *)
    let sf := SIDFE_0 (standard_rx_filter s) in
    let sf := wr SIDFE_0_SFID1 sf 0 in
    let sf := wr SIDFE_0_SFID2 sf 0 in
    let sf := wr SIDFE_0_SFEC sf CAN_SIDFE_0_SFEC_REJECT_Val in
    let sf := wr SIDFE_0_SFT sf CAN_SIDFE_0_SFT_CLASSIC_Val in
    let x0 := XIDFE_0 (extended_rx_filter s) in
    let x1 := XIDFE_1 (extended_rx_filter s) in
    let x0 := wr XIDFE_0_EFID1 x0 id in
    let x0 := wr XIDFE_0_EFEC x0 CAN_XIDFE_0_EFEC_REJECT_Val in
    let x1 := wr XIDFE_1_EFID2 x1 mask in
    let x1 := wr XIDFE_1_EFT x1 CAN_XIDFE_1_EFT_CLASSIC_Val in
    set_filters (Sidfe sf) (Xifde x0 x1) s).

(** ** parsePacket *)

Definition parsePacket : M Z :=
  update_irq cpu_irq_enter_critical ;;
  hw <- get CAN1 ;;
  if rd RXF0S_F0FL (RXF0S hw) =? 0 then
    (* return 0; the call of cpu_irq_leave_critical that follows the
       return statement is never reached *)
    ret 0
  else
    let index_ := rd RXF0S_F0GI (RXF0S hw) in
    fifo <- get (fun w => rx_fifo (can_state w)) ;;
    hw_message <- lift (index fifo index_) ;;
    let rxExtended := to_bool (rd RXF0E_0_XTD (rxf0 hw_message)) in
    let rxRtr := to_bool (rd RXF0E_0_RTR (rxf0 hw_message)) in
    let rxDlc := rd RXF0E_1_DLC (rxf1 hw_message) in
    let rxId := if rxExtended then rd RXF0E_0_ID (rxf0 hw_message)
                else Z.shiftr (rd RXF0E_0_ID (rxf0 hw_message)) 18 in
    me <- get (fun w => base (this w)) ;;
    let rxLength := if rxRtr then 0 else rxDlc in
    rxData <- lift (if rxRtr then Some (_rxData me)
                    else memcpy (_rxData me) (rx_data hw_message) rxLength) ;;
    update_this (fun t =>
      Driver (Controller (_onReceive me) (_txId me) (_txExtended me)
                         (_txRtr me) (_txLength me) (_txData me)
                         rxId rxExtended rxRtr rxDlc rxLength 0 rxData)
             (_tx t) (_rx t) (_idx t) (_hw t) (_state t)) ;;
    update_CAN1 (fun hw => set_RXF0A (wr RXF0A_F0AI (RXF0A hw) index_) hw) ;;
    update_irq cpu_irq_leave_critical ;;
    ret rxDlc.

(** ** begin *)

Section Begin.

(** [VARIANT_GCLK1_FREQ], the frequency of the generic clock that feeds
    the peripheral. *)
Variable can_frequency : Z.

(** The addresses of the linker-placed [can_state] and of [CAN1]. *)
Variable can_state_address : Z.
Variable CAN1_address : Z.

(** [nbtp] is the indeterminate first content of the local variable
    that receives the bit timing. *)
Definition begin (nbtp : CAN_NBTP_Type) (baudrate : Z) : M Z :=
  me <- get this ;;
  if _tx me =? -1 then ret 0
  else
    computed <- lift (compute_nbtp can_frequency (u32 baudrate) nbtp) ;;
    if negb (fst computed) then ret 0
    else
      let nbtp := snd computed in
      (* TODO: Support the CAN0 peripheral, which uses pinmux 8 *)
      update_this (fun t =>
        Driver (base t) (_tx t) (_rx t) 1 CAN1_address can_state_address) ;;
      update_can_state (fun _ => zeroed_state) ;;
      call (pinPeripheral (_tx me) CAN1_FUNCTION) ;;
      call (pinPeripheral (_rx me) CAN1_FUNCTION) ;;
      set_PCHCTRL_CAN1
        (Z.lor GCLK_CAN1 (Z.shiftl 1 GCLK_PCHCTRL_CHEN_Pos)) ;;
      (* reset and allow configuration change *)
      write_CCCR CCCR_INIT 1 ;;
      await (fun w => to_bool (rd CCCR_INIT (CCCR (CAN1 w)))) ;;
      write_CCCR CCCR_CCE 1 ;;
      (* All TX data has an 8 byte payload (max) *)
      update_CAN1 (set_TXESC (wr TXESC_TBDS 0 CAN_TXESC_TBDS_DATA8_Val)) ;;
      (* Set up TX buffer *)
      update_CAN1 (set_TXBC
        (let bc := wr TXBC_TBSA 0 (can_state_address + offsetof_tx_buffer) in
         let bc := wr TXBC_NDTB bc ADAFRUIT_ZEROCAN_TX_BUFFER_SIZE in
         wr TXBC_TFQM bc 0)) ;;
      (* All RX data has an 8 byte payload (max) *)
      update_CAN1 (set_RXESC
        (let esc := wr RXESC_F0DS 0 CAN_RXESC_F0DS_DATA8_Val in
         let esc := wr RXESC_F1DS esc CAN_RXESC_F1DS_DATA8_Val in
         wr RXESC_RBDS esc CAN_RXESC_RBDS_DATA8_Val)) ;;
      (* Set up RX fifo 0 *)
      update_CAN1 (set_RXF0C
        (let rxf := wr RXF0C_F0SA 0 (can_state_address + offsetof_rx_fifo) in
         wr RXF0C_F0S rxf ADAFRUIT_ZEROCAN_RX_FIFO_SIZE)) ;;
      (* Reject all packets not explicitly requested *)
      update_CAN1 (set_GFC
        (let gfc := wr GFC_RRFE 0 0 in
         let gfc := wr GFC_ANFS gfc CAN_GFC_ANFS_REJECT_Val in
         wr GFC_ANFE gfc CAN_GFC_ANFE_REJECT_Val)) ;;
      (* Initially, receive all standard and extended packets to FIFO 0 *)
      update_can_state (fun s =>
        let sf := SIDFE_0 (standard_rx_filter s) in
        let sf := wr SIDFE_0_SFID1 sf 0 in
        let sf := wr SIDFE_0_SFID2 sf 0 in
        let sf := wr SIDFE_0_SFEC sf CAN_SIDFE_0_SFEC_STF0M_Val in
        let sf := wr SIDFE_0_SFT sf CAN_SIDFE_0_SFT_CLASSIC_Val in
        let x0 := XIDFE_0 (extended_rx_filter s) in
        let x1 := XIDFE_1 (extended_rx_filter s) in
        let x0 := wr XIDFE_0_EFID1 x0 0 in
        let x0 := wr XIDFE_0_EFEC x0 CAN_XIDFE_0_EFEC_STF0M_Val in
        let x1 := wr XIDFE_1_EFID2 x1 0 in
        let x1 := wr XIDFE_1_EFT x1 CAN_XIDFE_1_EFT_CLASSIC_Val in
        set_filters (Sidfe sf) (Xifde x0 x1) s) ;;
      (* Set up standard RX filters *)
      update_CAN1 (set_SIDFC
        (let dfc := wr SIDFC_LSS 0 ADAFRUIT_ZEROCAN_RX_FILTER_SIZE in
         wr SIDFC_FLSSA dfc
            (can_state_address + offsetof_standard_rx_filter))) ;;
      (* Set up extended RX filters *)
      update_CAN1 (set_XIDFC
        (let dfc := wr XIDFC_LSE 0 ADAFRUIT_ZEROCAN_RX_FILTER_SIZE in
         wr XIDFC_FLESA dfc
            (can_state_address + offsetof_extended_rx_filter))) ;;
      (* Set nominal baud rate *)
      update_CAN1 (set_NBTP nbtp) ;;
      (* hardware is ready for use *)
      write_CCCR CCCR_CCE 0 ;;
      write_CCCR CCCR_INIT 0 ;;
      await (fun w => negb (to_bool (rd CCCR_INIT (CCCR (CAN1 w))))) ;;
      me <- get this ;;
      table <- get instances ;;
      table <- lift (store table (_idx me) true) ;;
      set_instances table ;;
      ret 1.

End Begin.

(** ** end *)

Definition end_ : M unit :=
  me <- get this ;;
  table <- get instances ;;
  table <- lift (store table (_idx me) false) ;;
  set_instances table ;;
  call (pinMode (_tx me) INPUT) ;;
  call (pinMode (_rx me) INPUT) ;;
  (* reset and disable clock *)
  write_CCCR CCCR_INIT 1 ;;
  await (fun w => to_bool (rd CCCR_INIT (CCCR (CAN1 w)))) ;;
  set_PCHCTRL_CAN1 (Z.lor GCLK_CAN1 (Z.shiftl 1 GCLK_PCHCTRL_CHEN_Pos)).

(** ** endPacket *)

Section Transmit.

(** [CANControllerClass::endPacket], the base-class method: its result
    and the object's base part afterwards. *)
Variable CANControllerClass_endPacket
  : CANControllerClass -> Z * CANControllerClass.

(** [TXBTO i] is the value that the read of the transmission occurred
    register returns in iteration [i] of the wait. *)
Variable TXBTO : Z -> Z.

(** [for (int i = 0; i < 8000; i++) { ... }] followed by [return 1];
    [n] counts the iterations that remain. *)
Fixpoint wait_for_tx (n : nat) (i : Z) : M Z :=
  match n with
  | O => ret 1
  | S n' =>
    if negb (Z.land (TXBTO i) 1 =? 0) then
      ret (Z.b2z true)
    else
      call yield ;; wait_for_tx n' (i + 1)
  end.

Definition endPacket : M Z :=
  me <- get (fun w => base (this w)) ;;
  let (ok, me) := CANControllerClass_endPacket me in
  update_this (fun t =>
    Driver me (_tx t) (_rx t) (_idx t) (_hw t) (_state t)) ;;
  if ok =? 0 then ret 0
  else
    (* TODO wait for TX buffer to free *)
    buf <- get (fun w => tx_buffer (can_state w)) ;;
    let b0 := wr TXBE_0_ESI (txb0 buf) (Z.b2z false) in
    let b0 := wr TXBE_0_XTD b0 (Z.b2z (_txExtended me)) in
    let b0 := wr TXBE_0_RTR b0 (Z.b2z (_txRtr me)) in
    let b0 := if _txExtended me then wr TXBE_0_ID b0 (_txId me)
              else wr TXBE_0_ID b0 (Z.shiftl (_txId me) 18) in
    let b1 := wr TXBE_1_MM (txb1 buf) 0 in
    let b1 := wr TXBE_1_EFC b1 0 in
    let b1 := wr TXBE_1_FDF b1 0 in
    let b1 := wr TXBE_1_BRS b1 0 in
    let b1 := wr TXBE_1_DLC b1 (_txLength me) in
    data <- lift (if _txRtr me then Some (tx_data buf)
                  else memcpy (tx_data buf) (_txData me) (_txLength me)) ;;
    update_can_state (set_tx_buffer (TxBuf b0 b1 data)) ;;
    (* TX buffer add request *)
    update_CAN1 (set_TXBAR 1) ;;
    (* wait 8ms (hard coded for now) for TX to occur *)
    wait_for_tx (Z.to_nat 8000) 0.

End Transmit.

(** ** onReceive and the interrupt path *)

Section Receive.

(** [CANControllerClass::onReceive] and [CANControllerClass::available],
    the base-class methods. *)
Variable CANControllerClass_onReceive
  : option Z -> CANControllerClass -> CANControllerClass.
Variable CANControllerClass_available : CANControllerClass -> Z.

(** What happens between two polls of the receive FIFO: the
    application's callback runs and the peripheral moves on. *)
Variable between_polls : World -> World.

Definition onReceive (f : option Z) : M unit :=
  update_this (fun t =>
    Driver (CANControllerClass_onReceive f (base t))
           (_tx t) (_rx t) (_idx t) (_hw t) (_state t)) ;;
  update_CAN1 (fun hw =>
    set_IE (wr IE_RF0NE (IE hw)
               (Z.b2z match f with Some _ => true | None => false end))
           hw).

(** [while (parsePacket()) { _onReceive(available()); }]; [fuel] bounds
    the number of polls, and a loop that needs more has no result. *)
Fixpoint drain (fuel : nat) : M unit :=
  match fuel with
  | O => fun _ => None
  | S fuel' =>
    n <- parsePacket ;;
    if n =? 0 then ret tt
    else
      me <- get (fun w => base (this w)) ;;
      f <- lift (_onReceive me) ;;
      call (callback f (CANControllerClass_available me)) ;;
      (fun w => Some (tt, between_polls w)) ;;
      drain fuel'
  end.

Definition handleInterrupt (fuel : nat) : M unit :=
  ir <- get (fun w => IR (CAN1 w)) ;;
  (if negb (Z.land ir CAN_IR_RF0N =? 0) then drain fuel else ret tt) ;;
  update_CAN1 (set_IR ir).

Definition onInterrupt (fuel : nat) (idx : Z) : M unit :=
  table <- get instances ;;
  instance <- lift (index table idx) ;;
  if instance then handleInterrupt fuel else ret tt.

Definition CAN0_Handler (fuel : nat) : M unit :=
  update_irq cpu_irq_enter_critical ;;
  onInterrupt fuel 0 ;;
  update_irq cpu_irq_leave_critical.

Definition CAN1_Handler (fuel : nat) : M unit :=
  update_irq cpu_irq_enter_critical ;;
  onInterrupt fuel 1 ;;
  update_irq cpu_irq_leave_critical.

End Receive.

(** ** Modes *)

Definition observe : M Z :=
  write_CCCR CCCR_INIT 1 ;;
  await (fun w => to_bool (rd CCCR_INIT (CCCR (CAN1 w)))) ;;
  write_CCCR CCCR_CCE 1 ;;
  write_CCCR CCCR_MON 1 ;;
  write_CCCR CCCR_CCE 0 ;;
  write_CCCR CCCR_INIT 0 ;;
  await (fun w => negb (to_bool (rd CCCR_INIT (CCCR (CAN1 w))))) ;;
  ret 1.

Definition loopback : M Z :=
  write_CCCR CCCR_INIT 1 ;;
  await (fun w => to_bool (rd CCCR_INIT (CCCR (CAN1 w)))) ;;
  write_CCCR CCCR_CCE 1 ;;
  write_CCCR CCCR_TEST 1 ;;
  update_CAN1 (fun hw => set_TEST (wr TEST_LBCK (TEST hw) 1) hw) ;;
  write_CCCR CCCR_CCE 0 ;;
  write_CCCR CCCR_INIT 0 ;;
  await (fun w => negb (to_bool (rd CCCR_INIT (CCCR (CAN1 w))))) ;;
  ret 1.

Definition sleep : M Z :=
  write_CCCR CCCR_CSR 1 ;;
  await (fun w => to_bool (rd CCCR_CSA (CCCR (CAN1 w)))) ;;
  set_PCHCTRL_CAN1 GCLK_CAN1 ;;
  ret 1.

Definition wakeup : M Z :=
  set_PCHCTRL_CAN1 (Z.lor GCLK_CAN1 (Z.shiftl 1 GCLK_PCHCTRL_CHEN_Pos)) ;;
  write_CCCR CCCR_INIT 0 ;;
  await (fun w => negb (to_bool (rd CCCR_INIT (CCCR (CAN1 w))))) ;;
  ret 1.

(** ** Sample states *)

(** The world after [k] more calls of [yield]. *)
Definition after_yields (k : nat) (w : World) : World :=
  MkWorld (irq w) (can_state w) (CAN1 w) (PCHCTRL_CAN1 w)
          (this w) (instances w) (repeat yield k ++ calls w).


Definition fresh_controller : CANControllerClass :=
  Controller None 0 false false 0 (zero_bytes 8)
             0 false false 0 0 0 (zero_bytes 8).

(** A world at rest: interrupts enabled, message RAM and registers zero,
    the object holding the given pins. *)
Definition at_rest (tx rx : Z) : World :=
  MkWorld (CpuIrq 0 0 0) zeroed_state
          (CanRegs 0 0 0 0 0 0 0 0 0 0 0 0 0 0 0) 0
          (Driver fresh_controller tx rx 0 0 0) [false; false] [].

(** The world once the peripheral has stored one message in element 0 of
    the receive FIFO: fill level 1, get index 0. *)
Definition received (m : _canSAME5x_rx_fifo) (w : World) : World :=
  MkWorld (irq w)
          (CanState (tx_buffer (can_state w))
                    (store_nat (rx_fifo (can_state w)) 0 m)
                    (standard_rx_filter (can_state w))
                    (extended_rx_filter (can_state w)))
          (CanRegs (CCCR (CAN1 w)) (TEST (CAN1 w)) (NBTP (CAN1 w))
                   (IR (CAN1 w)) (IE (CAN1 w)) (GFC (CAN1 w))
                   (SIDFC (CAN1 w)) (XIDFC (CAN1 w)) (RXF0C (CAN1 w))
                   (wr RXF0S_F0GI (wr RXF0S_F0FL (RXF0S (CAN1 w)) 1) 0)
                   (RXF0A (CAN1 w)) (RXESC (CAN1 w)) (TXBC (CAN1 w))
                   (TXESC (CAN1 w)) (TXBAR (CAN1 w)))
          (PCHCTRL_CAN1 w) (this w) (instances w) (calls w).

(** A remote-request message with length code 15. *)
Definition remote_request_15 : _canSAME5x_rx_fifo :=
  RxFifo (wr RXF0E_0_RTR 0 1) (wr RXF0E_1_DLC 0 15) (zero_bytes 8).

(** A data message with standard identifier 0x123 and the three payload
    bytes 1, 2, 3, and a data message with length code 9. *)
Definition data_message_3 : _canSAME5x_rx_fifo :=
  RxFifo (wr RXF0E_0_ID 0 (Z.shiftl 291 18)) (wr RXF0E_1_DLC 0 3)
         [1; 2; 3; 0; 0; 0; 0; 0].

Definition data_message_9 : _canSAME5x_rx_fifo :=
  RxFifo (wr RXF0E_0_ID 0 (Z.shiftl 291 18)) (wr RXF0E_1_DLC 0 9)
         [1; 2; 3; 4; 5; 6; 7; 8].

(** A base class that lets a packet go: standard identifier 0x123 and
    the three payload bytes 1, 2, 3. *)
Definition packet_3 (me : CANControllerClass) : Z * CANControllerClass :=
  (1, Controller (_onReceive me) 291 false false 3 [1; 2; 3; 0; 0; 0; 0; 0]
                 (_rxId me) (_rxExtended me) (_rxRtr me) (_rxDlc me)
                 (_rxLength me) (_rxIndex me) (_rxData me)).

(** A base class that refuses the packet. *)
Definition no_packet (me : CANControllerClass) : Z * CANControllerClass :=
  (0, me).

(** A world in which the peripheral acknowledges the clock stop. *)
Definition clock_stop_acknowledged : World :=
  MkWorld (CpuIrq 0 0 0) zeroed_state
          (CanRegs (wr CCCR_CSA 0 1) 0 0 0 0 0 0 0 0 0 0 0 0 0 0) 0
          (Driver fresh_controller 4 5 1 0 0) [false; true] [].

(** A world in which the object is registered as instance 1 with the
    callback 7 and the new-message interrupt of FIFO 0 is pending. *)
Definition interrupt_pending : World :=
  MkWorld (CpuIrq 0 0 0) zeroed_state
          (CanRegs 0 0 0 CAN_IR_RF0N 1 0 0 0 0 0 0 0 0 0 0) 0
          (Driver (Controller (Some 7) 0 false false 0 (zero_bytes 8)
                              0 false false 0 0 0 (zero_bytes 8))
                  4 5 1 0 0)
          [false; true] [].

(** A data message of length 0. *)
Definition data_message_0 : _canSAME5x_rx_fifo :=
  RxFifo (wr RXF0E_0_ID 0 (Z.shiftl 291 18)) 0 (zero_bytes 8).

(** The peripheral moving on after an acknowledge that empties the
    receive FIFO: the fill level reads 0. *)
Definition fifo_emptied (w : World) : World :=
  MkWorld (irq w) (can_state w)
          (CanRegs (CCCR (CAN1 w)) (TEST (CAN1 w)) (NBTP (CAN1 w))
                   (IR (CAN1 w)) (IE (CAN1 w)) (GFC (CAN1 w))
                   (SIDFC (CAN1 w)) (XIDFC (CAN1 w)) (RXF0C (CAN1 w))
                   (wr RXF0S_F0FL (RXF0S (CAN1 w)) 0)
                   (RXF0A (CAN1 w)) (RXESC (CAN1 w)) (TXBC (CAN1 w))
                   (TXESC (CAN1 w)) (TXBAR (CAN1 w)))
          (PCHCTRL_CAN1 w) (this w) (instances w) (calls w).

(** * Properties *)

(** ** Bit-fields *)

Lemma rd_range (f : bitfield) (reg : Z) :
  0 <= width f -> 0 <= rd f reg < 2 ^ width f.
Proof.
  intros Hw. unfold rd. rewrite Z.land_ones by assumption.
  apply Z.mod_pos_bound. apply Z.pow_pos_nonneg; lia.
Qed.

Lemma testbit_mask (f : bitfield) (i : Z) :
  0 <= pos f -> 0 <= width f -> 0 <= i ->
  Z.testbit (mask f) i = (pos f <=? i) && (i <? pos f + width f).
Proof.
  intros Hp Hw Hi. unfold mask.
  rewrite Z.shiftl_spec by assumption.
  destruct (Z.leb_spec (pos f) i) as [Hle | Hlt].
  - rewrite Z.testbit_ones by assumption.
    destruct (Z.leb_spec 0 (i - pos f)); [| lia ].
    destruct (Z.ltb_spec (i - pos f) (width f));
      destruct (Z.ltb_spec i (pos f + width f)); (lia || reflexivity).
  - rewrite Z.testbit_neg_r by lia. reflexivity.
Qed.

Lemma rd_wr_same (f : bitfield) (reg v : Z) :
  0 <= pos f -> 0 <= width f ->
  rd f (wr f reg v) = v mod 2 ^ width f.
Proof.
  intros Hp Hw. rewrite <- Z.land_ones by assumption.
  unfold rd, wr. apply Z.bits_inj'. intros i Hi.
  rewrite !Z.land_spec, Z.shiftr_spec, Z.lor_spec, !Z.land_spec by assumption.
  rewrite Z.lnot_spec by lia.
  rewrite testbit_mask by lia.
  rewrite Z.shiftl_spec by lia.
  rewrite Z.testbit_ones by assumption.
  replace (i + pos f - pos f) with i by lia.
  destruct (Z.leb_spec 0 i); [| lia ].
  destruct (Z.leb_spec (pos f) (i + pos f)); [| lia ].
  destruct (Z.ltb_spec i (width f));
    destruct (Z.ltb_spec (i + pos f) (pos f + width f)); try lia;
    cbn; rewrite ?andb_false_r, ?andb_true_r, ?orb_false_r; reflexivity.
Qed.

Lemma rd_wr_other (f g : bitfield) (reg v : Z) :
  0 <= pos f -> 0 <= width f -> 0 <= pos g -> 0 <= width g ->
  pos f + width f <= pos g \/ pos g + width g <= pos f ->
  rd f (wr g reg v) = rd f reg.
Proof.
  intros Hp Hw Hp' Hw' Hdisj.
  unfold rd, wr. apply Z.bits_inj'. intros i Hi.
  rewrite !Z.land_spec, !Z.shiftr_spec, Z.lor_spec, !Z.land_spec by assumption.
  rewrite Z.lnot_spec by lia.
  rewrite testbit_mask by lia.
  rewrite Z.testbit_ones by assumption.
  destruct (Z.leb_spec 0 i); [| lia ].
  destruct (Z.ltb_spec i (width f)); cbn;
    [| rewrite !andb_false_r; reflexivity ].
  destruct (Z.leb_spec (pos g) (i + pos f));
    destruct (Z.ltb_spec (i + pos f) (pos g + width g)); try lia;
    cbn; rewrite ?andb_false_r, ?andb_true_r, ?orb_false_r; reflexivity.
Qed.

(** ** Rounding and ceiling division *)

Lemma round_div_bounds (a d : Z) :
  0 < d ->
  2 * d * Spec.round_div a d <= 2 * a + d < 2 * d * (Spec.round_div a d + 1).
Proof.
  intros Hd. unfold Spec.round_div.
  pose proof (Z.div_mod (2 * a + d) (2 * d) ltac:(lia)) as Hdm.
  pose proof (Z.mod_pos_bound (2 * a + d) (2 * d) ltac:(lia)) as Hmod.
  lia.
Qed.

Lemma round_div_unique (a d q : Z) :
  0 < d -> 2 * d * q <= 2 * a + d < 2 * d * (q + 1) ->
  Spec.round_div a d = q.
Proof.
  intros Hd Hq. pose proof (round_div_bounds a d Hd) as Hb.
  nia.
Qed.

(** The macro's [(a + b / 2) / b] is exact round-half-up. *)
Lemma half_up_macro (a b : Z) :
  0 < b -> (a + b / 2) / b = Spec.round_div a b.
Proof.
  intros Hb. symmetry. apply round_div_unique; [assumption|].
  pose proof (Z.div_mod (a + b / 2) b ltac:(lia)) as Hdm.
  pose proof (Z.mod_pos_bound (a + b / 2) b ltac:(lia)) as Hmod.
  pose proof (Z.div_mod b 2 ltac:(lia)) as Hh.
  pose proof (Z.mod_pos_bound b 2 ltac:(lia)) as Hh2.
  nia.
Qed.

Lemma DIV_ROUND_exact (a b : Z) :
  0 <= a -> 0 < b -> a + b / 2 < 2 ^ 32 ->
  DIV_ROUND a b = Some (Spec.round_div a b).
Proof.
  intros Ha Hb Hlt. unfold DIV_ROUND, udiv, u32.
  destruct (Z.eqb_spec b 0); [lia|].
  rewrite Z.mod_small, half_up_macro; [reflexivity | assumption |].
  pose proof (Z.div_pos b 2 ltac:(lia) ltac:(lia)). lia.
Qed.

Lemma ceil_div_le (a d k : Z) :
  0 < d -> Spec.ceil_div a d <= k <-> a <= k * d.
Proof.
  intros Hd. unfold Spec.ceil_div.
  pose proof (Z.div_mod (- a) d ltac:(lia)) as Hdm.
  pose proof (Z.mod_pos_bound (- a) d ltac:(lia)) as Hmod.
  split; intros H; nia.
Qed.

Lemma fits_iff (to_sample after_sample d : Z) :
  0 < d ->
  Spec.fits to_sample after_sample d <->
  to_sample <= 256 * d /\ after_sample <= 128 * d.
Proof.
  intros Hd. unfold Spec.fits. rewrite !ceil_div_le by assumption. lia.
Qed.

(** The smallest divisor in closed form. *)
Lemma smallest_divisor_iff (to_sample after_sample d : Z) :
  Spec.smallest_divisor to_sample after_sample d <->
  d = Z.max 1 (Z.max ((to_sample + 255) / 256) ((after_sample + 127) / 128)).
Proof.
  unfold Spec.smallest_divisor.
  set (m := Z.max 1 (Z.max ((to_sample + 255) / 256)
                           ((after_sample + 127) / 128))).
  assert (Hm1 : 1 <= m) by (subst m; lia).
  assert (Hmfits : to_sample <= 256 * m /\ after_sample <= 128 * m).
  { subst m. Z.div_mod_to_equations. lia. }
  assert (Hmleast : forall d', 1 <= d' ->
            to_sample <= 256 * d' /\ after_sample <= 128 * d' -> m <= d').
  { intros d' Hd' Hf. subst m. Z.div_mod_to_equations. lia. }
  split.
  - intros (Hd & Hf & Hleast).
    apply fits_iff in Hf; [|lia].
    pose proof (Hmleast d Hd Hf).
    assert (d <= m); [|lia].
    apply Hleast; [assumption|]. apply fits_iff; [lia|assumption].
  - intros ->. split; [assumption|]. split.
    + apply fits_iff; [lia|assumption].
    + intros d' Hd' Hf. apply Hmleast; [assumption|].
      apply fits_iff in Hf; [assumption|lia].
Qed.

(** ** compute_nbtp, case by case *)

Lemma u32_small (x : Z) : 0 <= x < 2 ^ 32 -> u32 x = x.
Proof. intros H. unfold u32. apply Z.mod_small. assumption. Qed.

Lemma max_is_Zmax (a b : Z) : max a b = Z.max a b.
Proof.
  unfold max. rewrite Z.gtb_ltb. destruct (Z.ltb_spec b a); lia.
Qed.

Lemma DIV_ROUND_UP_exact (a b : Z) :
  0 <= a -> 0 < b -> a + b <= 2 ^ 32 ->
  DIV_ROUND_UP a b = Some ((a + b - 1) / b).
Proof.
  intros Ha Hb Hlt. unfold DIV_ROUND_UP, udiv.
  destruct (Z.eqb_spec b 0); [lia|].
  assert (Hin : u32 (u32 (a + b) - 1) = a + b - 1).
  { unfold u32. change (2 ^ 32) with 4294967296 in *.
    Z.div_mod_to_equations. lia. }
  rewrite Hin. reflexivity.
Qed.

(** With more than 9362 clocks in a bit the divisor exceeds 32, also
    where the 32-bit products wrap around. *)
Lemma compute_nbtp_large (clock baud r0 c : Z) :
  DIV_ROUND clock baud = Some c -> 9362 < c < 2 ^ 32 ->
  compute_nbtp clock baud r0 = Some (false, r0).
Proof.
  intros Hc Hrange. unfold compute_nbtp. rewrite Hc.
  unfold DIV_ROUND at 1. unfold DIV_ROUND_UP, udiv. cbn [Z.eqb].
  match goal with
  | |- (if ?b then _ else _) = _ => assert (Hgt : b = true)
  end.
  { rewrite max_is_Zmax. apply Z.gtb_lt. unfold u32.
    change (2 ^ 32) with 4294967296 in *. change (8 / 2) with 4.
    Z.div_mod_to_equations. lia. }
  rewrite Hgt. reflexivity.
Qed.

(** With no clock in a bit the divisor is zero and the derivation divides
    by it. *)
Lemma compute_nbtp_zero (clock baud r0 : Z) :
  DIV_ROUND clock baud = Some 0 ->
  compute_nbtp clock baud r0 = None.
Proof.
  intros Hc. unfold compute_nbtp. rewrite Hc. reflexivity.
Qed.

(** Between 1 and 9362 clocks in a bit nothing wraps around, the divisor
    lies in 1..32 and the four fields are written. *)
Lemma clocks_split (c : Z) :
  1 <= c <= 9362 ->
  let to_sample := Spec.round_div (c * 7) 8 in
  let after_sample := c - to_sample in
  let d := Z.max ((to_sample + 255) / 256) ((after_sample + 127) / 128) in
  1 <= to_sample <= 8192 /\ 0 <= after_sample <= 1171 /\ 1 <= d <= 32 /\
  8 * to_sample <= 7 * c + 4 < 8 * to_sample + 8.
Proof.
  intros Hc to_sample after_sample d.
  pose proof (round_div_bounds (c * 7) 8 ltac:(lia)) as Hb.
  fold to_sample in Hb.
  assert (1 <= to_sample <= 8192) by lia.
  assert (0 <= after_sample <= 1171) by (subst after_sample; lia).
  repeat split; try lia; subst d; Z.div_mod_to_equations; lia.
Qed.

Lemma compute_nbtp_small (clock baud r0 c : Z) :
  DIV_ROUND clock baud = Some c -> 1 <= c <= 9362 ->
  let to_sample := Spec.round_div (c * 7) 8 in
  let after_sample := c - to_sample in
  let d := Z.max ((to_sample + 255) / 256) ((after_sample + 127) / 128) in
  compute_nbtp clock baud r0 =
  Some (true,
        wr NBTP_NSJW
          (wr NBTP_NBRP
             (wr NBTP_NTSEG2
                (wr NBTP_NTSEG1 r0 (u32 (Spec.round_div to_sample d - 2)))
                (u32 (Spec.round_div after_sample d - 1)))
             (u32 (d - 1)))
          (Spec.round_div after_sample (d * 4))).
Proof.
  intros Hc Hrange to_sample after_sample d.
  destruct (clocks_split c Hrange) as (Hts & Has & Hd & _).
  fold to_sample after_sample d in Hts, Has, Hd.
  change (2 ^ 32) with 4294967296 in *.
  unfold compute_nbtp. rewrite Hc.
  rewrite (u32_small (c * 7)) by (change (2 ^ 32) with 4294967296; lia).
  rewrite DIV_ROUND_exact
    by (change (2 ^ 32) with 4294967296; change (8 / 2) with 4; lia).
  fold to_sample. cbv zeta.
  rewrite (u32_small (c - to_sample))
    by (change (2 ^ 32) with 4294967296; fold after_sample; lia).
  fold after_sample.
  rewrite !DIV_ROUND_UP_exact by (change (2 ^ 32) with 4294967296; lia).
  rewrite max_is_Zmax.
  replace (to_sample + 256 - 1) with (to_sample + 255) by lia.
  replace (after_sample + 128 - 1) with (after_sample + 127) by lia.
  fold d.
  destruct (Z.gtb_spec d 32) as [Hgt | _]; [lia|].
  rewrite (u32_small (d * 4)) by (change (2 ^ 32) with 4294967296; lia).
  assert (Hhalf : 0 <= d / 2 <= 16) by (Z.div_mod_to_equations; lia).
  assert (Hhalf4 : 0 <= d * 4 / 2 <= 64) by (Z.div_mod_to_equations; lia).
  rewrite !DIV_ROUND_exact by (change (2 ^ 32) with 4294967296; lia).
  reflexivity.
Qed.

Lemma round_div_ge (a d k : Z) :
  0 < d -> 2 * d * k <= 2 * a + d -> k <= Spec.round_div a d.
Proof.
  intros Hd H. unfold Spec.round_div.
  apply Z.div_le_lower_bound; lia.
Qed.

Lemma round_div_le (a d k : Z) :
  0 < d -> 2 * a + d < 2 * d * (k + 1) -> Spec.round_div a d <= k.
Proof.
  intros Hd H. unfold Spec.round_div.
  apply Z.lt_succ_r. apply Z.div_lt_upper_bound; lia.
Qed.

(** The quotients that the derivation writes, for 1..9362 clocks in a
    bit. *)
Lemma quotient_bounds (c : Z) :
  1 <= c <= 9362 ->
  let to_sample := Spec.round_div (c * 7) 8 in
  let after_sample := c - to_sample in
  let d := Z.max ((to_sample + 255) / 256) ((after_sample + 127) / 128) in
  let q1 := Spec.round_div to_sample d in
  let q2 := Spec.round_div after_sample d in
  let q4 := Spec.round_div after_sample (d * 4) in
  (0 <= q1 <= 256 /\ 0 <= q2 <= 128 /\ 0 <= q4 <= q2 /\ q4 <= 32) /\
  (5 <= c -> 2 <= q1 /\ 1 <= q2) /\
  (13 <= c -> 3 <= q1 /\ 2 <= q2).
Proof.
  intros Hc to_sample after_sample d q1 q2 q4.
  destruct (clocks_split c Hc) as (Hts & Has & Hd & Hsplit).
  fold to_sample after_sample d in Hts, Has, Hd, Hsplit.
  assert (Hfit : to_sample <= 256 * d /\ after_sample <= 128 * d).
  { subst d. Z.div_mod_to_equations. lia. }
  assert (Hleast : d = 1 \/ 256 * (d - 1) < to_sample).
  { subst d. Z.div_mod_to_equations. lia. }
  assert (Hc8 : after_sample = c - to_sample) by reflexivity.
  pose proof (round_div_bounds after_sample d ltac:(lia)) as H2.
  fold q2 in H2.
  assert (Hq4 : q4 <= q2).
  { subst q4. apply round_div_le; [lia|]. lia. }
  clearbody to_sample after_sample d.
  subst q1 q2 q4.
  assert (Hge : forall a k, 2 * d * k <= 2 * a + d -> k <= Spec.round_div a d)
    by (intros; apply round_div_ge; lia).
  assert (Hle : forall a k, 2 * a + d < 2 * d * (k + 1) ->
                            Spec.round_div a d <= k)
    by (intros; apply round_div_le; lia).
  assert (0 <= Spec.round_div after_sample (d * 4) <= 32)
    by (split; [apply round_div_ge | apply round_div_le]; lia).
  split; [|split].
  - pose proof (Hge to_sample 0). pose proof (Hle to_sample 256).
    pose proof (Hge after_sample 0). pose proof (Hle after_sample 128).
    lia.
  - intros Hbig.
    pose proof (Hge to_sample 2). pose proof (Hge after_sample 1). lia.
  - intros Hbig.
    pose proof (Hge to_sample 3). pose proof (Hge after_sample 2). lia.
Qed.

(** The four fields of the register after the four writes of
    [compute_nbtp]. *)
Lemma timing_of_written (r0 a b c d : Z) :
  timing_of (wr NBTP_NSJW (wr NBTP_NBRP (wr NBTP_NTSEG2
               (wr NBTP_NTSEG1 r0 a) b) c) d) =
  Spec.Timing (a mod 2 ^ 8) (b mod 2 ^ 7) (c mod 2 ^ 9) (d mod 2 ^ 7).
Proof.
  unfold timing_of. f_equal.
  - rewrite !rd_wr_other by (cbn; lia). apply rd_wr_same; cbn; lia.
  - rewrite !rd_wr_other by (cbn; lia). apply rd_wr_same; cbn; lia.
  - rewrite !rd_wr_other by (cbn; lia). apply rd_wr_same; cbn; lia.
  - apply rd_wr_same; cbn; lia.
Qed.

(** A call that returns has divided by a nonzero baud rate, and its first
    rounding addition has not wrapped around: a wrapped sum is smaller than
    the baud rate, which gives zero clocks in a bit and a division by the
    zero divisor. *)
Lemma compute_nbtp_returns (clock baud r0 : Z) (out : bool * CAN_NBTP_Type) :
  0 <= clock < 2 ^ 32 -> 0 <= baud < 2 ^ 32 ->
  compute_nbtp clock baud r0 = Some out ->
  0 < baud /\ clock + baud / 2 < 2 ^ 32 /\
  DIV_ROUND clock baud = Some (Spec.clocks_per_bit clock baud) /\
  1 <= Spec.clocks_per_bit clock baud < 2 ^ 32.
Proof.
  intros Hclock Hbaud Hout.
  change (2 ^ 32) with 4294967296 in *.
  assert (Hpos : 0 < baud).
  { destruct (Z.eq_dec baud 0) as [-> | Hne]; [|lia].
    unfold compute_nbtp, DIV_ROUND, udiv in Hout. cbn in Hout.
    discriminate. }
  assert (Hhalf : 0 <= baud / 2 /\ 2 * (baud / 2) <= baud)
    by (Z.div_mod_to_equations; lia).
  assert (Hnowrap : clock + baud / 2 < 4294967296).
  { destruct (Z.lt_ge_cases (clock + baud / 2) 4294967296) as [Hlt | Hge];
      [assumption|].
    assert (Hz : DIV_ROUND clock baud = Some 0).
    { unfold DIV_ROUND, udiv, u32.
      destruct (Z.eqb_spec baud 0); [lia|]. f_equal.
      change (2 ^ 32) with 4294967296.
      apply Z.div_small. Z.div_mod_to_equations. lia. }
    rewrite (compute_nbtp_zero _ _ _ Hz) in Hout. discriminate. }
  assert (Hc : DIV_ROUND clock baud = Some (Spec.clocks_per_bit clock baud)).
  { apply DIV_ROUND_exact; change (2 ^ 32) with 4294967296; lia. }
  pose proof (round_div_bounds clock baud Hpos) as Hb.
  fold (Spec.clocks_per_bit clock baud) in Hb.
  repeat split; try assumption.
  - destruct (Z.eq_dec (Spec.clocks_per_bit clock baud) 0) as [H0 | Hne].
    + rewrite H0 in Hc.
      rewrite (compute_nbtp_zero _ _ _ Hc) in Hout. discriminate.
    + assert (0 <= Spec.clocks_per_bit clock baud); [|lia].
      apply round_div_ge; lia.
  - assert (Spec.clocks_per_bit clock baud <= 4294967295); [|lia].
    apply round_div_le; [assumption|]. nia.
Qed.

(** A successful call, inverted. *)
Lemma compute_nbtp_true (clock baud r0 r : Z) :
  0 <= clock < 2 ^ 32 -> 0 <= baud < 2 ^ 32 ->
  compute_nbtp clock baud r0 = Some (true, r) ->
  let c := Spec.clocks_per_bit clock baud in
  let to_sample := Spec.clocks_to_sample clock baud in
  let after_sample := Spec.clocks_after_sample clock baud in
  let d := Z.max ((to_sample + 255) / 256) ((after_sample + 127) / 128) in
  1 <= c <= 9362 /\
  timing_of r =
  Spec.Timing (u32 (Spec.round_div to_sample d - 2) mod 2 ^ 8)
              (u32 (Spec.round_div after_sample d - 1) mod 2 ^ 7)
              (u32 (d - 1) mod 2 ^ 9)
              (Spec.round_div after_sample (d * 4) mod 2 ^ 7).
Proof.
  intros Hclock Hbaud Hout c to_sample after_sample d.
  destruct (compute_nbtp_returns _ _ _ _ Hclock Hbaud Hout)
    as (Hpos & Hnowrap & Hc & Hrange).
  fold c in Hc, Hrange.
  destruct (Z.le_gt_cases c 9362) as [Hle | Hgt].
  - split; [lia|].
    rewrite (compute_nbtp_small clock baud r0 c Hc) in Hout by lia.
    injection Hout as <-. apply timing_of_written.
  - rewrite (compute_nbtp_large clock baud r0 c Hc) in Hout by lia.
    discriminate.
Qed.

Lemma field_small (x w : Z) :
  0 <= w <= 32 -> 0 <= x < 2 ^ w -> u32 x mod 2 ^ w = x.
Proof.
  intros Hw Hx.
  assert (2 ^ w <= 2 ^ 32) by (apply Z.pow_le_mono_r; lia).
  rewrite u32_small by lia. apply Z.mod_small. assumption.
Qed.

(** ** The bit-timing claims *)

(** C1, as amended.  Whenever [compute_nbtp] succeeds with at least five
    clocks in a bit, the four fields it writes are the parameters of the
    specification's algorithm: segment 1 is round(to_sample/divisor) - 2,
    segment 2 is round(after_sample/divisor) - 1, the prescaler is
    divisor - 1 and the sync jump width is round(after_sample/(divisor*4)),
    for the smallest divisor that fits.  At 48 MHz and 500 kbit/s it
    returns 82, 11, 0 and 3. *)
Theorem compute_nbtp_refines_spec :
  (forall clock baud r0 r,
      0 <= clock < 2 ^ 32 -> 0 <= baud < 2 ^ 32 ->
      compute_nbtp clock baud r0 = Some (true, r) ->
      5 <= Spec.clocks_per_bit clock baud ->
      Spec.compute clock baud (Some (timing_of r))) /\
  (forall r0, exists r,
      compute_nbtp 48000000 500000 r0 = Some (true, r) /\
      timing_of r = Spec.Timing 82 11 0 3).
Proof.
  split.
  - intros clock baud r0 r Hclock Hbaud Hout Hfive.
    destruct (compute_nbtp_true _ _ _ _ Hclock Hbaud Hout) as (Hc & Ht).
    pose proof (quotient_bounds _ Hc) as (Hq & Hq5 & _).
    destruct (clocks_split _ Hc) as (_ & _ & Hd & _).
    specialize (Hq5 Hfive).
    cbv zeta in Ht, Hq, Hq5, Hd.
    fold (Spec.clocks_to_sample clock baud) in Ht, Hq, Hq5, Hd.
    fold (Spec.clocks_after_sample clock baud) in Ht, Hq, Hq5, Hd.
    set (to_sample := Spec.clocks_to_sample clock baud) in *.
    set (after_sample := Spec.clocks_after_sample clock baud) in *.
    set (d := Z.max ((to_sample + 255) / 256)
                    ((after_sample + 127) / 128)) in *.
    exists d. split.
    + apply smallest_divisor_iff. fold to_sample after_sample d.
      clearbody d. lia.
    + fold to_sample after_sample. clearbody d to_sample after_sample.
      destruct (Z.gtb_spec d 32); [lia|].
      rewrite Ht. unfold Spec.derive. f_equal. f_equal.
      * apply field_small; [lia|]. change (2 ^ 8) with 256. lia.
      * apply field_small; [lia|]. change (2 ^ 7) with 128. lia.
      * apply field_small; [lia|]. change (2 ^ 9) with 512. lia.
      * apply Z.mod_small. change (2 ^ 7) with 128. lia.
  - intros r0.
    assert (Hc : DIV_ROUND 48000000 500000 = Some 96) by reflexivity.
    eexists. split.
    + apply (compute_nbtp_small _ _ r0 96 Hc). lia.
    + rewrite timing_of_written. reflexivity.
Qed.

Lemma compute_nbtp_refines_spec_witness :
  Spec.compute 48000000 500000 (Some (timing_of 100684299)).
Proof.
  apply (proj1 compute_nbtp_refines_spec 48000000 500000 0 100684299).
  - lia.
  - lia.
  - reflexivity.
  - vm_compute. discriminate.
Defined.

(** C1 as stated fails with four clocks in a bit (a 4 MHz clock at
    1 Mbit/s): nothing is left after the sample point, the specification's
    segment 2 is round(0/1) - 1 = -1, and the unsigned 7-bit field holds
    127. *)
Lemma compute_nbtp_refines_spec_counterexample :
  ~ (forall r0 r,
        compute_nbtp 4000000 1000000 r0 = Some (true, r) ->
        Spec.compute 4000000 1000000 (Some (timing_of r))).
Proof.
  intros H.
  destruct (H 0 639 eq_refl) as (d & Hd & Heq).
  apply smallest_divisor_iff in Hd. vm_compute in Hd. subst d.
  vm_compute in Heq. discriminate.
Qed.

(** C2.  [compute_nbtp] returns false exactly when the smallest divisor
    that keeps ceil(to_sample/divisor) within 256 and
    ceil(after_sample/divisor) within 128 exceeds 32, and then [result] is
    left as it was.  The baud rate is a nonzero [uint32_t] and the rounding
    addition [can_frequency + baudrate / 2] stays below 2^32, as it does for
    every clock below 2^31 Hz. *)
Theorem compute_nbtp_fails_iff (clock baud r0 : Z) :
  0 <= clock -> 0 < baud < 2 ^ 32 -> clock + baud / 2 < 2 ^ 32 ->
  ((exists r, compute_nbtp clock baud r0 = Some (false, r)) <->
   (exists d, Spec.smallest_divisor (Spec.clocks_to_sample clock baud)
                (Spec.clocks_after_sample clock baud) d /\ 32 < d)) /\
  (forall r, compute_nbtp clock baud r0 = Some (false, r) -> r = r0).
Proof.
  intros Hclock Hbaud Hnowrap.
  assert (Hc : DIV_ROUND clock baud = Some (Spec.clocks_per_bit clock baud))
    by (apply DIV_ROUND_exact; lia).
  assert (Hrange : 0 <= Spec.clocks_per_bit clock baud < 2 ^ 32).
  { split; [apply round_div_ge; lia|].
    assert (Spec.clocks_per_bit clock baud <= 2 ^ 32 - 1); [|lia].
    apply round_div_le; [lia|].
    assert (0 <= baud / 2 /\ 2 * (baud / 2) <= baud)
      by (Z.div_mod_to_equations; lia).
    change (2 ^ 32) with 4294967296 in *. nia. }
  set (c := Spec.clocks_per_bit clock baud) in *.
  (* the smallest divisor exceeds 32 exactly above 9362 clocks in a bit *)
  assert (Hspec : (exists d,
             Spec.smallest_divisor (Spec.clocks_to_sample clock baud)
               (Spec.clocks_after_sample clock baud) d /\ 32 < d)
           <-> 9362 < c).
  { unfold Spec.clocks_after_sample, Spec.clocks_to_sample. fold c.
    pose proof (round_div_bounds (c * 7) 8 ltac:(lia)) as Hb.
    set (to_sample := Spec.round_div (c * 7) 8) in *. clearbody to_sample.
    split.
    - intros (d & Hd & Hgt). apply smallest_divisor_iff in Hd.
      subst d. clearbody c. Z.div_mod_to_equations. lia.
    - intros Hgt. eexists. split; [apply smallest_divisor_iff; reflexivity|].
      clearbody c. Z.div_mod_to_equations. lia. }
  destruct (Z.le_gt_cases c 9362) as [Hle | Hgt].
  - destruct (Z.eq_dec c 0) as [H0 | Hne].
    + rewrite H0 in Hc. rewrite (compute_nbtp_zero _ _ _ Hc).
      split; [|discriminate]. rewrite Hspec.
      split; [intros (r & Hr); discriminate | lia].
    + rewrite (compute_nbtp_small clock baud r0 c Hc) by lia.
      split; [|discriminate]. rewrite Hspec.
      split; [intros (r & Hr); discriminate | lia].
  - rewrite (compute_nbtp_large clock baud r0 c Hc) by lia.
    split.
    + rewrite Hspec. split; [intros _; assumption | intros _].
      exists r0. reflexivity.
    + intros r Hr. injection Hr as <-. reflexivity.
Qed.

Lemma compute_nbtp_fails_iff_witness :
  ((exists r, compute_nbtp 48000000 5000 0 = Some (false, r)) <->
   (exists d, Spec.smallest_divisor (Spec.clocks_to_sample 48000000 5000)
                (Spec.clocks_after_sample 48000000 5000) d /\ 32 < d)) /\
  (forall r, compute_nbtp 48000000 5000 0 = Some (false, r) -> r = 0).
Proof.
  apply (compute_nbtp_fails_iff 48000000 5000 0).
  - lia.
  - lia.
  - vm_compute. reflexivity.
Defined.

(** C3, as amended.  Whenever [compute_nbtp] succeeds with at least
    thirteen clocks in a bit, both segment fields are at least 1 and the
    sync jump width lies between 0 and segment 2 plus one. *)
Theorem compute_nbtp_segments (clock baud r0 r : Z) :
  0 <= clock < 2 ^ 32 -> 0 <= baud < 2 ^ 32 ->
  compute_nbtp clock baud r0 = Some (true, r) ->
  13 <= Spec.clocks_per_bit clock baud ->
  1 <= rd NBTP_NTSEG1 r /\ 1 <= rd NBTP_NTSEG2 r /\
  0 <= rd NBTP_NSJW r <= rd NBTP_NTSEG2 r + 1.
Proof.
  intros Hclock Hbaud Hout Hbig.
  destruct (compute_nbtp_true _ _ _ _ Hclock Hbaud Hout) as (Hc & Ht).
  pose proof (quotient_bounds _ Hc) as (Hq & _ & Hq13).
  specialize (Hq13 Hbig).
  cbv zeta in Ht, Hq, Hq13.
  fold (Spec.clocks_to_sample clock baud) in Ht, Hq, Hq13.
  fold (Spec.clocks_after_sample clock baud) in Ht, Hq, Hq13.
  set (to_sample := Spec.clocks_to_sample clock baud) in *.
  set (after_sample := Spec.clocks_after_sample clock baud) in *.
  set (d := Z.max ((to_sample + 255) / 256)
                  ((after_sample + 127) / 128)) in *.
  clearbody d to_sample after_sample.
  pose proof (f_equal Spec.segment1_length Ht) as H1.
  pose proof (f_equal Spec.segment2_length Ht) as H2.
  pose proof (f_equal Spec.sync_jump_width Ht) as H4.
  cbn [timing_of Spec.segment1_length Spec.segment2_length
       Spec.sync_jump_width] in H1, H2, H4.
  rewrite field_small in H1 by (change (2 ^ 8) with 256; lia).
  rewrite field_small in H2 by (change (2 ^ 7) with 128; lia).
  rewrite Z.mod_small in H4 by (change (2 ^ 7) with 128; lia).
  lia.
Qed.

Lemma compute_nbtp_segments_witness :
  1 <= rd NBTP_NTSEG1 100684299 /\ 1 <= rd NBTP_NTSEG2 100684299 /\
  0 <= rd NBTP_NSJW 100684299 <= rd NBTP_NTSEG2 100684299 + 1.
Proof.
  apply (compute_nbtp_segments 48000000 500000 0 100684299).
  - lia.
  - lia.
  - reflexivity.
  - vm_compute. discriminate.
Defined.

(** C3 as stated fails with eight clocks in a bit (an 8 MHz clock at
    1 Mbit/s): the call succeeds and the segment 2 field is 0. *)
Lemma compute_nbtp_segments_counterexample :
  ~ (forall r0 r,
        compute_nbtp 8000000 1000000 r0 = Some (true, r) ->
        1 <= rd NBTP_NTSEG1 r /\ 1 <= rd NBTP_NTSEG2 r /\
        0 <= rd NBTP_NSJW r <= rd NBTP_NTSEG2 r + 1).
Proof.
  intros H.
  destruct (H 0 1280 eq_refl) as (_ & H2 & _).
  vm_compute in H2. apply H2. reflexivity.
Qed.

(** ** The critical section *)

(** C10.  A call of [cpu_irq_leave_critical] while the counter is zero
    changes nothing: the counter does not underflow and interrupts are not
    re-enabled. *)
Theorem cpu_irq_leave_critical_unbalanced (s : cpu_irq) :
  cpu_irq_critical_section_counter s = 0 ->
  cpu_irq_leave_critical s = s.
Proof.
  intros H. unfold cpu_irq_leave_critical. rewrite H. reflexivity.
Qed.

Lemma cpu_irq_leave_critical_unbalanced_witness :
  cpu_irq_leave_critical (CpuIrq 0 1 1) = CpuIrq 0 1 1.
Proof.
  apply (cpu_irq_leave_critical_unbalanced (CpuIrq 0 1 1)). reflexivity.
Defined.

(** ** Filters *)

(** C4, on the code.  [filterExtended] installs the reject-everything
    standard filter and an extended filter with the given id and mask, but
    the extended filter's configuration is "reject", not "store in FIFO 0":
    matching extended messages are rejected too. *)
Theorem filterExtended_rejects_extended (id mask : Z) (w : World) :
  exists w',
    filterExtended id mask w = Some (tt, w') /\
    let sf := SIDFE_0 (standard_rx_filter (can_state w')) in
    let x0 := XIDFE_0 (extended_rx_filter (can_state w')) in
    let x1 := XIDFE_1 (extended_rx_filter (can_state w')) in
    rd SIDFE_0_SFEC sf = CAN_SIDFE_0_SFEC_REJECT_Val /\
    rd SIDFE_0_SFID1 sf = 0 /\ rd SIDFE_0_SFID2 sf = 0 /\
    rd XIDFE_0_EFID1 x0 = id mod 2 ^ 29 /\
    rd XIDFE_1_EFID2 x1 = mask mod 2 ^ 29 /\
    rd XIDFE_0_EFEC x0 = CAN_XIDFE_0_EFEC_REJECT_Val /\
    rd XIDFE_0_EFEC x0 <> CAN_XIDFE_0_EFEC_STF0M_Val.
Proof.
  eexists. split; [reflexivity|].
  cbn [can_state standard_rx_filter extended_rx_filter set_filters
       SIDFE_0 XIDFE_0 XIDFE_1].
  assert (Hx : rd XIDFE_0_EFEC
                 (wr XIDFE_0_EFEC
                    (wr XIDFE_0_EFID1
                       (XIDFE_0 (extended_rx_filter (can_state w))) id)
                    CAN_XIDFE_0_EFEC_REJECT_Val) = 3)
    by (rewrite rd_wr_same by (cbn; lia); reflexivity).
  repeat split.
  - rewrite !rd_wr_other by (cbn; lia).
    rewrite rd_wr_same by (cbn; lia). reflexivity.
  - rewrite !rd_wr_other by (cbn; lia).
    rewrite rd_wr_same by (cbn; lia). reflexivity.
  - rewrite !rd_wr_other by (cbn; lia).
    rewrite rd_wr_same by (cbn; lia). reflexivity.
  - rewrite !rd_wr_other by (cbn; lia).
    rewrite rd_wr_same by (cbn; lia). reflexivity.
  - rewrite !rd_wr_other by (cbn; lia).
    rewrite rd_wr_same by (cbn; lia). reflexivity.
  - exact Hx.
  - rewrite Hx. discriminate.
Qed.

(** ** parsePacket *)

(** On an empty FIFO the call returns 0 right after entering the critical
    section. *)
Lemma parsePacket_empty (w : World) :
  rd RXF0S_F0FL (RXF0S (CAN1 w)) = 0 ->
  parsePacket w =
  Some (0, MkWorld (cpu_irq_enter_critical (irq w)) (can_state w) (CAN1 w)
                   (PCHCTRL_CAN1 w) (this w) (instances w) (calls w)).
Proof.
  intros H. unfold parsePacket, bind, update_irq, get, ret.
  cbn [CAN1]. rewrite H. reflexivity.
Qed.

(** On a filled FIFO the call decodes the element at the get index. *)
Lemma parsePacket_filled (w : World) (m : _canSAME5x_rx_fifo) :
  rd RXF0S_F0FL (RXF0S (CAN1 w)) <> 0 ->
  index (rx_fifo (can_state w)) (rd RXF0S_F0GI (RXF0S (CAN1 w))) = Some m ->
  let me := base (this w) in
  let rxExtended := to_bool (rd RXF0E_0_XTD (rxf0 m)) in
  let rxRtr := to_bool (rd RXF0E_0_RTR (rxf0 m)) in
  let rxDlc := rd RXF0E_1_DLC (rxf1 m) in
  parsePacket w =
  match (if rxRtr then Some (_rxData me)
         else memcpy (_rxData me) (rx_data m) rxDlc) with
  | None => None
  | Some rxData =>
    Some (rxDlc,
          MkWorld (cpu_irq_leave_critical (cpu_irq_enter_critical (irq w)))
            (can_state w)
            (set_RXF0A (wr RXF0A_F0AI (RXF0A (CAN1 w))
                           (rd RXF0S_F0GI (RXF0S (CAN1 w)))) (CAN1 w))
            (PCHCTRL_CAN1 w)
            (Driver
               (Controller (_onReceive me) (_txId me) (_txExtended me)
                  (_txRtr me) (_txLength me) (_txData me)
                  (if rxExtended then rd RXF0E_0_ID (rxf0 m)
                   else Z.shiftr (rd RXF0E_0_ID (rxf0 m)) 18)
                  rxExtended rxRtr rxDlc (if rxRtr then 0 else rxDlc) 0
                  rxData)
               (_tx (this w)) (_rx (this w)) (_idx (this w))
               (_hw (this w)) (_state (this w)))
            (instances w) (calls w))
  end.
Proof.
  intros Hfill Hm me rxExtended rxRtr rxDlc.
  unfold parsePacket, bind, update_irq, update_this, update_CAN1, get, lift,
    ret.
  cbn [CAN1 can_state this irq PCHCTRL_CAN1 instances calls].
  destruct (Z.eqb_spec (rd RXF0S_F0FL (RXF0S (CAN1 w))) 0) as [H0 | _];
    [contradiction|].
  cbn [CAN1 can_state this irq PCHCTRL_CAN1 instances calls].
  rewrite Hm. subst rxRtr rxExtended rxDlc me.
  destruct (to_bool (rd RXF0E_0_RTR (rxf0 m))); [reflexivity|].
  cbn [CAN1 can_state this irq PCHCTRL_CAN1 instances calls base].
  destruct (memcpy (_rxData (base (this w))) (rx_data m)
                   (rd RXF0E_1_DLC (rxf1 m))); reflexivity.
Qed.

(** C5, on the code.  When the FIFO is empty [parsePacket] returns 0
    without leaving the critical section it entered: called with the
    counter at zero and interrupts enabled, it returns with the counter at
    1 and interrupts disabled. *)
Theorem parsePacket_empty_stays_critical (w : World) :
  rd RXF0S_F0FL (RXF0S (CAN1 w)) = 0 ->
  cpu_irq_critical_section_counter (irq w) = 0 ->
  PRIMASK (irq w) = 0 ->
  exists w',
    parsePacket w = Some (0, w') /\
    cpu_irq_critical_section_counter (irq w') = 1 /\
    irq_enabled (irq w') = false.
Proof.
  intros Hempty Hcounter Hmask.
  rewrite (parsePacket_empty w Hempty). eexists. split; [reflexivity|].
  cbn [irq]. unfold cpu_irq_enter_critical, irq_enabled.
  rewrite Hcounter, Hmask. split; reflexivity.
Qed.

Lemma parsePacket_empty_stays_critical_witness :
  exists w',
    parsePacket (at_rest 4 5) = Some (0, w') /\
    cpu_irq_critical_section_counter (irq w') = 1 /\
    irq_enabled (irq w') = false.
Proof.
  apply (parsePacket_empty_stays_critical (at_rest 4 5)); reflexivity.
Defined.

(** C8, as amended.  [parsePacket] returns 0 whenever the FIFO fill level
    is 0.  Otherwise what it returns is the length code of the element at
    the get index, a value of the 4-bit field, 0..15; it does return it for
    every remote-request message and for every data message whose length
    code does not exceed the two 8-byte arrays. *)
Theorem parsePacket_returns_length_code (w : World) :
  (rd RXF0S_F0FL (RXF0S (CAN1 w)) = 0 ->
   exists w', parsePacket w = Some (0, w')) /\
  (rd RXF0S_F0FL (RXF0S (CAN1 w)) <> 0 ->
   forall m,
     index (rx_fifo (can_state w)) (rd RXF0S_F0GI (RXF0S (CAN1 w)))
       = Some m ->
     let dlc := rd RXF0E_1_DLC (rxf1 m) in
     0 <= dlc <= 15 /\
     (forall n w', parsePacket w = Some (n, w') -> n = dlc) /\
     (rd RXF0E_0_RTR (rxf0 m) <> 0 \/
      (dlc <= Z.of_nat (length (rx_data m)) /\
       dlc <= Z.of_nat (length (_rxData (base (this w))))) ->
      exists w', parsePacket w = Some (dlc, w'))).
Proof.
  split.
  - intros Hempty. rewrite (parsePacket_empty w Hempty). eexists. reflexivity.
  - intros Hfill m Hm dlc.
    pose proof (rd_range RXF0E_1_DLC (rxf1 m) ltac:(cbn; lia)) as Hrange.
    change (2 ^ width RXF0E_1_DLC) with 16 in Hrange. fold dlc in Hrange.
    rewrite (parsePacket_filled w m Hfill Hm). cbv zeta. fold dlc.
    split; [lia|]. split.
    + intros n w' H.
      destruct (if to_bool (rd RXF0E_0_RTR (rxf0 m)) then _ else _);
        [|discriminate].
      apply (f_equal (option_map fst)) in H. cbn [option_map fst] in H.
      injection H as H. symmetry. exact H.
    + intros Hok. unfold to_bool.
      destruct (Z.eqb_spec (rd RXF0E_0_RTR (rxf0 m)) 0) as [H0 | Hrtr].
      * destruct Hok as [Hrtr | (Hsrc & Hdst)]; [contradiction|].
        cbn [negb]. unfold memcpy.
        destruct (Z.leb_spec 0 dlc); [|lia].
        destruct (Z.leb_spec dlc (Z.of_nat (length (rx_data m)))); [|lia].
        destruct (Z.leb_spec dlc
                    (Z.of_nat (length (_rxData (base (this w))))));
          [|lia].
        cbn [andb]. eexists. reflexivity.
      * cbn [negb]. eexists. reflexivity.
Qed.

Lemma parsePacket_returns_length_code_witness :
  exists w',
    parsePacket (received remote_request_15 (at_rest 4 5)) = Some (15, w').
Proof.
  assert (Hfill : rd RXF0S_F0FL
                    (RXF0S (CAN1 (received remote_request_15 (at_rest 4 5))))
                  <> 0)
    by (vm_compute; discriminate).
  assert (Hm : index
                 (rx_fifo (can_state
                             (received remote_request_15 (at_rest 4 5))))
                 (rd RXF0S_F0GI
                    (RXF0S (CAN1 (received remote_request_15 (at_rest 4 5)))))
               = Some remote_request_15)
    by (vm_compute; reflexivity).
  destruct (proj2 (parsePacket_returns_length_code _) Hfill _ Hm)
    as (_ & _ & Hret).
  change 15 with (rd RXF0E_1_DLC (rxf1 remote_request_15)).
  apply Hret. left. vm_compute. discriminate.
Defined.

(** C8 as stated fails for a remote-request message with length code 15:
    the FIFO is not empty and the call returns 15, outside 0..8. *)
Lemma parsePacket_returns_length_code_counterexample :
  ~ (forall w n w',
        parsePacket w = Some (n, w') ->
        (rd RXF0S_F0FL (RXF0S (CAN1 w)) = 0 -> n = 0) /\
        (rd RXF0S_F0FL (RXF0S (CAN1 w)) <> 0 -> 0 <= n <= 8)).
Proof.
  intros H.
  destruct (parsePacket (received remote_request_15 (at_rest 4 5)))
    as [[n w']|] eqn:E; [|vm_compute in E; discriminate].
  destruct (H _ _ _ E) as (_ & Hrange).
  apply (f_equal (option_map fst)) in E. vm_compute in E.
  injection E as E. subst n.
  assert (0 <= 15 <= 8); [|lia].
  apply Hrange. vm_compute. discriminate.
Qed.

(** C9.  For a message marked remote-request [parsePacket] stores the
    receive length 0 and leaves the receive data as it was, and returns the
    message's length code; the returned value exceeds the stored length
    whenever that code is not zero, as for the length code 15. *)
Theorem parsePacket_remote_request :
  (forall w m,
      rd RXF0S_F0FL (RXF0S (CAN1 w)) <> 0 ->
      index (rx_fifo (can_state w)) (rd RXF0S_F0GI (RXF0S (CAN1 w)))
        = Some m ->
      rd RXF0E_0_RTR (rxf0 m) <> 0 ->
      exists w',
        parsePacket w = Some (rd RXF0E_1_DLC (rxf1 m), w') /\
        _rxRtr (base (this w')) = true /\
        _rxLength (base (this w')) = 0 /\
        _rxData (base (this w')) = _rxData (base (this w))) /\
  (exists w n w',
      parsePacket w = Some (n, w') /\
      _rxRtr (base (this w')) = true /\
      _rxLength (base (this w')) < n).
Proof.
  split.
  - intros w m Hfill Hm Hrtr.
    rewrite (parsePacket_filled w m Hfill Hm). cbv zeta.
    unfold to_bool.
    destruct (Z.eqb_spec (rd RXF0E_0_RTR (rxf0 m)) 0); [contradiction|].
    cbn [negb]. eexists. split; [reflexivity|].
    cbn [this base _rxRtr _rxLength _rxData]. repeat split.
  - exists (received remote_request_15 (at_rest 4 5)).
    eexists. eexists. split; [vm_compute; reflexivity|].
    cbn [this base _rxRtr _rxLength]. split; [reflexivity|lia].
Qed.

Lemma parsePacket_remote_request_witness :
  exists w',
    parsePacket (received remote_request_15 (at_rest 4 5))
      = Some (rd RXF0E_1_DLC (rxf1 remote_request_15), w') /\
    _rxRtr (base (this w')) = true /\
    _rxLength (base (this w')) = 0 /\
    _rxData (base (this w')) = _rxData (base (this (at_rest 4 5))).
Proof.
  apply (proj1 parsePacket_remote_request
               (received remote_request_15 (at_rest 4 5))
               remote_request_15).
  - vm_compute. discriminate.
  - vm_compute. reflexivity.
  - vm_compute. discriminate.
Defined.

(** ** endPacket *)

Lemma after_yields_S (k : nat) (w : World) :
  after_yields k (MkWorld (irq w) (can_state w) (CAN1 w) (PCHCTRL_CAN1 w)
                          (this w) (instances w) (yield :: calls w))
  = after_yields (S k) w.
Proof.
  unfold after_yields. cbn [irq can_state CAN1 PCHCTRL_CAN1 this instances
                            calls].
  f_equal. induction k as [|k IH]; [reflexivity|].
  cbn [repeat app] in *. rewrite IH. reflexivity.
Qed.

(** The wait always ends with the value 1, after as many calls of [yield]
    as there were reads that found the flag clear. *)
Lemma wait_for_tx_result (TXBTO : Z -> Z) (n : nat) :
  forall (i : Z) (w : World),
  exists k,
    (k <= n)%nat /\
    wait_for_tx TXBTO n i w = Some (1, after_yields k w) /\
    (forall j, i <= j < i + Z.of_nat k -> Z.land (TXBTO j) 1 = 0) /\
    (k = n \/ ((k < n)%nat /\ Z.land (TXBTO (i + Z.of_nat k)) 1 <> 0)).
Proof.
  induction n as [|n IH]; intros i w.
  - exists 0%nat. repeat split; [lia | | intros j Hj; lia | left; reflexivity].
    destruct w. reflexivity.
  - cbn [wait_for_tx].
    destruct (Z.eqb_spec (Z.land (TXBTO i) 1) 0) as [Hclear | Hset];
      cbn [negb].
    + destruct (IH (i + 1)
                  (MkWorld (irq w) (can_state w) (CAN1 w) (PCHCTRL_CAN1 w)
                           (this w) (instances w) (yield :: calls w)))
        as (k & Hk & Hrun & Hclears & Hlast).
      exists (S k). split; [lia|]. split; [|split].
      * unfold bind, call. rewrite Hrun, after_yields_S. reflexivity.
      * intros j Hj. destruct (Z.eq_dec j i) as [-> | Hne];
          [assumption | apply Hclears; lia].
      * destruct Hlast as [-> | (Hlt & Hlast)]; [left; reflexivity | right].
        split; [lia|].
        replace (i + Z.of_nat (S k)) with (i + 1 + Z.of_nat k) by lia.
        assumption.
    + exists 0%nat. repeat split; [lia | | intros j Hj; lia |].
      * destruct w. reflexivity.
      * right. split; [lia|].
        replace (i + Z.of_nat 0) with i by lia. assumption.
Qed.

(** What [endPacket] does before the wait, when the base class lets the
    packet go and the payload copy stays inside the arrays. *)
Lemma endPacket_sends
      (base_endPacket : CANControllerClass -> Z * CANControllerClass)
      (TXBTO : Z -> Z) (w : World) (data : list Z) :
  let ok := fst (base_endPacket (base (this w))) in
  let me := snd (base_endPacket (base (this w))) in
  let buf := tx_buffer (can_state w) in
  ok <> 0 ->
  (if _txRtr me then Some (tx_data buf)
   else memcpy (tx_data buf) (_txData me) (_txLength me)) = Some data ->
  endPacket base_endPacket TXBTO w =
  wait_for_tx TXBTO (Z.to_nat 8000) 0
    (MkWorld (irq w)
       (set_tx_buffer
          (TxBuf
             (let b0 := wr TXBE_0_ESI (txb0 buf) 0 in
              let b0 := wr TXBE_0_XTD b0 (Z.b2z (_txExtended me)) in
              let b0 := wr TXBE_0_RTR b0 (Z.b2z (_txRtr me)) in
              if _txExtended me then wr TXBE_0_ID b0 (_txId me)
              else wr TXBE_0_ID b0 (Z.shiftl (_txId me) 18))
             (wr TXBE_1_DLC
                (wr TXBE_1_BRS
                   (wr TXBE_1_FDF
                      (wr TXBE_1_EFC (wr TXBE_1_MM (txb1 buf) 0) 0) 0) 0)
                (_txLength me))
             data)
          (can_state w))
       (set_TXBAR 1 (CAN1 w)) (PCHCTRL_CAN1 w)
       (Driver me (_tx (this w)) (_rx (this w)) (_idx (this w))
               (_hw (this w)) (_state (this w)))
       (instances w) (calls w)).
Proof.
  intros ok me buf Hok Hdata. subst ok me buf.
  unfold endPacket, bind, get, lift, update_this, update_can_state,
    update_CAN1.
  destruct (base_endPacket (base (this w))) as [ok me].
  cbn [fst snd] in *.
  cbn [irq can_state CAN1 PCHCTRL_CAN1 this instances calls].
  destruct (Z.eqb_spec ok 0); [contradiction|].
  cbn [irq can_state CAN1 PCHCTRL_CAN1 this instances calls].
  rewrite Hdata. reflexivity.
Qed.

(** C6.  Once the base class lets the packet go and the payload copy stays
    inside the arrays, [endPacket] returns 1 whatever the transmission
    occurred register shows: also when its flag is clear at each of the
    8000 reads, after 8000 calls of [yield]. *)
Theorem endPacket_reports_success
        (base_endPacket : CANControllerClass -> Z * CANControllerClass)
        (TXBTO : Z -> Z) (w : World) :
  let me := snd (base_endPacket (base (this w))) in
  let buf := tx_buffer (can_state w) in
  fst (base_endPacket (base (this w))) <> 0 ->
  (_txRtr me = true \/
   (0 <= _txLength me <= Z.of_nat (length (_txData me)) /\
    _txLength me <= Z.of_nat (length (tx_data buf)))) ->
  (exists w', endPacket base_endPacket TXBTO w = Some (1, w')) /\
  ((forall i, 0 <= i < 8000 -> Z.land (TXBTO i) 1 = 0) ->
   exists w',
     endPacket base_endPacket TXBTO w = Some (1, w') /\
     calls w' = repeat yield (Z.to_nat 8000) ++ calls w).
Proof.
  intros me buf Hok Hlen.
  assert (Hdata : exists data,
             (if _txRtr me then Some (tx_data buf)
              else memcpy (tx_data buf) (_txData me) (_txLength me))
             = Some data).
  { destruct (_txRtr me) eqn:Hrtr; [eexists; reflexivity|].
    destruct Hlen as [Habs | (Hsrc & Hdst)]; [discriminate|].
    unfold memcpy.
    destruct (Z.leb_spec 0 (_txLength me)); [|lia].
    destruct (Z.leb_spec (_txLength me) (Z.of_nat (length (_txData me))));
      [|lia].
    destruct (Z.leb_spec (_txLength me) (Z.of_nat (length (tx_data buf))));
      [|lia].
    eexists. reflexivity. }
  destruct Hdata as (data & Hdata).
  rewrite (endPacket_sends base_endPacket TXBTO w data Hok Hdata).
  match goal with
  | |- context [wait_for_tx TXBTO ?n 0 ?w0] =>
    destruct (wait_for_tx_result TXBTO n 0 w0)
      as (k & Hk & Hrun & Hclears & Hlast)
  end.
  rewrite Hrun. split; [eexists; reflexivity|].
  intros Hnever. eexists. split; [reflexivity|].
  destruct Hlast as [-> | (Hlt & Hset)].
  - reflexivity.
  - exfalso. apply Hset. apply Hnever. lia.
Qed.

Lemma endPacket_reports_success_witness :
  exists w',
    endPacket (fun me => (1, me)) (fun _ => 0) (at_rest 4 5) = Some (1, w') /\
    calls w' = repeat yield (Z.to_nat 8000) ++ calls (at_rest 4 5).
Proof.
  apply (endPacket_reports_success (fun me => (1, me)) (fun _ => 0)
                                   (at_rest 4 5)).
  - cbn. lia.
  - right. cbn. lia.
  - intros i Hi. reflexivity.
Defined.

(** ** begin *)

(** C7.  [begin] returns 0 and leaves the whole world as it was (registers,
    message RAM, clock, pins, the object and the table of instances) when
    no transmit pin is assigned, and also when the bit timing cannot be
    computed for the baud rate. *)
Theorem begin_fails_untouched
        (can_frequency can_state_address CAN1_address : Z)
        (nbtp : CAN_NBTP_Type) (baudrate : Z) (w : World) :
  (_tx (this w) = -1 ->
   begin can_frequency can_state_address CAN1_address nbtp baudrate w
   = Some (0, w)) /\
  (forall r,
      compute_nbtp can_frequency (u32 baudrate) nbtp = Some (false, r) ->
      begin can_frequency can_state_address CAN1_address nbtp baudrate w
      = Some (0, w)).
Proof.
  split.
  - intros Htx. unfold begin, bind, get, ret. rewrite Htx. reflexivity.
  - intros r Hfail. unfold begin, bind, get, ret, lift.
    destruct (_tx (this w) =? -1); [reflexivity|].
    rewrite Hfail. reflexivity.
Qed.

Lemma begin_fails_untouched_witness :
  begin 48000000 0 0 0 500000 (at_rest (-1) 5) = Some (0, at_rest (-1) 5) /\
  begin 48000000 0 0 0 1000 (at_rest 4 5) = Some (0, at_rest 4 5).
Proof.
  split.
  - apply (proj1 (begin_fails_untouched 48000000 0 0 0 500000
                                        (at_rest (-1) 5))).
    reflexivity.
  - apply (proj2 (begin_fails_untouched 48000000 0 0 0 1000 (at_rest 4 5))
                 0).
    vm_compute. reflexivity.
Defined.

(** ** Nested critical sections *)

(** Inside a critical section an enter followed by a leave changes
    nothing. *)
Lemma cpu_irq_pair_inside (s : cpu_irq) :
  0 < cpu_irq_critical_section_counter s < 2 ^ 32 - 1 ->
  cpu_irq_leave_critical (cpu_irq_enter_critical s) = s.
Proof.
  intros Hc. destruct s as [c prev mask]. cbn [cpu_irq_critical_section_counter] in Hc.
  change (2 ^ 32) with 4294967296 in Hc.
  unfold cpu_irq_enter_critical, cpu_irq_leave_critical.
  cbn [cpu_irq_critical_section_counter cpu_irq_prev_interrupt_state PRIMASK].
  destruct (Z.eqb_spec c 0); [lia|].
  cbn [cpu_irq_critical_section_counter cpu_irq_prev_interrupt_state PRIMASK].
  rewrite (u32_small (c + 1)) by (change (2 ^ 32) with 4294967296; lia).
  destruct (Z.gtb_spec (c + 1) 0); [|lia].
  replace (c + 1 - 1) with c by lia.
  rewrite (u32_small c) by (change (2 ^ 32) with 4294967296; lia).
  destruct (Z.eqb_spec c 0); [lia|]. reflexivity.
Qed.

(** The outermost enter masks interrupts and remembers whether they were
    enabled. *)
Lemma cpu_irq_enter_outermost (s : cpu_irq) :
  cpu_irq_critical_section_counter s = 0 ->
  cpu_irq_enter_critical s =
  CpuIrq 1 (if PRIMASK s =? 0 then 1 else 0)
         (if PRIMASK s =? 0 then 1 else PRIMASK s).
Proof.
  intros Hc. unfold cpu_irq_enter_critical. rewrite Hc. cbn [Z.eqb].
  destruct (PRIMASK s =? 0); reflexivity.
Qed.

Lemma cpu_irq_nest_inside (n : nat) :
  forall s,
    0 < cpu_irq_critical_section_counter s ->
    cpu_irq_critical_section_counter s + Z.of_nat n < 2 ^ 32 ->
    Nat.iter n cpu_irq_leave_critical (Nat.iter n cpu_irq_enter_critical s)
    = s.
Proof.
  induction n as [|n IH]; intros s Hpos Hbound; [reflexivity|].
  rewrite (Nat.iter_succ_r n cpu_irq cpu_irq_enter_critical).
  rewrite (Nat.iter_succ n cpu_irq cpu_irq_leave_critical).
  assert (Hnext : cpu_irq_critical_section_counter (cpu_irq_enter_critical s)
                  = cpu_irq_critical_section_counter s + 1).
  { unfold cpu_irq_enter_critical.
    destruct (Z.eqb_spec (cpu_irq_critical_section_counter s) 0); [lia|].
    cbn [cpu_irq_critical_section_counter].
    apply u32_small. lia. }
  rewrite IH by (rewrite Hnext; lia).
  apply cpu_irq_pair_inside. lia.
Qed.

(** X1.  Critical sections nest: inside a critical section, any number of
    further enters followed by as many leaves gives back the same state,
    as long as the 32-bit counter does not overflow. *)
Theorem cpu_irq_critical_sections_nest (n : nat) (s : cpu_irq) :
  0 < cpu_irq_critical_section_counter s ->
  cpu_irq_critical_section_counter s + Z.of_nat n < 2 ^ 32 ->
  Nat.iter n cpu_irq_leave_critical (Nat.iter n cpu_irq_enter_critical s) = s.
Proof.
  intros Hpos Hbound. apply cpu_irq_nest_inside; assumption.
Qed.

Lemma cpu_irq_critical_sections_nest_witness :
  Nat.iter 3 cpu_irq_leave_critical
           (Nat.iter 3 cpu_irq_enter_critical (CpuIrq 1 1 1))
  = CpuIrq 1 1 1.
Proof.
  apply (cpu_irq_critical_sections_nest 3 (CpuIrq 1 1 1)).
  - cbn. lia.
  - cbn. lia.
Defined.

(** X2.  Entered from outside (counter zero), [n] enters followed by [n]
    leaves bring the counter back to zero and restore the interrupt mask:
    interrupts are enabled afterwards exactly if they were enabled
    before. *)
Theorem cpu_irq_critical_section_restores (n : nat) (s : cpu_irq) :
  cpu_irq_critical_section_counter s = 0 ->
  Z.of_nat n < 2 ^ 32 ->
  let s' := Nat.iter n cpu_irq_leave_critical
                     (Nat.iter n cpu_irq_enter_critical s) in
  cpu_irq_critical_section_counter s' = 0 /\ PRIMASK s' = PRIMASK s.
Proof.
  intros Hc Hbound s'. subst s'.
  destruct n as [|n]; [split; [assumption | reflexivity]|].
  rewrite (Nat.iter_succ_r n cpu_irq cpu_irq_enter_critical).
  rewrite (Nat.iter_succ n cpu_irq cpu_irq_leave_critical).
  rewrite (cpu_irq_enter_outermost s Hc).
  rewrite cpu_irq_nest_inside
    by (cbn [cpu_irq_critical_section_counter]; lia).
  unfold cpu_irq_leave_critical.
  cbn [cpu_irq_critical_section_counter cpu_irq_prev_interrupt_state PRIMASK].
  destruct (Z.eqb_spec (PRIMASK s) 0) as [H0 | Hne]; cbn.
  - split; [reflexivity | symmetry; assumption].
  - split; reflexivity.
Qed.

Lemma cpu_irq_critical_section_restores_witness :
  cpu_irq_critical_section_counter
    (Nat.iter 2 cpu_irq_leave_critical
              (Nat.iter 2 cpu_irq_enter_critical (CpuIrq 0 0 0))) = 0 /\
  PRIMASK (Nat.iter 2 cpu_irq_leave_critical
                    (Nat.iter 2 cpu_irq_enter_critical (CpuIrq 0 0 0)))
  = PRIMASK (CpuIrq 0 0 0).
Proof.
  apply (cpu_irq_critical_section_restores 2 (CpuIrq 0 0 0)).
  - reflexivity.
  - cbn. lia.
Defined.

Lemma cpu_irq_leaves_inside (k : nat) :
  forall s,
    Z.of_nat k < cpu_irq_critical_section_counter s < 2 ^ 32 ->
    Nat.iter k cpu_irq_leave_critical s =
    CpuIrq (cpu_irq_critical_section_counter s - Z.of_nat k)
           (cpu_irq_prev_interrupt_state s) (PRIMASK s).
Proof.
  induction k as [|k IH]; intros s Hc.
  - destruct s as [c prev mask]. cbn. f_equal. lia.
  - rewrite Nat.iter_succ.
    rewrite IH by lia.
    unfold cpu_irq_leave_critical.
    cbn [cpu_irq_critical_section_counter cpu_irq_prev_interrupt_state
         PRIMASK].
    change (2 ^ 32) with 4294967296 in Hc.
    destruct (Z.gtb_spec (cpu_irq_critical_section_counter s - Z.of_nat k) 0);
      [|lia].
    rewrite u32_small by (change (2 ^ 32) with 4294967296; lia).
    destruct (Z.eqb_spec
                (cpu_irq_critical_section_counter s - Z.of_nat k - 1) 0);
      [lia|].
    cbn [andb]. f_equal. lia.
Qed.

Lemma cpu_irq_enters_outside (n : nat) :
  forall s,
    cpu_irq_critical_section_counter s = 0 ->
    Z.of_nat (S n) < 2 ^ 32 ->
    Nat.iter (S n) cpu_irq_enter_critical s =
    CpuIrq (Z.of_nat (S n)) (if PRIMASK s =? 0 then 1 else 0)
           (if PRIMASK s =? 0 then 1 else PRIMASK s).
Proof.
  induction n as [|n IH]; intros s Hc Hbound.
  - rewrite Nat.iter_succ. cbn [Nat.iter nat_rect].
    apply cpu_irq_enter_outermost. assumption.
  - rewrite Nat.iter_succ.
    rewrite IH by (assumption || lia).
    unfold cpu_irq_enter_critical.
    cbn [cpu_irq_critical_section_counter cpu_irq_prev_interrupt_state
         PRIMASK].
    destruct (Z.eqb_spec (Z.of_nat (S n)) 0); [lia|].
    cbn [cpu_irq_critical_section_counter cpu_irq_prev_interrupt_state
         PRIMASK].
    rewrite u32_small by lia. f_equal. lia.
Qed.

(** X3.  Interrupts stay masked until the outermost leave: after [n]
    enters from outside and fewer than [n] leaves, PRIMASK is set and the
    counter is the number of sections still open. *)
Theorem cpu_irq_masked_until_outermost_leave (n k : nat) (s : cpu_irq) :
  cpu_irq_critical_section_counter s = 0 ->
  (k < n)%nat -> Z.of_nat n < 2 ^ 32 ->
  let s' := Nat.iter k cpu_irq_leave_critical
                     (Nat.iter n cpu_irq_enter_critical s) in
  irq_enabled s' = false /\
  cpu_irq_critical_section_counter s' = Z.of_nat n - Z.of_nat k.
Proof.
  intros Hc Hk Hbound s'. subst s'.
  destruct n as [|n]; [lia|].
  rewrite (cpu_irq_enters_outside n s Hc Hbound).
  rewrite cpu_irq_leaves_inside
    by (cbn [cpu_irq_critical_section_counter]; lia).
  cbn [cpu_irq_critical_section_counter cpu_irq_prev_interrupt_state PRIMASK].
  split; [|reflexivity].
  unfold irq_enabled. cbn [PRIMASK].
  destruct (Z.eqb_spec (PRIMASK s) 0) as [H0 | Hne]; [reflexivity|].
  destruct (Z.eqb_spec (PRIMASK s) 0); [contradiction | reflexivity].
Qed.

Lemma cpu_irq_masked_until_outermost_leave_witness :
  irq_enabled (Nat.iter 1 cpu_irq_leave_critical
                        (Nat.iter 2 cpu_irq_enter_critical (CpuIrq 0 0 0)))
  = false /\
  cpu_irq_critical_section_counter
    (Nat.iter 1 cpu_irq_leave_critical
              (Nat.iter 2 cpu_irq_enter_critical (CpuIrq 0 0 0)))
  = Z.of_nat 2 - Z.of_nat 1.
Proof.
  apply (cpu_irq_masked_until_outermost_leave 2 1 (CpuIrq 0 0 0)).
  - reflexivity.
  - lia.
  - cbn. lia.
Defined.

(** ** The range of compute_nbtp *)

(** The code's clocks per bit under the conditions of the theorems
    below. *)
Lemma clocks_per_bit_code (clock baud : Z) :
  0 <= clock -> 0 < baud < 2 ^ 32 -> clock + baud / 2 < 2 ^ 32 ->
  DIV_ROUND clock baud = Some ((clock + baud / 2) / baud) /\
  (clock + baud / 2) / baud = Spec.clocks_per_bit clock baud /\
  0 <= (clock + baud / 2) / baud < 2 ^ 32.
Proof.
  intros Hclock Hbaud Hnowrap.
  assert (Hhalf : 0 <= baud / 2) by (apply Z.div_pos; lia).
  split; [|split].
  - unfold DIV_ROUND, udiv. destruct (Z.eqb_spec baud 0); [lia|].
    rewrite u32_small by lia. reflexivity.
  - apply half_up_macro. lia.
  - split; [apply Z.div_pos; lia|].
    apply Z.div_lt_upper_bound; [lia|]. nia.
Qed.

(** X4.  [compute_nbtp] divides by zero, and so has no defined result,
    exactly when the baud rate is zero or more than twice the clock (no
    whole clock in a bit). *)
Theorem compute_nbtp_divides_by_zero_iff (clock baud r0 : Z) :
  0 <= clock -> 0 <= baud < 2 ^ 32 -> clock + baud / 2 < 2 ^ 32 ->
  compute_nbtp clock baud r0 = None <-> baud = 0 \/ 2 * clock < baud.
Proof.
  intros Hclock Hbaud Hnowrap.
  destruct (Z.eq_dec baud 0) as [-> | Hne].
  { split; [left; reflexivity | intros _; reflexivity]. }
  destruct (clocks_per_bit_code clock baud Hclock ltac:(lia) Hnowrap)
    as (Hc & _ & Hrange).
  set (c := (clock + baud / 2) / baud) in *.
  assert (Hzero : c = 0 <-> 2 * clock < baud).
  { subst c. split; intros H.
    - apply Z.div_small_iff in H; [|lia].
      Z.div_mod_to_equations. lia.
    - apply Z.div_small. Z.div_mod_to_equations. lia. }
  destruct (Z.eq_dec c 0) as [H0 | Hpos].
  - rewrite H0 in Hc. rewrite (compute_nbtp_zero _ _ _ Hc).
    split; [intros _; right; apply Hzero; assumption | reflexivity].
  - destruct (Z.le_gt_cases c 9362).
    + rewrite (compute_nbtp_small clock baud r0 c Hc) by lia.
      split; [discriminate | intros [E | E]; [lia | apply Hzero in E; lia]].
    + rewrite (compute_nbtp_large clock baud r0 c Hc) by lia.
      split; [discriminate | intros [E | E]; [lia | apply Hzero in E; lia]].
Qed.

Lemma compute_nbtp_divides_by_zero_iff_witness :
  compute_nbtp 48000000 100000000 0 = None <->
  100000000 = 0 \/ 2 * 48000000 < 100000000.
Proof.
  apply (compute_nbtp_divides_by_zero_iff 48000000 100000000 0).
  - lia.
  - lia.
  - vm_compute. reflexivity.
Defined.

(** X5.  [compute_nbtp] succeeds exactly when the rounded number of
    clocks in a bit, [(can_frequency + baudrate / 2) / baudrate], lies
    between 1 and 9362. *)
Theorem compute_nbtp_succeeds_iff (clock baud r0 : Z) :
  0 <= clock -> 0 < baud < 2 ^ 32 -> clock + baud / 2 < 2 ^ 32 ->
  (exists r, compute_nbtp clock baud r0 = Some (true, r)) <->
  1 <= (clock + baud / 2) / baud <= 9362.
Proof.
  intros Hclock Hbaud Hnowrap.
  destruct (clocks_per_bit_code clock baud Hclock Hbaud Hnowrap)
    as (Hc & _ & Hrange).
  set (c := (clock + baud / 2) / baud) in *.
  destruct (Z.eq_dec c 0) as [H0 | Hpos].
  - rewrite H0 in Hc. rewrite (compute_nbtp_zero _ _ _ Hc).
    split; [intros (r & Hr); discriminate | lia].
  - destruct (Z.le_gt_cases c 9362).
    + rewrite (compute_nbtp_small clock baud r0 c Hc) by lia.
      split; [lia | intros _; eexists; reflexivity].
    + rewrite (compute_nbtp_large clock baud r0 c Hc) by lia.
      split; [intros (r & Hr); discriminate | lia].
Qed.

Lemma compute_nbtp_succeeds_iff_witness :
  (exists r, compute_nbtp 48000000 125000 0 = Some (true, r)) <->
  1 <= (48000000 + 125000 / 2) / 125000 <= 9362.
Proof.
  apply (compute_nbtp_succeeds_iff 48000000 125000 0).
  - lia.
  - lia.
  - vm_compute. reflexivity.
Defined.

(** X6.  The bit time that a successful call programs, the sync segment
    plus NTSEG1 + 1 plus NTSEG2 + 1 time quanta of NBRP + 1 clocks each,
    differs from the rounded number of clocks in a bit by at most one time
    quantum (from five clocks in a bit on), and the prescaler field is at
    most 31. *)
Theorem compute_nbtp_bit_time (clock baud r0 r : Z) :
  0 <= clock < 2 ^ 32 -> 0 <= baud < 2 ^ 32 ->
  compute_nbtp clock baud r0 = Some (true, r) ->
  5 <= (clock + baud / 2) / baud ->
  let quantum := rd NBTP_NBRP r + 1 in
  let bit_time :=
    (1 + (rd NBTP_NTSEG1 r + 1) + (rd NBTP_NTSEG2 r + 1)) * quantum in
  1 <= quantum <= 32 /\
  Z.abs (bit_time - (clock + baud / 2) / baud) <= quantum.
Proof.
  intros Hclock Hbaud Hout Hfive quantum bit_time.
  destruct (compute_nbtp_returns _ _ _ _ Hclock Hbaud Hout)
    as (Hpos & Hnowrap & _ & _).
  rewrite half_up_macro in * by assumption.
  fold (Spec.clocks_per_bit clock baud) in *.
  destruct (compute_nbtp_true _ _ _ _ Hclock Hbaud Hout) as (Hc & Ht).
  pose proof (quotient_bounds _ Hc) as (Hq & Hq5 & _).
  destruct (clocks_split _ Hc) as (_ & Has & Hd & _).
  specialize (Hq5 Hfive).
  cbv zeta in Ht, Hq, Hq5, Hd, Has.
  fold (Spec.clocks_to_sample clock baud) in Ht, Hq, Hq5, Hd, Has.
  fold (Spec.clocks_after_sample clock baud) in Ht, Hq, Hq5, Hd.
  assert (Hsum : Spec.clocks_to_sample clock baud
                 + Spec.clocks_after_sample clock baud
                 = Spec.clocks_per_bit clock baud)
    by (unfold Spec.clocks_after_sample; lia).
  set (c := Spec.clocks_per_bit clock baud) in *.
  set (to_sample := Spec.clocks_to_sample clock baud) in *.
  set (after_sample := Spec.clocks_after_sample clock baud) in *.
  set (d := Z.max ((to_sample + 255) / 256)
                  ((after_sample + 127) / 128)) in *.
  pose proof (round_div_bounds to_sample d ltac:(lia)) as H1.
  pose proof (round_div_bounds after_sample d ltac:(lia)) as H2.
  clearbody d to_sample after_sample c.
  pose proof (f_equal Spec.segment1_length Ht) as E1.
  pose proof (f_equal Spec.segment2_length Ht) as E2.
  pose proof (f_equal Spec.prescaler Ht) as E3.
  cbn [timing_of Spec.segment1_length Spec.segment2_length Spec.prescaler]
    in E1, E2, E3.
  rewrite field_small in E1 by (change (2 ^ 8) with 256; lia).
  rewrite field_small in E2 by (change (2 ^ 7) with 128; lia).
  rewrite field_small in E3 by (change (2 ^ 9) with 512; lia).
  subst quantum bit_time. rewrite E1, E2, E3.
  split; [lia|].
  set (q1 := Spec.round_div to_sample d) in *.
  set (q2 := Spec.round_div after_sample d) in *.
  clearbody q1 q2.
  replace ((1 + (q1 - 2 + 1) + (q2 - 1 + 1)) * (d - 1 + 1))
    with (d * q1 + d * q2) by ring.
  apply Z.abs_le. lia.
Qed.

Lemma compute_nbtp_bit_time_witness :
  1 <= rd NBTP_NBRP 201434647 + 1 <= 32 /\
  Z.abs ((1 + (rd NBTP_NTSEG1 201434647 + 1)
            + (rd NBTP_NTSEG2 201434647 + 1))
         * (rd NBTP_NBRP 201434647 + 1)
         - (48000000 + 125000 / 2) / 125000)
  <= rd NBTP_NBRP 201434647 + 1.
Proof.
  apply (compute_nbtp_bit_time 48000000 125000 0 201434647).
  - lia.
  - lia.
  - vm_compute. reflexivity.
  - vm_compute. discriminate.
Defined.

(** ** More on bit-fields: writes bit by bit *)

Lemma testbit_wr (f : bitfield) (x v i : Z) :
  0 <= pos f -> 0 <= width f -> 0 <= i ->
  Z.testbit (wr f x v) i =
  if (pos f <=? i) && (i <? pos f + width f)
  then Z.testbit v (i - pos f) else Z.testbit x i.
Proof.
  intros Hp Hw Hi. unfold wr.
  rewrite Z.lor_spec, !Z.land_spec, Z.lnot_spec, testbit_mask by assumption.
  rewrite Z.shiftl_spec by assumption.
  destruct ((pos f <=? i) && (i <? pos f + width f)); cbn.
  - rewrite andb_false_r, andb_true_r. reflexivity.
  - rewrite andb_true_r, andb_false_r, orb_false_r. reflexivity.
Qed.

Ltac split_bit_cases :=
  repeat match goal with
         | |- context [?a <=? ?b] =>
           destruct (Z.leb_spec a b); try (exfalso; lia)
         | |- context [?a <? ?b] =>
           destruct (Z.ltb_spec a b); try (exfalso; lia)
         end.

(** Two words built by writes to concrete fields are equal. *)
Ltac bitfield_eq :=
  apply Z.bits_inj'; intros ?i ?Hi;
  rewrite !testbit_wr by (cbn; lia);
  cbn [pos width]; split_bit_cases; reflexivity.

(** ** More on the filters *)

(** X7.  [filter] installs a standard filter with the given id and mask,
    both truncated to 11 bits, that stores matching messages in FIFO 0, and
    an extended filter that rejects; the transmit buffer, the receive FIFO
    and everything outside the message RAM stay as they were. *)
Theorem filter_accepts_standard (id mask : Z) (w : World) :
  exists w',
    filter id mask w = Some (tt, w') /\
    (let sf := SIDFE_0 (standard_rx_filter (can_state w')) in
     let x0 := XIDFE_0 (extended_rx_filter (can_state w')) in
     let x1 := XIDFE_1 (extended_rx_filter (can_state w')) in
     rd SIDFE_0_SFID1 sf = id mod 2 ^ 11 /\
     rd SIDFE_0_SFID2 sf = mask mod 2 ^ 11 /\
     rd SIDFE_0_SFEC sf = CAN_SIDFE_0_SFEC_STF0M_Val /\
     rd SIDFE_0_SFT sf = CAN_SIDFE_0_SFT_CLASSIC_Val /\
     rd XIDFE_0_EFID1 x0 = 0 /\
     rd XIDFE_0_EFEC x0 = CAN_XIDFE_0_EFEC_REJECT_Val /\
     rd XIDFE_1_EFID2 x1 = 0 /\
     rd XIDFE_1_EFT x1 = CAN_XIDFE_1_EFT_CLASSIC_Val) /\
    tx_buffer (can_state w') = tx_buffer (can_state w) /\
    rx_fifo (can_state w') = rx_fifo (can_state w) /\
    irq w' = irq w /\ CAN1 w' = CAN1 w /\ this w' = this w /\
    instances w' = instances w /\ calls w' = calls w.
Proof.
  eexists. split; [reflexivity|].
  cbn [can_state standard_rx_filter extended_rx_filter set_filters
       SIDFE_0 XIDFE_0 XIDFE_1 tx_buffer rx_fifo irq CAN1 this instances
       calls].
  split; [|repeat split].
  repeat split;
    rewrite ?rd_wr_other by (cbn; lia);
    rewrite rd_wr_same by (cbn; lia); reflexivity.
Qed.

(** X8.  Of [filter] and [filterExtended] the call made last decides: the
    message RAM after one call followed by the other is the one the second
    call alone produces. *)
Theorem last_filter_call_decides (a b c d : Z) (w : World) :
  (filter a b ;; filterExtended c d) w = filterExtended c d w /\
  (filterExtended c d ;; filter a b) w = filter a b w.
Proof.
  unfold filter, filterExtended, bind, update_can_state, set_filters.
  cbn [can_state standard_rx_filter extended_rx_filter
       SIDFE_0 XIDFE_0 XIDFE_1 tx_buffer rx_fifo irq CAN1 PCHCTRL_CAN1 this
       instances calls].
  split.
  - do 4 f_equal; f_equal; bitfield_eq.
  - do 4 f_equal; f_equal; bitfield_eq.
Qed.

(** ** More on parsePacket *)

(** An enter followed at once by a leave restores counter and mask. *)
Lemma cpu_irq_pair (s : cpu_irq) :
  0 <= cpu_irq_critical_section_counter s < 2 ^ 32 - 1 ->
  let s' := cpu_irq_leave_critical (cpu_irq_enter_critical s) in
  cpu_irq_critical_section_counter s' = cpu_irq_critical_section_counter s /\
  PRIMASK s' = PRIMASK s.
Proof.
  intros Hc s'. subst s'.
  destruct (Z.eq_dec (cpu_irq_critical_section_counter s) 0) as [H0 | Hne].
  - rewrite (cpu_irq_enter_outermost s H0). rewrite H0.
    unfold cpu_irq_leave_critical.
    cbn [cpu_irq_critical_section_counter cpu_irq_prev_interrupt_state
         PRIMASK].
    destruct (Z.eqb_spec (PRIMASK s) 0) as [Hm | Hm]; cbn.
    + split; [reflexivity | symmetry; assumption].
    + split; reflexivity.
  - rewrite cpu_irq_pair_inside by lia. split; reflexivity.
Qed.

Lemma memcpy_copies (dst src : list Z) (n : Z) :
  0 <= n <= Z.of_nat (length src) -> n <= Z.of_nat (length dst) ->
  exists out,
    memcpy dst src n = Some out /\
    firstn (Z.to_nat n) out = firstn (Z.to_nat n) src /\
    skipn (Z.to_nat n) out = skipn (Z.to_nat n) dst /\
    length out = length dst.
Proof.
  intros Hsrc Hdst. unfold memcpy.
  destruct (Z.leb_spec 0 n); [|lia].
  destruct (Z.leb_spec n (Z.of_nat (length src))); [|lia].
  destruct (Z.leb_spec n (Z.of_nat (length dst))); [|lia].
  cbn [andb]. eexists. split; [reflexivity|].
  assert (Hlen : length (firstn (Z.to_nat n) src) = Z.to_nat n)
    by (apply firstn_length_le; lia).
  split; [|split].
  - rewrite firstn_app, Hlen, Nat.sub_diag, firstn_O, app_nil_r.
    rewrite firstn_firstn, Nat.min_id. reflexivity.
  - rewrite skipn_app, Hlen, Nat.sub_diag, skipn_O.
    rewrite skipn_all2 by lia. reflexivity.
  - rewrite length_app, Hlen, length_skipn. lia.
Qed.

(** X9.  On a filled FIFO, [parsePacket] is balanced: it returns with the
    critical-section counter and the interrupt mask it was called with, it
    acknowledges the get index it read, and it leaves the message RAM and
    the calls made so far as they were. *)
Theorem parsePacket_filled_is_balanced (w : World) (m : _canSAME5x_rx_fifo) :
  rd RXF0S_F0FL (RXF0S (CAN1 w)) <> 0 ->
  index (rx_fifo (can_state w)) (rd RXF0S_F0GI (RXF0S (CAN1 w))) = Some m ->
  (rd RXF0E_0_RTR (rxf0 m) <> 0 \/
   (rd RXF0E_1_DLC (rxf1 m) <= Z.of_nat (length (rx_data m)) /\
    rd RXF0E_1_DLC (rxf1 m)
    <= Z.of_nat (length (_rxData (base (this w)))))) ->
  0 <= cpu_irq_critical_section_counter (irq w) < 2 ^ 32 - 1 ->
  exists w',
    parsePacket w = Some (rd RXF0E_1_DLC (rxf1 m), w') /\
    cpu_irq_critical_section_counter (irq w')
    = cpu_irq_critical_section_counter (irq w) /\
    PRIMASK (irq w') = PRIMASK (irq w) /\
    rd RXF0A_F0AI (RXF0A (CAN1 w')) = rd RXF0S_F0GI (RXF0S (CAN1 w)) /\
    can_state w' = can_state w /\ calls w' = calls w.
Proof.
  intros Hfill Hm Hok Hcounter.
  pose proof (rd_range RXF0E_1_DLC (rxf1 m) ltac:(cbn; lia)) as Hdlc.
  pose proof (rd_range RXF0S_F0GI (RXF0S (CAN1 w)) ltac:(cbn; lia)) as Hgi.
  assert (Hdata : exists data,
             (if to_bool (rd RXF0E_0_RTR (rxf0 m))
              then Some (_rxData (base (this w)))
              else memcpy (_rxData (base (this w))) (rx_data m)
                          (rd RXF0E_1_DLC (rxf1 m))) = Some data).
  { unfold to_bool.
    destruct (Z.eqb_spec (rd RXF0E_0_RTR (rxf0 m)) 0) as [H0 | Hrtr];
      cbn [negb]; [|eexists; reflexivity].
    destruct Hok as [Hrtr | (Hsrc & Hdst)]; [contradiction|].
    destruct (memcpy_copies (_rxData (base (this w))) (rx_data m)
                (rd RXF0E_1_DLC (rxf1 m)) ltac:(lia) Hdst)
      as (out & Hout & _).
    exists out. assumption. }
  destruct Hdata as (data & Hdata).
  rewrite (parsePacket_filled w m Hfill Hm). cbv zeta. rewrite Hdata.
  eexists. split; [reflexivity|].
  cbn [irq CAN1 can_state calls set_RXF0A RXF0A].
  destruct (cpu_irq_pair (irq w) Hcounter) as (Hc & Hmask).
  repeat split; try assumption.
  rewrite rd_wr_same by (cbn; lia).
  apply Z.mod_small. exact Hgi.
Qed.

Lemma parsePacket_filled_is_balanced_witness :
  exists w',
    parsePacket (received remote_request_15 (at_rest 4 5))
    = Some (rd RXF0E_1_DLC (rxf1 remote_request_15), w') /\
    cpu_irq_critical_section_counter (irq w')
    = cpu_irq_critical_section_counter
        (irq (received remote_request_15 (at_rest 4 5))) /\
    PRIMASK (irq w')
    = PRIMASK (irq (received remote_request_15 (at_rest 4 5))) /\
    rd RXF0A_F0AI (RXF0A (CAN1 w'))
    = rd RXF0S_F0GI
        (RXF0S (CAN1 (received remote_request_15 (at_rest 4 5)))) /\
    can_state w' = can_state (received remote_request_15 (at_rest 4 5)) /\
    calls w' = calls (received remote_request_15 (at_rest 4 5)).
Proof.
  apply (parsePacket_filled_is_balanced
           (received remote_request_15 (at_rest 4 5)) remote_request_15).
  - vm_compute. discriminate.
  - vm_compute. reflexivity.
  - left. vm_compute. discriminate.
  - vm_compute. split; [discriminate | reflexivity].
Defined.

(** X10.  For a data message whose length code fits the arrays,
    [parsePacket] stores that code as receive length, copies exactly that
    many payload bytes to the front of [_rxData] and leaves the rest of it,
    resets the read index, and stores an identifier below 2^29 for an
    extended message and below 2^11 (the 29-bit field shifted right by 18)
    for a standard one. *)
Theorem parsePacket_data_message (w : World) (m : _canSAME5x_rx_fifo) :
  rd RXF0S_F0FL (RXF0S (CAN1 w)) <> 0 ->
  index (rx_fifo (can_state w)) (rd RXF0S_F0GI (RXF0S (CAN1 w))) = Some m ->
  rd RXF0E_0_RTR (rxf0 m) = 0 ->
  let dlc := rd RXF0E_1_DLC (rxf1 m) in
  dlc <= Z.of_nat (length (rx_data m)) ->
  dlc <= Z.of_nat (length (_rxData (base (this w)))) ->
  exists w',
    parsePacket w = Some (dlc, w') /\
    let me := base (this w') in
    _rxRtr me = false /\ _rxDlc me = dlc /\ _rxLength me = dlc /\
    _rxIndex me = 0 /\
    firstn (Z.to_nat dlc) (_rxData me) = firstn (Z.to_nat dlc) (rx_data m) /\
    skipn (Z.to_nat dlc) (_rxData me)
    = skipn (Z.to_nat dlc) (_rxData (base (this w))) /\
    _rxExtended me = to_bool (rd RXF0E_0_XTD (rxf0 m)) /\
    (if _rxExtended me
     then _rxId me = rd RXF0E_0_ID (rxf0 m) /\ 0 <= _rxId me < 2 ^ 29
     else _rxId me = rd RXF0E_0_ID (rxf0 m) / 2 ^ 18 /\
          0 <= _rxId me < 2 ^ 11).
Proof.
  intros Hfill Hm Hrtr dlc Hsrc Hdst.
  pose proof (rd_range RXF0E_1_DLC (rxf1 m) ltac:(cbn; lia)) as Hdlc.
  pose proof (rd_range RXF0E_0_ID (rxf0 m) ltac:(cbn; lia)) as Hid.
  fold dlc in Hdlc.
  destruct (memcpy_copies (_rxData (base (this w))) (rx_data m) dlc
              ltac:(lia) Hdst) as (out & Hout & Hfirst & Hskip & _).
  rewrite (parsePacket_filled w m Hfill Hm). cbv zeta. fold dlc.
  unfold to_bool at 1. rewrite Hrtr. cbn [Z.eqb negb]. rewrite Hout.
  eexists. split; [reflexivity|].
  cbn [this base _rxRtr _rxDlc _rxLength _rxIndex _rxData _rxExtended _rxId].
  change (to_bool 0) with false. cbv iota.
  do 4 (split; [reflexivity|]).
  split; [exact Hfirst|]. split; [exact Hskip|]. split; [reflexivity|].
  change (2 ^ width RXF0E_0_ID) with (2 ^ 29) in Hid.
  destruct (to_bool (rd RXF0E_0_XTD (rxf0 m))).
  - split; [reflexivity | assumption].
  - rewrite Z.shiftr_div_pow2 by lia. split; [reflexivity|].
    split; [apply Z.div_pos; lia|].
    apply Z.div_lt_upper_bound; [lia|].
    change (2 ^ 18 * 2 ^ 11) with (2 ^ 29). lia.
Qed.

Lemma parsePacket_data_message_witness :
  exists w',
    parsePacket (received data_message_3 (at_rest 4 5))
    = Some (rd RXF0E_1_DLC (rxf1 data_message_3), w') /\
    let me := base (this w') in
    _rxRtr me = false /\
    _rxDlc me = rd RXF0E_1_DLC (rxf1 data_message_3) /\
    _rxLength me = rd RXF0E_1_DLC (rxf1 data_message_3) /\
    _rxIndex me = 0 /\
    firstn (Z.to_nat (rd RXF0E_1_DLC (rxf1 data_message_3))) (_rxData me)
    = firstn (Z.to_nat (rd RXF0E_1_DLC (rxf1 data_message_3)))
             (rx_data data_message_3) /\
    skipn (Z.to_nat (rd RXF0E_1_DLC (rxf1 data_message_3))) (_rxData me)
    = skipn (Z.to_nat (rd RXF0E_1_DLC (rxf1 data_message_3)))
            (_rxData (base (this (received data_message_3 (at_rest 4 5))))) /\
    _rxExtended me = to_bool (rd RXF0E_0_XTD (rxf0 data_message_3)) /\
    (if _rxExtended me
     then _rxId me = rd RXF0E_0_ID (rxf0 data_message_3) /\
          0 <= _rxId me < 2 ^ 29
     else _rxId me = rd RXF0E_0_ID (rxf0 data_message_3) / 2 ^ 18 /\
          0 <= _rxId me < 2 ^ 11).
Proof.
  apply (parsePacket_data_message
           (received data_message_3 (at_rest 4 5)) data_message_3).
  - vm_compute. discriminate.
  - vm_compute. reflexivity.
  - vm_compute. reflexivity.
  - vm_compute. discriminate.
  - vm_compute. discriminate.
Defined.

(** X11.  For a data message whose length code exceeds one of the two data
    arrays (a code of 9..15 with the 8-byte arrays), the payload copy runs
    past the end of the array and the call has no defined result. *)
Theorem parsePacket_long_data_message (w : World) (m : _canSAME5x_rx_fifo) :
  rd RXF0S_F0FL (RXF0S (CAN1 w)) <> 0 ->
  index (rx_fifo (can_state w)) (rd RXF0S_F0GI (RXF0S (CAN1 w))) = Some m ->
  rd RXF0E_0_RTR (rxf0 m) = 0 ->
  Z.of_nat (length (rx_data m)) < rd RXF0E_1_DLC (rxf1 m) \/
  Z.of_nat (length (_rxData (base (this w)))) < rd RXF0E_1_DLC (rxf1 m) ->
  parsePacket w = None.
Proof.
  intros Hfill Hm Hrtr Hlong.
  rewrite (parsePacket_filled w m Hfill Hm). cbv zeta.
  unfold to_bool at 1. rewrite Hrtr. cbn [Z.eqb negb].
  unfold memcpy.
  destruct (Z.leb_spec (rd RXF0E_1_DLC (rxf1 m))
                       (Z.of_nat (length (rx_data m))));
    destruct (Z.leb_spec (rd RXF0E_1_DLC (rxf1 m))
                         (Z.of_nat (length (_rxData (base (this w))))));
    try lia; rewrite ?andb_false_r; reflexivity.
Qed.

Lemma parsePacket_long_data_message_witness :
  parsePacket (received data_message_9 (at_rest 4 5)) = None.
Proof.
  apply (parsePacket_long_data_message
           (received data_message_9 (at_rest 4 5)) data_message_9).
  - vm_compute. discriminate.
  - vm_compute. reflexivity.
  - vm_compute. reflexivity.
  - left. vm_compute. reflexivity.
Defined.

(** ** More on endPacket *)

(** X12.  When the base class refuses the packet (its [endPacket] returns
    0), [endPacket] returns 0 and neither writes the transmit buffer nor a
    register nor calls [yield]. *)
Theorem endPacket_refused
        (base_endPacket : CANControllerClass -> Z * CANControllerClass)
        (TXBTO : Z -> Z) (w : World) :
  fst (base_endPacket (base (this w))) = 0 ->
  exists w',
    endPacket base_endPacket TXBTO w = Some (0, w') /\
    can_state w' = can_state w /\ CAN1 w' = CAN1 w /\
    calls w' = calls w /\ irq w' = irq w.
Proof.
  intros Hok. unfold endPacket, bind, get, update_this, ret.
  destruct (base_endPacket (base (this w))) as [ok me].
  cbn [fst] in Hok. subst ok. cbn [Z.eqb].
  eexists. split; [reflexivity|]. cbn. auto.
Qed.

Lemma endPacket_refused_witness :
  exists w',
    endPacket no_packet (fun _ => 1) (at_rest 4 5) = Some (0, w') /\
    can_state w' = can_state (at_rest 4 5) /\
    CAN1 w' = CAN1 (at_rest 4 5) /\
    calls w' = calls (at_rest 4 5) /\ irq w' = irq (at_rest 4 5).
Proof.
  apply (endPacket_refused no_packet (fun _ => 1) (at_rest 4 5)).
  reflexivity.
Defined.

(** The payload copy of [endPacket] is defined when the length fits. *)
Lemma endPacket_payload (me : CANControllerClass) (buf : _canSAME5x_tx_buf) :
  (_txRtr me = true \/
   (0 <= _txLength me <= Z.of_nat (length (_txData me)) /\
    _txLength me <= Z.of_nat (length (tx_data buf)))) ->
  exists data,
    (if _txRtr me then Some (tx_data buf)
     else memcpy (tx_data buf) (_txData me) (_txLength me)) = Some data /\
    (_txRtr me = true -> data = tx_data buf) /\
    (_txRtr me = false ->
     firstn (Z.to_nat (_txLength me)) data
     = firstn (Z.to_nat (_txLength me)) (_txData me) /\
     length data = length (tx_data buf)).
Proof.
  intros Hlen. destruct (_txRtr me) eqn:Hrtr.
  - eexists. split; [reflexivity|]. split; [reflexivity | discriminate].
  - destruct Hlen as [Habs | (Hsrc & Hdst)]; [discriminate|].
    destruct (memcpy_copies (tx_data buf) (_txData me) (_txLength me)
                Hsrc Hdst) as (out & Hout & Hfirst & _ & Hlength).
    exists out. split; [assumption|]. split; [discriminate|].
    intros _. split; assumption.
Qed.

(** X13.  [endPacket] calls [yield] once for each read of the transmission
    occurred register that finds bit 0 clear: when the bit is first set at
    read [k] (counted from 0, below 8000), it returns 1 after exactly [k]
    calls. *)
Theorem endPacket_yields_until_sent
        (base_endPacket : CANControllerClass -> Z * CANControllerClass)
        (TXBTO : Z -> Z) (w : World) (k : Z) :
  let me := snd (base_endPacket (base (this w))) in
  fst (base_endPacket (base (this w))) <> 0 ->
  (_txRtr me = true \/
   (0 <= _txLength me <= Z.of_nat (length (_txData me)) /\
    _txLength me <= Z.of_nat (length (tx_data (tx_buffer (can_state w)))))) ->
  0 <= k < 8000 ->
  Z.land (TXBTO k) 1 <> 0 ->
  (forall j, 0 <= j < k -> Z.land (TXBTO j) 1 = 0) ->
  exists w',
    endPacket base_endPacket TXBTO w = Some (1, w') /\
    calls w' = repeat yield (Z.to_nat k) ++ calls w.
Proof.
  intros me Hok Hlen Hk Hset Hclear.
  destruct (endPacket_payload me (tx_buffer (can_state w)) Hlen)
    as (data & Hdata & _).
  rewrite (endPacket_sends base_endPacket TXBTO w data Hok Hdata).
  match goal with
  | |- context [wait_for_tx TXBTO ?n 0 ?w0] =>
    destruct (wait_for_tx_result TXBTO n 0 w0)
      as (k' & Hk' & Hrun & Hclears & Hlast)
  end.
  rewrite Hrun. eexists. split; [reflexivity|].
  assert (Hsame : k' = Z.to_nat k).
  { destruct (Z.lt_trichotomy (Z.of_nat k') k) as [Hlt | [Heq | Hgt]].
    - exfalso. destruct Hlast as [-> | (_ & Hset')]; [lia|].
      apply Hset'. apply Hclear. lia.
    - lia.
    - exfalso. apply Hset. apply Hclears. lia. }
  rewrite Hsame. reflexivity.
Qed.

Lemma endPacket_yields_until_sent_witness :
  exists w',
    endPacket packet_3 (fun i => if i <? 2 then 0 else 1) (at_rest 4 5)
    = Some (1, w') /\
    calls w' = repeat yield (Z.to_nat 2) ++ calls (at_rest 4 5).
Proof.
  apply (endPacket_yields_until_sent
           packet_3 (fun i => if i <? 2 then 0 else 1) (at_rest 4 5) 2).
  - vm_compute. discriminate.
  - right. vm_compute. repeat split; discriminate.
  - lia.
  - vm_compute. discriminate.
  - intros j Hj. destruct (Z.ltb_spec j 2); [reflexivity | lia].
Defined.

(** X14.  The transmit buffer element that [endPacket] writes: the flags
    of the packet, its identifier in the 29-bit field (shifted left by 18
    for a standard packet, so that only its low 11 bits are kept), its
    length in the 4-bit length code, every other named field zero, the
    payload at the front of the data area unless it is a remote request;
    and the add request for buffer 0. *)
Theorem endPacket_fills_tx_buffer
        (base_endPacket : CANControllerClass -> Z * CANControllerClass)
        (TXBTO : Z -> Z) (w : World) :
  let me := snd (base_endPacket (base (this w))) in
  fst (base_endPacket (base (this w))) <> 0 ->
  (_txRtr me = true \/
   (0 <= _txLength me <= Z.of_nat (length (_txData me)) /\
    _txLength me <= Z.of_nat (length (tx_data (tx_buffer (can_state w)))))) ->
  exists w',
    endPacket base_endPacket TXBTO w = Some (1, w') /\
    let buf := tx_buffer (can_state w') in
    rd TXBE_0_ESI (txb0 buf) = 0 /\
    rd TXBE_0_XTD (txb0 buf) = Z.b2z (_txExtended me) /\
    rd TXBE_0_RTR (txb0 buf) = Z.b2z (_txRtr me) /\
    rd TXBE_0_ID (txb0 buf)
    = (if _txExtended me then _txId me else _txId me * 2 ^ 18) mod 2 ^ 29 /\
    rd TXBE_1_DLC (txb1 buf) = _txLength me mod 2 ^ 4 /\
    rd TXBE_1_MM (txb1 buf) = 0 /\ rd TXBE_1_EFC (txb1 buf) = 0 /\
    rd TXBE_1_FDF (txb1 buf) = 0 /\ rd TXBE_1_BRS (txb1 buf) = 0 /\
    (if _txRtr me
     then tx_data buf = tx_data (tx_buffer (can_state w))
     else firstn (Z.to_nat (_txLength me)) (tx_data buf)
          = firstn (Z.to_nat (_txLength me)) (_txData me)) /\
    TXBAR (CAN1 w') = 1 /\
    rx_fifo (can_state w') = rx_fifo (can_state w).
Proof.
  intros me Hok Hlen.
  destruct (endPacket_payload me (tx_buffer (can_state w)) Hlen)
    as (data & Hdata & Hrtr & Hcopy).
  rewrite (endPacket_sends base_endPacket TXBTO w data Hok Hdata).
  match goal with
  | |- context [wait_for_tx TXBTO ?n 0 ?w0] =>
    destruct (wait_for_tx_result TXBTO n 0 w0) as (k & _ & Hrun & _)
  end.
  rewrite Hrun. eexists. split; [reflexivity|].
  fold me.
  cbn [after_yields can_state CAN1 set_tx_buffer tx_buffer rx_fifo txb0 txb1
       tx_data set_TXBAR TXBAR].
  assert (Hbit : forall b : bool, Z.b2z b mod 2 ^ 1 = Z.b2z b)
    by (intros []; reflexivity).
  split; [destruct (_txExtended me);
          rewrite !rd_wr_other by (cbn; lia);
          rewrite rd_wr_same by (cbn; lia); reflexivity|].
  split; [destruct (_txExtended me);
          rewrite !rd_wr_other by (cbn; lia);
          rewrite rd_wr_same by (cbn; lia); apply Hbit|].
  split; [destruct (_txExtended me);
          rewrite !rd_wr_other by (cbn; lia);
          rewrite rd_wr_same by (cbn; lia); apply Hbit|].
  split; [destruct (_txExtended me);
          rewrite rd_wr_same by (cbn; lia);
          rewrite ?Z.shiftl_mul_pow2 by lia; reflexivity|].
  split; [rewrite rd_wr_same by (cbn; lia); reflexivity|].
  do 4 (split; [rewrite !rd_wr_other by (cbn; lia);
                rewrite rd_wr_same by (cbn; lia); reflexivity|]).
  split; [|split; reflexivity].
  destruct (_txRtr me).
  - apply Hrtr. reflexivity.
  - apply Hcopy. reflexivity.
Qed.

Lemma endPacket_fills_tx_buffer_witness :
  exists w',
    endPacket packet_3 (fun _ => 1) (at_rest 4 5) = Some (1, w') /\
    let me := snd (packet_3 (base (this (at_rest 4 5)))) in
    let buf := tx_buffer (can_state w') in
    rd TXBE_0_ESI (txb0 buf) = 0 /\
    rd TXBE_0_XTD (txb0 buf) = Z.b2z (_txExtended me) /\
    rd TXBE_0_RTR (txb0 buf) = Z.b2z (_txRtr me) /\
    rd TXBE_0_ID (txb0 buf)
    = (if _txExtended me then _txId me else _txId me * 2 ^ 18) mod 2 ^ 29 /\
    rd TXBE_1_DLC (txb1 buf) = _txLength me mod 2 ^ 4 /\
    rd TXBE_1_MM (txb1 buf) = 0 /\ rd TXBE_1_EFC (txb1 buf) = 0 /\
    rd TXBE_1_FDF (txb1 buf) = 0 /\ rd TXBE_1_BRS (txb1 buf) = 0 /\
    (if _txRtr me
     then tx_data buf = tx_data (tx_buffer (can_state (at_rest 4 5)))
     else firstn (Z.to_nat (_txLength me)) (tx_data buf)
          = firstn (Z.to_nat (_txLength me)) (_txData me)) /\
    TXBAR (CAN1 w') = 1 /\
    rx_fifo (can_state w') = rx_fifo (can_state (at_rest 4 5)).
Proof.
  apply (endPacket_fills_tx_buffer packet_3 (fun _ => 1) (at_rest 4 5)).
  - vm_compute. discriminate.
  - right. vm_compute. repeat split; discriminate.
Defined.

(** ** endPacket and parsePacket together *)

(** The words that [endPacket] writes, decoded the way [parsePacket] reads
    a receive element. *)
Lemma tx_words_decode (x0 x1 id len : Z) (ext rtr : bool) :
  let b0 := wr TXBE_0_ESI x0 (Z.b2z false) in
  let b0 := wr TXBE_0_XTD b0 (Z.b2z ext) in
  let b0 := wr TXBE_0_RTR b0 (Z.b2z rtr) in
  let b0 := if ext then wr TXBE_0_ID b0 id
            else wr TXBE_0_ID b0 (Z.shiftl id 18) in
  let b1 := wr TXBE_1_MM x1 0 in
  let b1 := wr TXBE_1_EFC b1 0 in
  let b1 := wr TXBE_1_FDF b1 0 in
  let b1 := wr TXBE_1_BRS b1 0 in
  let b1 := wr TXBE_1_DLC b1 len in
  (if ext then 0 <= id < 2 ^ 29 else 0 <= id < 2 ^ 11) ->
  0 <= len < 2 ^ 4 ->
  to_bool (rd RXF0E_0_XTD b0) = ext /\
  to_bool (rd RXF0E_0_RTR b0) = rtr /\
  rd RXF0E_1_DLC b1 = len /\
  (if ext then rd RXF0E_0_ID b0 else Z.shiftr (rd RXF0E_0_ID b0) 18) = id.
Proof.
  cbv zeta. intros Hid Hlen.
  assert (Hbit : forall b : bool, to_bool (Z.b2z b mod 2 ^ 1) = b)
    by (intros []; reflexivity).
  change RXF0E_0_XTD with TXBE_0_XTD. change RXF0E_0_RTR with TXBE_0_RTR.
  change RXF0E_0_ID with TXBE_0_ID. change RXF0E_1_DLC with TXBE_1_DLC.
  split; [|split; [|split]].
  - destruct ext; rewrite !rd_wr_other by (cbn; lia);
      rewrite rd_wr_same by (cbn; lia); apply (Hbit _).
  - destruct ext; rewrite !rd_wr_other by (cbn; lia);
      rewrite rd_wr_same by (cbn; lia); apply Hbit.
  - rewrite rd_wr_same by (cbn; lia). apply Z.mod_small. exact Hlen.
  - destruct ext; rewrite rd_wr_same by (cbn; lia); cbn [width TXBE_0_ID].
    + apply Z.mod_small. exact Hid.
    + rewrite Z.shiftl_mul_pow2 by lia.
      rewrite Z.mod_small
        by (change (2 ^ 29) with (2 ^ 11 * 2 ^ 18);
            change (2 ^ 11) with 2048 in *; change (2 ^ 18) with 262144; lia).
      rewrite Z.shiftr_div_pow2 by lia.
      apply Z.div_mul. discriminate.
Qed.

(** X15.  What [endPacket] encodes, [parsePacket] decodes: when the
    transmit buffer element written for a packet (identifier within 11
    bits, or 29 bits when extended; at most 8 bytes) is the element found
    in the receive FIFO, [parsePacket] returns the packet's length and
    stores the same identifier, flags and length code and, unless it is a
    remote request, the same payload bytes. *)
Theorem endPacket_parsePacket_round_trip
        (base_endPacket : CANControllerClass -> Z * CANControllerClass)
        (TXBTO : Z -> Z) (w : World) :
  let me := snd (base_endPacket (base (this w))) in
  fst (base_endPacket (base (this w))) <> 0 ->
  0 <= _txLength me <= 8 ->
  length (_txData me) = 8%nat ->
  length (tx_data (tx_buffer (can_state w))) = 8%nat ->
  length (_rxData me) = 8%nat ->
  (if _txExtended me then 0 <= _txId me < 2 ^ 29
   else 0 <= _txId me < 2 ^ 11) ->
  rx_fifo (can_state w) <> [] ->
  exists w1,
    endPacket base_endPacket TXBTO w = Some (1, w1) /\
    let buf := tx_buffer (can_state w1) in
    exists w2,
      parsePacket (received (RxFifo (txb0 buf) (txb1 buf) (tx_data buf)) w1)
      = Some (_txLength me, w2) /\
      let rx := base (this w2) in
      _rxId rx = _txId me /\ _rxExtended rx = _txExtended me /\
      _rxRtr rx = _txRtr me /\ _rxDlc rx = _txLength me /\
      (if _txRtr me then _rxLength rx = 0
       else _rxLength rx = _txLength me /\
            firstn (Z.to_nat (_txLength me)) (_rxData rx)
            = firstn (Z.to_nat (_txLength me)) (_txData me)).
Proof.
  intros me Hok Hlen Htx Hbuf Hrx Hid Hfifo.
  destruct (endPacket_payload me (tx_buffer (can_state w))
              ltac:(right; lia)) as (data & Hdata & Hrtr & Hcopy).
  rewrite (endPacket_sends base_endPacket TXBTO w data Hok Hdata).
  match goal with
  | |- context [wait_for_tx TXBTO ?n 0 ?w0] =>
    destruct (wait_for_tx_result TXBTO n 0 w0) as (k & _ & Hrun & _)
  end.
  rewrite Hrun. eexists. split; [reflexivity|].
  fold me.
  cbn [after_yields can_state set_tx_buffer tx_buffer txb0 txb1 tx_data].
  destruct (tx_words_decode (txb0 (tx_buffer (can_state w)))
              (txb1 (tx_buffer (can_state w))) (_txId me) (_txLength me)
              (_txExtended me) (_txRtr me) Hid
              ltac:(change (2 ^ 4) with 16; lia))
    as (Hxtd & Hrtr' & Hdlc & Hident).
  cbv zeta in Hxtd, Hrtr', Hdlc, Hident.
  change (Z.b2z false) with 0 in Hxtd, Hrtr', Hdlc, Hident.
  cbv zeta.
  match goal with
  | |- context [received ?m0 ?w0] =>
    set (m := m0); set (w1 := w0)
  end.
  assert (Hfill : rd RXF0S_F0FL (RXF0S (CAN1 (received m w1))) <> 0).
  { cbn [received CAN1 RXF0S].
    rewrite rd_wr_other, rd_wr_same by (cbn; lia). discriminate. }
  assert (Hm : index (rx_fifo (can_state (received m w1)))
                     (rd RXF0S_F0GI (RXF0S (CAN1 (received m w1))))
               = Some m).
  { cbn [received CAN1 RXF0S can_state rx_fifo].
    rewrite rd_wr_same by (cbn; lia).
    change (0 mod 2 ^ width RXF0S_F0GI) with 0.
    subst w1. cbn [after_yields can_state rx_fifo set_tx_buffer].
    destruct (rx_fifo (can_state w)); [contradiction | reflexivity]. }
  rewrite (parsePacket_filled (received m w1) m Hfill Hm). cbv zeta.
  subst m. cbn [rxf0 rxf1 rx_data].
  rewrite Hxtd, Hrtr', Hdlc, Hident.
  subst w1. cbn [received after_yields this base].
  destruct (_txRtr me) eqn:Hremote.
  - eexists. split; [reflexivity|].
    cbn [this base _rxId _rxExtended _rxRtr _rxDlc _rxLength].
    do 4 (split; [reflexivity|]). reflexivity.
  - destruct (Hcopy eq_refl) as (Hfirst & Hlength).
    destruct (memcpy_copies (_rxData me) data (_txLength me)
                ltac:(lia) ltac:(lia)) as (out & Hout & Hfirst' & _).
    rewrite Hout. eexists. split; [reflexivity|].
    cbn [this base _rxId _rxExtended _rxRtr _rxDlc _rxLength _rxData].
    do 4 (split; [reflexivity|]). split; [reflexivity|].
    rewrite Hfirst'. exact Hfirst.
Qed.

Lemma endPacket_parsePacket_round_trip_witness :
  exists w1,
    endPacket packet_3 (fun _ => 1) (at_rest 4 5) = Some (1, w1) /\
    let me := snd (packet_3 (base (this (at_rest 4 5)))) in
    let buf := tx_buffer (can_state w1) in
    exists w2,
      parsePacket (received (RxFifo (txb0 buf) (txb1 buf) (tx_data buf)) w1)
      = Some (_txLength me, w2) /\
      let rx := base (this w2) in
      _rxId rx = _txId me /\ _rxExtended rx = _txExtended me /\
      _rxRtr rx = _txRtr me /\ _rxDlc rx = _txLength me /\
      (if _txRtr me then _rxLength rx = 0
       else _rxLength rx = _txLength me /\
            firstn (Z.to_nat (_txLength me)) (_rxData rx)
            = firstn (Z.to_nat (_txLength me)) (_txData me)).
Proof.
  apply (endPacket_parsePacket_round_trip packet_3 (fun _ => 1)
                                          (at_rest 4 5)).
  - vm_compute. discriminate.
  - vm_compute. split; discriminate.
  - reflexivity.
  - reflexivity.
  - reflexivity.
  - vm_compute. split; [discriminate | reflexivity].
  - vm_compute. discriminate.
Defined.

(** ** Running a method on an explicit world *)

Ltac run_method :=
  cbv beta iota zeta delta
      [bind get lift ret write_CCCR update_irq update_this update_can_state
       update_CAN1 call set_PCHCTRL_CAN1 set_instances await
       irq can_state CAN1 PCHCTRL_CAN1 this instances calls
       CCCR TEST NBTP IR IE GFC SIDFC XIDFC RXF0C RXF0S RXF0A RXESC TXBC
       TXESC TXBAR
       set_CCCR set_TEST set_NBTP set_IR set_IE set_GFC set_SIDFC set_XIDFC
       set_RXF0C set_RXF0A set_RXESC set_TXBC set_TXESC set_TXBAR
       base _tx _rx _idx _hw _state fst snd negb].

Ltac explicit_world w :=
  let i := fresh "i" in
  let s := fresh "s" in
  let c := fresh "c" in
  let p := fresh "p" in
  let t := fresh "t" in
  let ins := fresh "ins" in
  let cl := fresh "cl" in
  destruct w as [i s c p t ins cl];
  destruct c as [cccr test nbtp0 ir ie gfc sidfc xidfc rxf0c rxf0s rxf0a
                 rxesc txbc txesc txbar];
  destruct t as [me tx rx idx hw st];
  cbn [irq can_state CAN1 PCHCTRL_CAN1 this instances calls
       CCCR TEST NBTP IR IE GFC SIDFC XIDFC RXF0C RXF0S RXF0A RXESC TXBC
       TXESC TXBAR base _tx _rx _idx _hw _state] in *.

Lemma store_defined {A : Type} (l : list A) (i : Z) (v : A) :
  0 <= i < Z.of_nat (length l) ->
  store l i v = Some (store_nat l (Z.to_nat i) v).
Proof.
  intros Hi. unfold store.
  destruct (Z.leb_spec 0 i); [|lia].
  destruct (Z.ltb_spec i (Z.of_nat (length l))); [|lia]. reflexivity.
Qed.

Lemma nth_error_store_nat {A : Type} (l : list A) (v : A) :
  forall i j,
    nth_error (store_nat l i v) j =
    if Nat.eqb i j then (if Nat.ltb i (length l) then Some v else None)
    else nth_error l j.
Proof.
  induction l as [|h t IH]; intros i j.
  - cbn. destruct (Nat.eqb i j); destruct j; reflexivity.
  - destruct i as [|i], j as [|j]; cbn [store_nat nth_error Nat.eqb length];
      try reflexivity.
    rewrite IH. destruct (Nat.eqb i j); [|reflexivity].
    change (S i <? S (length t))%nat with (i <? length t)%nat. reflexivity.
Qed.

Lemma length_store_nat {A : Type} (l : list A) (v : A) :
  forall i, length (store_nat l i v) = length l.
Proof.
  induction l as [|h t IH]; intros [|i]; cbn [store_nat length];
    try reflexivity.
  rewrite IH. reflexivity.
Qed.

Lemma index_store {A : Type} (l : list A) (i j : Z) (v : A) :
  0 <= i < Z.of_nat (length l) ->
  index (store_nat l (Z.to_nat i) v) j =
  if j =? i then Some v else index l j.
Proof.
  intros Hi. unfold index.
  destruct (Z.ltb_spec j 0).
  - destruct (Z.eqb_spec j i); [lia | reflexivity].
  - rewrite nth_error_store_nat.
    destruct (Z.eqb_spec j i) as [-> | Hne].
    + rewrite Nat.eqb_refl.
      destruct (Nat.ltb_spec (Z.to_nat i) (length l)); [reflexivity | lia].
    + destruct (Nat.eqb_spec (Z.to_nat i) (Z.to_nat j)); [lia | reflexivity].
Qed.

(** ** begin and end *)

(** The world after a successful [begin]. *)
Lemma begin_world (can_frequency can_state_address CAN1_address : Z)
      (nbtp : CAN_NBTP_Type) (baudrate : Z) (w : World) (r : Z) :
  _tx (this w) <> -1 ->
  compute_nbtp can_frequency (u32 baudrate) nbtp = Some (true, r) ->
  2 <= Z.of_nat (length (instances w)) ->
  begin can_frequency can_state_address CAN1_address nbtp baudrate w =
  Some (1,
    MkWorld (irq w)
      (set_filters
         (Sidfe (wr SIDFE_0_SFT
                   (wr SIDFE_0_SFEC
                      (wr SIDFE_0_SFID2 (wr SIDFE_0_SFID1 0 0) 0)
                      CAN_SIDFE_0_SFEC_STF0M_Val)
                   CAN_SIDFE_0_SFT_CLASSIC_Val))
         (Xifde (wr XIDFE_0_EFEC (wr XIDFE_0_EFID1 0 0)
                    CAN_XIDFE_0_EFEC_STF0M_Val)
                (wr XIDFE_1_EFT (wr XIDFE_1_EFID2 0 0)
                    CAN_XIDFE_1_EFT_CLASSIC_Val))
         zeroed_state)
      (CanRegs
         (wr CCCR_INIT
             (wr CCCR_CCE (wr CCCR_CCE (wr CCCR_INIT (CCCR (CAN1 w)) 1) 1) 0)
             0)
         (TEST (CAN1 w)) r (IR (CAN1 w)) (IE (CAN1 w))
         (wr GFC_ANFE (wr GFC_ANFS (wr GFC_RRFE 0 0) CAN_GFC_ANFS_REJECT_Val)
             CAN_GFC_ANFE_REJECT_Val)
         (wr SIDFC_FLSSA (wr SIDFC_LSS 0 ADAFRUIT_ZEROCAN_RX_FILTER_SIZE)
             (can_state_address + offsetof_standard_rx_filter))
         (wr XIDFC_FLESA (wr XIDFC_LSE 0 ADAFRUIT_ZEROCAN_RX_FILTER_SIZE)
             (can_state_address + offsetof_extended_rx_filter))
         (wr RXF0C_F0S (wr RXF0C_F0SA 0 (can_state_address + offsetof_rx_fifo))
             ADAFRUIT_ZEROCAN_RX_FIFO_SIZE)
         (RXF0S (CAN1 w)) (RXF0A (CAN1 w))
         (wr RXESC_RBDS
             (wr RXESC_F1DS (wr RXESC_F0DS 0 CAN_RXESC_F0DS_DATA8_Val)
                 CAN_RXESC_F1DS_DATA8_Val)
             CAN_RXESC_RBDS_DATA8_Val)
         (wr TXBC_TFQM
             (wr TXBC_NDTB
                 (wr TXBC_TBSA 0 (can_state_address + offsetof_tx_buffer))
                 ADAFRUIT_ZEROCAN_TX_BUFFER_SIZE)
             0)
         (wr TXESC_TBDS 0 CAN_TXESC_TBDS_DATA8_Val)
         (TXBAR (CAN1 w)))
      (Z.lor GCLK_CAN1 (Z.shiftl 1 GCLK_PCHCTRL_CHEN_Pos))
      (Driver (base (this w)) (_tx (this w)) (_rx (this w)) 1
              CAN1_address can_state_address)
      (store_nat (instances w) (Z.to_nat 1) true)
      (pinPeripheral (_rx (this w)) CAN1_FUNCTION
       :: pinPeripheral (_tx (this w)) CAN1_FUNCTION :: calls w)).
Proof.
  intros Htx Hr Hlen. explicit_world w.
  unfold begin. run_method.
  destruct (Z.eqb_spec tx (-1)); [contradiction|].
  rewrite Hr. run_method.
  rewrite rd_wr_same by (cbn; lia).
  change (to_bool (1 mod 2 ^ width CCCR_INIT)) with true. cbv iota.
  rewrite rd_wr_same by (cbn; lia).
  change (to_bool (0 mod 2 ^ width CCCR_INIT)) with false. cbv iota.
  rewrite store_defined by lia. run_method. reflexivity.
Qed.

(** X16.  A successful [begin] (a transmit pin, an achievable baud rate):
    it returns 1 with the computed timing in NBTP, the peripheral out of
    initialisation, a zeroed transmit buffer and receive FIFO, both filters
    set to store every message in FIFO 0 (id 0, mask 0) and everything
    unmatched rejected, a FIFO of 8 and 1 transmit buffer declared, the
    clock channel enabled, both pins switched to the CAN function, and the
    object registered as instance 1. *)
Theorem begin_succeeds (can_frequency can_state_address CAN1_address : Z)
        (nbtp : CAN_NBTP_Type) (baudrate : Z) (w : World) (r : Z) :
  _tx (this w) <> -1 ->
  compute_nbtp can_frequency (u32 baudrate) nbtp = Some (true, r) ->
  2 <= Z.of_nat (length (instances w)) ->
  exists w',
    begin can_frequency can_state_address CAN1_address nbtp baudrate w
    = Some (1, w') /\
    NBTP (CAN1 w') = r /\
    rd CCCR_INIT (CCCR (CAN1 w')) = 0 /\
    rd CCCR_CCE (CCCR (CAN1 w')) = 0 /\
    tx_buffer (can_state w') = tx_buffer zeroed_state /\
    rx_fifo (can_state w') = rx_fifo zeroed_state /\
    (let sf := SIDFE_0 (standard_rx_filter (can_state w')) in
     let x0 := XIDFE_0 (extended_rx_filter (can_state w')) in
     let x1 := XIDFE_1 (extended_rx_filter (can_state w')) in
     rd SIDFE_0_SFEC sf = CAN_SIDFE_0_SFEC_STF0M_Val /\
     rd SIDFE_0_SFID1 sf = 0 /\ rd SIDFE_0_SFID2 sf = 0 /\
     rd XIDFE_0_EFEC x0 = CAN_XIDFE_0_EFEC_STF0M_Val /\
     rd XIDFE_0_EFID1 x0 = 0 /\ rd XIDFE_1_EFID2 x1 = 0) /\
    rd GFC_ANFS (GFC (CAN1 w')) = CAN_GFC_ANFS_REJECT_Val /\
    rd GFC_ANFE (GFC (CAN1 w')) = CAN_GFC_ANFE_REJECT_Val /\
    rd RXF0C_F0S (RXF0C (CAN1 w')) = ADAFRUIT_ZEROCAN_RX_FIFO_SIZE /\
    rd TXBC_NDTB (TXBC (CAN1 w')) = ADAFRUIT_ZEROCAN_TX_BUFFER_SIZE /\
    Z.testbit (PCHCTRL_CAN1 w') GCLK_PCHCTRL_CHEN_Pos = true /\
    index (instances w') 1 = Some true /\
    _idx (this w') = 1 /\
    calls w' = pinPeripheral (_rx (this w)) CAN1_FUNCTION
               :: pinPeripheral (_tx (this w)) CAN1_FUNCTION :: calls w /\
    irq w' = irq w.
Proof.
  intros Htx Hr Hlen.
  rewrite (begin_world _ _ _ _ _ _ _ Htx Hr Hlen).
  eexists. split; [reflexivity|].
  cbn [CAN1 NBTP CCCR can_state set_filters tx_buffer rx_fifo
       standard_rx_filter extended_rx_filter SIDFE_0 XIDFE_0 XIDFE_1 GFC
       RXF0C TXBC PCHCTRL_CAN1 instances this _idx calls irq].
  split; [reflexivity|].
  split; [rewrite rd_wr_same by (cbn; lia); reflexivity|].
  split; [rewrite rd_wr_other, rd_wr_same by (cbn; lia); reflexivity|].
  split; [reflexivity|]. split; [reflexivity|].
  split; [vm_compute; repeat split|].
  split; [vm_compute; reflexivity|]. split; [vm_compute; reflexivity|].
  split; [rewrite rd_wr_same by (cbn; lia); reflexivity|].
  split; [rewrite rd_wr_other, rd_wr_same by (cbn; lia); reflexivity|].
  split; [reflexivity|].
  split; [rewrite index_store by lia; reflexivity|].
  split; [reflexivity|]. split; reflexivity.
Qed.

Lemma begin_succeeds_witness :
  exists w',
    begin 48000000 0 0 0 500000 (at_rest 4 5) = Some (1, w') /\
    NBTP (CAN1 w') = 100684299 /\
    rd CCCR_INIT (CCCR (CAN1 w')) = 0 /\
    rd CCCR_CCE (CCCR (CAN1 w')) = 0 /\
    tx_buffer (can_state w') = tx_buffer zeroed_state /\
    rx_fifo (can_state w') = rx_fifo zeroed_state /\
    (let sf := SIDFE_0 (standard_rx_filter (can_state w')) in
     let x0 := XIDFE_0 (extended_rx_filter (can_state w')) in
     let x1 := XIDFE_1 (extended_rx_filter (can_state w')) in
     rd SIDFE_0_SFEC sf = CAN_SIDFE_0_SFEC_STF0M_Val /\
     rd SIDFE_0_SFID1 sf = 0 /\ rd SIDFE_0_SFID2 sf = 0 /\
     rd XIDFE_0_EFEC x0 = CAN_XIDFE_0_EFEC_STF0M_Val /\
     rd XIDFE_0_EFID1 x0 = 0 /\ rd XIDFE_1_EFID2 x1 = 0) /\
    rd GFC_ANFS (GFC (CAN1 w')) = CAN_GFC_ANFS_REJECT_Val /\
    rd GFC_ANFE (GFC (CAN1 w')) = CAN_GFC_ANFE_REJECT_Val /\
    rd RXF0C_F0S (RXF0C (CAN1 w')) = ADAFRUIT_ZEROCAN_RX_FIFO_SIZE /\
    rd TXBC_NDTB (TXBC (CAN1 w')) = ADAFRUIT_ZEROCAN_TX_BUFFER_SIZE /\
    Z.testbit (PCHCTRL_CAN1 w') GCLK_PCHCTRL_CHEN_Pos = true /\
    index (instances w') 1 = Some true /\
    _idx (this w') = 1 /\
    calls w' = pinPeripheral (_rx (this (at_rest 4 5))) CAN1_FUNCTION
               :: pinPeripheral (_tx (this (at_rest 4 5))) CAN1_FUNCTION
               :: calls (at_rest 4 5) /\
    irq w' = irq (at_rest 4 5).
Proof.
  apply (begin_succeeds 48000000 0 0 0 500000 (at_rest 4 5) 100684299).
  - vm_compute. discriminate.
  - vm_compute. reflexivity.
  - vm_compute. discriminate.
Defined.

(** The world after [end]. *)
Lemma end_world (w : World) :
  0 <= _idx (this w) < Z.of_nat (length (instances w)) ->
  end_ w =
  Some (tt,
    MkWorld (irq w) (can_state w)
      (set_CCCR (wr CCCR_INIT (CCCR (CAN1 w)) 1) (CAN1 w))
      (Z.lor GCLK_CAN1 (Z.shiftl 1 GCLK_PCHCTRL_CHEN_Pos))
      (this w)
      (store_nat (instances w) (Z.to_nat (_idx (this w))) false)
      (pinMode (_rx (this w)) INPUT :: pinMode (_tx (this w)) INPUT
       :: calls w)).
Proof.
  intros Hidx. explicit_world w.
  unfold end_. run_method.
  rewrite store_defined by lia. run_method.
  rewrite rd_wr_same by (cbn; lia).
  change (to_bool (1 mod 2 ^ width CCCR_INIT)) with true. cbv iota.
  reflexivity.
Qed.

(** X17.  [end] clears the object's entry in the table of instances and
    no other entry, sets both pins to INPUT, puts the peripheral into
    initialisation, and writes the clock channel control with the enable
    bit set: the peripheral clock stays enabled.  The message RAM and the
    object are left as they were. *)
Theorem end_deregisters (w : World) :
  0 <= _idx (this w) < Z.of_nat (length (instances w)) ->
  exists w',
    end_ w = Some (tt, w') /\
    index (instances w') (_idx (this w)) = Some false /\
    (forall j, j <> _idx (this w) ->
               index (instances w') j = index (instances w) j) /\
    rd CCCR_INIT (CCCR (CAN1 w')) = 1 /\
    Z.testbit (PCHCTRL_CAN1 w') GCLK_PCHCTRL_CHEN_Pos = true /\
    calls w' = pinMode (_rx (this w)) INPUT :: pinMode (_tx (this w)) INPUT
               :: calls w /\
    can_state w' = can_state w /\ this w' = this w /\ irq w' = irq w.
Proof.
  intros Hidx. rewrite (end_world w Hidx).
  eexists. split; [reflexivity|].
  cbn [instances CAN1 set_CCCR CCCR PCHCTRL_CAN1 calls can_state this irq].
  split; [rewrite index_store by lia; rewrite Z.eqb_refl; reflexivity|].
  split.
  { intros j Hj. rewrite index_store by lia.
    destruct (Z.eqb_spec j (_idx (this w))); [contradiction | reflexivity]. }
  split; [rewrite rd_wr_same by (cbn; lia); reflexivity|].
  split; [reflexivity|].
  split; [reflexivity|]. split; [reflexivity|]. split; reflexivity.
Qed.

Lemma end_deregisters_witness :
  exists w',
    end_ (at_rest 4 5) = Some (tt, w') /\
    index (instances w') (_idx (this (at_rest 4 5))) = Some false /\
    (forall j, j <> _idx (this (at_rest 4 5)) ->
               index (instances w') j = index (instances (at_rest 4 5)) j) /\
    rd CCCR_INIT (CCCR (CAN1 w')) = 1 /\
    Z.testbit (PCHCTRL_CAN1 w') GCLK_PCHCTRL_CHEN_Pos = true /\
    calls w' = pinMode (_rx (this (at_rest 4 5))) INPUT
               :: pinMode (_tx (this (at_rest 4 5))) INPUT
               :: calls (at_rest 4 5) /\
    can_state w' = can_state (at_rest 4 5) /\
    this w' = this (at_rest 4 5) /\ irq w' = irq (at_rest 4 5).
Proof.
  apply (end_deregisters (at_rest 4 5)).
  vm_compute. split; [discriminate | reflexivity].
Defined.

(** X18.  [begin] followed by [end]: after a successful [begin], [end] is
    defined and clears the entry 1 that [begin] had set, leaving the
    computed timing in NBTP, the peripheral in initialisation and the
    message RAM as [begin] set it up. *)
Theorem begin_then_end (can_frequency can_state_address CAN1_address : Z)
        (nbtp : CAN_NBTP_Type) (baudrate : Z) (w : World) (r : Z) :
  _tx (this w) <> -1 ->
  compute_nbtp can_frequency (u32 baudrate) nbtp = Some (true, r) ->
  2 <= Z.of_nat (length (instances w)) ->
  exists w1 w2,
    begin can_frequency can_state_address CAN1_address nbtp baudrate w
    = Some (1, w1) /\
    end_ w1 = Some (tt, w2) /\
    index (instances w1) 1 = Some true /\
    index (instances w2) 1 = Some false /\
    rd CCCR_INIT (CCCR (CAN1 w2)) = 1 /\
    NBTP (CAN1 w2) = r /\
    can_state w2 = can_state w1.
Proof.
  intros Htx Hr Hlen.
  rewrite (begin_world _ _ _ _ _ _ _ Htx Hr Hlen).
  eexists. eexists. split; [reflexivity|].
  pose proof (length_store_nat (instances w) true (Z.to_nat 1)) as Hlen'.
  rewrite end_world
    by (cbn [this _idx instances]; rewrite Hlen'; lia).
  split; [reflexivity|].
  cbn [instances this _idx CAN1 set_CCCR CCCR NBTP can_state].
  split; [rewrite index_store by lia; reflexivity|].
  split; [rewrite index_store by (rewrite Hlen'; lia); reflexivity|].
  split; [rewrite rd_wr_same by (cbn; lia); reflexivity|].
  split; reflexivity.
Qed.

Lemma begin_then_end_witness :
  exists w1 w2,
    begin 48000000 0 0 0 500000 (at_rest 4 5) = Some (1, w1) /\
    end_ w1 = Some (tt, w2) /\
    index (instances w1) 1 = Some true /\
    index (instances w2) 1 = Some false /\
    rd CCCR_INIT (CCCR (CAN1 w2)) = 1 /\
    NBTP (CAN1 w2) = 100684299 /\
    can_state w2 = can_state w1.
Proof.
  apply (begin_then_end 48000000 0 0 0 500000 (at_rest 4 5) 100684299).
  - vm_compute. discriminate.
  - vm_compute. reflexivity.
  - vm_compute. discriminate.
Defined.

(** ** Modes *)

(** The world after a mode change that sets one bit of CCCR between
    entering and leaving the configuration state. *)
Lemma observe_world (w : World) :
  observe w =
  Some (1,
    MkWorld (irq w) (can_state w)
      (set_CCCR
         (wr CCCR_INIT
            (wr CCCR_CCE
               (wr CCCR_MON (wr CCCR_CCE (wr CCCR_INIT (CCCR (CAN1 w)) 1) 1)
                   1) 0) 0)
         (CAN1 w))
      (PCHCTRL_CAN1 w) (this w) (instances w) (calls w)).
Proof.
  explicit_world w. unfold observe. run_method.
  rewrite rd_wr_same by (cbn; lia).
  change (to_bool (1 mod 2 ^ width CCCR_INIT)) with true. cbv iota.
  rewrite rd_wr_same by (cbn; lia).
  change (to_bool (0 mod 2 ^ width CCCR_INIT)) with false. cbv iota.
  reflexivity.
Qed.

Lemma loopback_world (w : World) :
  loopback w =
  Some (1,
    MkWorld (irq w) (can_state w)
      (set_TEST (wr TEST_LBCK (TEST (CAN1 w)) 1)
         (set_CCCR
            (wr CCCR_INIT
               (wr CCCR_CCE
                  (wr CCCR_TEST
                     (wr CCCR_CCE (wr CCCR_INIT (CCCR (CAN1 w)) 1) 1) 1) 0)
               0)
            (CAN1 w)))
      (PCHCTRL_CAN1 w) (this w) (instances w) (calls w)).
Proof.
  explicit_world w. unfold loopback. run_method.
  rewrite rd_wr_same by (cbn; lia).
  change (to_bool (1 mod 2 ^ width CCCR_INIT)) with true. cbv iota.
  rewrite rd_wr_same by (cbn; lia).
  change (to_bool (0 mod 2 ^ width CCCR_INIT)) with false. cbv iota.
  reflexivity.
Qed.

(** X19.  [observe] returns 1 with the bus monitoring bit set and the
    peripheral out of the configuration state (INIT and CCE clear); the
    test, clock stop request and clock stop acknowledge bits of CCCR and
    everything outside CCCR stay as they were. *)
Theorem observe_sets_monitor (w : World) :
  exists w',
    observe w = Some (1, w') /\
    rd CCCR_MON (CCCR (CAN1 w')) = 1 /\
    rd CCCR_INIT (CCCR (CAN1 w')) = 0 /\
    rd CCCR_CCE (CCCR (CAN1 w')) = 0 /\
    rd CCCR_TEST (CCCR (CAN1 w')) = rd CCCR_TEST (CCCR (CAN1 w)) /\
    rd CCCR_CSR (CCCR (CAN1 w')) = rd CCCR_CSR (CCCR (CAN1 w)) /\
    rd CCCR_CSA (CCCR (CAN1 w')) = rd CCCR_CSA (CCCR (CAN1 w)) /\
    TEST (CAN1 w') = TEST (CAN1 w) /\
    can_state w' = can_state w /\ irq w' = irq w /\ this w' = this w /\
    calls w' = calls w.
Proof.
  rewrite observe_world. eexists. split; [reflexivity|].
  cbn [CAN1 set_CCCR CCCR TEST can_state irq this calls].
  split; [rewrite !rd_wr_other by (cbn; lia);
          rewrite rd_wr_same by (cbn; lia); reflexivity|].
  split; [rewrite rd_wr_same by (cbn; lia); reflexivity|].
  split; [rewrite rd_wr_other by (cbn; lia);
          rewrite rd_wr_same by (cbn; lia); reflexivity|].
  do 3 (split; [rewrite !rd_wr_other by (cbn; lia); reflexivity|]).
  do 4 (split; [reflexivity|]). reflexivity.
Qed.

(** X20.  The modes accumulate: after [observe] followed by [loopback]
    the monitoring bit, the test bit and the loop back bit are all set,
    since no mode method clears the bit of another. *)
Theorem observe_then_loopback (w : World) :
  exists w',
    (observe ;; loopback) w = Some (1, w') /\
    rd CCCR_MON (CCCR (CAN1 w')) = 1 /\
    rd CCCR_TEST (CCCR (CAN1 w')) = 1 /\
    rd TEST_LBCK (TEST (CAN1 w')) = 1 /\
    rd CCCR_INIT (CCCR (CAN1 w')) = 0 /\
    rd CCCR_CCE (CCCR (CAN1 w')) = 0.
Proof.
  unfold bind. rewrite observe_world, loopback_world.
  eexists. split; [reflexivity|].
  cbn [CAN1 set_CCCR set_TEST CCCR TEST].
  split; [rewrite !rd_wr_other by (cbn; lia);
          rewrite rd_wr_same by (cbn; lia); reflexivity|].
  split; [rewrite !rd_wr_other by (cbn; lia);
          rewrite rd_wr_same by (cbn; lia); reflexivity|].
  split; [rewrite rd_wr_same by (cbn; lia); reflexivity|].
  split; [rewrite rd_wr_same by (cbn; lia); reflexivity|].
  rewrite rd_wr_other by (cbn; lia).
  rewrite rd_wr_same by (cbn; lia). reflexivity.
Qed.

(** X21.  [sleep] and [wakeup]: when the clock stop acknowledge reads as
    set, [sleep] returns 1 with the clock stop request set and the clock
    channel disabled; [wakeup] then returns 1 with the clock channel
    enabled again and INIT clear, but with the clock stop request still
    set, since [wakeup] does not write it. *)
Theorem sleep_then_wakeup (w : World) :
  rd CCCR_CSA (CCCR (CAN1 w)) <> 0 ->
  exists w1 w2,
    sleep w = Some (1, w1) /\
    rd CCCR_CSR (CCCR (CAN1 w1)) = 1 /\
    Z.testbit (PCHCTRL_CAN1 w1) GCLK_PCHCTRL_CHEN_Pos = false /\
    wakeup w1 = Some (1, w2) /\
    Z.testbit (PCHCTRL_CAN1 w2) GCLK_PCHCTRL_CHEN_Pos = true /\
    rd CCCR_INIT (CCCR (CAN1 w2)) = 0 /\
    rd CCCR_CSR (CCCR (CAN1 w2)) = 1 /\
    can_state w2 = can_state w /\ this w2 = this w.
Proof.
  intros Hcsa. explicit_world w.
  unfold sleep, wakeup. run_method.
  rewrite rd_wr_other by (cbn; lia).
  unfold to_bool at 1.
  destruct (Z.eqb_spec (rd CCCR_CSA cccr) 0); [contradiction|]. cbv iota.
  eexists. eexists. split; [reflexivity|]. run_method.
  split; [rewrite rd_wr_same by (cbn; lia); reflexivity|].
  split; [reflexivity|].
  rewrite rd_wr_same by (cbn; lia).
  change (to_bool (0 mod 2 ^ width CCCR_INIT)) with false. cbv iota.
  split; [reflexivity|]. run_method.
  split; [reflexivity|].
  split; [rewrite rd_wr_same by (cbn; lia); reflexivity|].
  split; [rewrite rd_wr_other by (cbn; lia);
          rewrite rd_wr_same by (cbn; lia); reflexivity|].
  split; reflexivity.
Qed.

Lemma sleep_then_wakeup_witness :
  exists w1 w2,
    sleep clock_stop_acknowledged = Some (1, w1) /\
    rd CCCR_CSR (CCCR (CAN1 w1)) = 1 /\
    Z.testbit (PCHCTRL_CAN1 w1) GCLK_PCHCTRL_CHEN_Pos = false /\
    wakeup w1 = Some (1, w2) /\
    Z.testbit (PCHCTRL_CAN1 w2) GCLK_PCHCTRL_CHEN_Pos = true /\
    rd CCCR_INIT (CCCR (CAN1 w2)) = 0 /\
    rd CCCR_CSR (CCCR (CAN1 w2)) = 1 /\
    can_state w2 = can_state clock_stop_acknowledged /\
    this w2 = this clock_stop_acknowledged.
Proof.
  apply (sleep_then_wakeup clock_stop_acknowledged).
  vm_compute. discriminate.
Defined.

(** ** The interrupt path *)

(** X22.  [onReceive] passes the callback to the base class and sets the
    receive FIFO 0 new message interrupt enable to 1 for a callback and to
    0 for a null pointer; the other bits of the interrupt enable register,
    the pending flags and the message RAM stay as they were. *)
Theorem onReceive_enables_interrupt
        (base_onReceive : option Z -> CANControllerClass -> CANControllerClass)
        (f : option Z) (w : World) :
  exists w',
    onReceive base_onReceive f w = Some (tt, w') /\
    rd IE_RF0NE (IE (CAN1 w'))
    = match f with Some _ => 1 | None => 0 end /\
    (forall g, 1 <= pos g -> 0 <= width g ->
               rd g (IE (CAN1 w')) = rd g (IE (CAN1 w))) /\
    base (this w') = base_onReceive f (base (this w)) /\
    IR (CAN1 w') = IR (CAN1 w) /\ can_state w' = can_state w /\
    irq w' = irq w /\ calls w' = calls w.
Proof.
  explicit_world w. unfold onReceive. run_method.
  eexists. split; [reflexivity|]. run_method.
  split; [rewrite rd_wr_same by (cbn; lia); destruct f; reflexivity|].
  split; [intros g Hp Hw; apply rd_wr_other; cbn; lia|].
  do 4 (split; [reflexivity|]). reflexivity.
Qed.

(** [onInterrupt] for an index whose entry is null does nothing. *)
Lemma onInterrupt_null
      (available : CANControllerClass -> Z) (between : World -> World)
      (fuel : nat) (idx : Z) (w : World) :
  index (instances w) idx = Some false ->
  onInterrupt available between fuel idx w = Some (tt, w).
Proof.
  intros Hnull. unfold onInterrupt, bind, get, lift, ret.
  rewrite Hnull. reflexivity.
Qed.

(** X23.  An interrupt for a channel whose table entry is null is ignored:
    the handler returns with the critical-section counter and the
    interrupt mask restored and with the message RAM, the registers, the
    object, the table and the calls untouched, whatever the fuel. *)
Theorem CAN_Handler_without_instance
        (available : CANControllerClass -> Z) (between : World -> World)
        (fuel : nat) (w : World) :
  0 <= cpu_irq_critical_section_counter (irq w) < 2 ^ 32 - 1 ->
  (index (instances w) 0 = Some false ->
   exists w',
     CAN0_Handler available between fuel w = Some (tt, w') /\
     cpu_irq_critical_section_counter (irq w')
     = cpu_irq_critical_section_counter (irq w) /\
     PRIMASK (irq w') = PRIMASK (irq w) /\
     can_state w' = can_state w /\ CAN1 w' = CAN1 w /\ this w' = this w /\
     instances w' = instances w /\ calls w' = calls w) /\
  (index (instances w) 1 = Some false ->
   exists w',
     CAN1_Handler available between fuel w = Some (tt, w') /\
     cpu_irq_critical_section_counter (irq w')
     = cpu_irq_critical_section_counter (irq w) /\
     PRIMASK (irq w') = PRIMASK (irq w) /\
     can_state w' = can_state w /\ CAN1 w' = CAN1 w /\ this w' = this w /\
     instances w' = instances w /\ calls w' = calls w).
Proof.
  intros Hcounter.
  destruct (cpu_irq_pair (irq w) Hcounter) as (Hc & Hmask).
  split; intros Hnull.
  - unfold CAN0_Handler, bind at 1 2, update_irq at 1.
    rewrite onInterrupt_null by exact Hnull.
    eexists. split; [reflexivity|].
    cbn [irq can_state CAN1 this instances calls].
    split; [exact Hc|]. split; [exact Hmask|].
    do 4 (split; [reflexivity|]). reflexivity.
  - unfold CAN1_Handler, bind at 1 2, update_irq at 1.
    rewrite onInterrupt_null by exact Hnull.
    eexists. split; [reflexivity|].
    cbn [irq can_state CAN1 this instances calls].
    split; [exact Hc|]. split; [exact Hmask|].
    do 4 (split; [reflexivity|]). reflexivity.
Qed.

Lemma CAN_Handler_without_instance_witness :
  exists w',
    CAN0_Handler (fun _ => 0) (fun w => w) 0 interrupt_pending
    = Some (tt, w') /\
    cpu_irq_critical_section_counter (irq w')
    = cpu_irq_critical_section_counter (irq interrupt_pending) /\
    PRIMASK (irq w') = PRIMASK (irq interrupt_pending) /\
    can_state w' = can_state interrupt_pending /\
    CAN1 w' = CAN1 interrupt_pending /\ this w' = this interrupt_pending /\
    instances w' = instances interrupt_pending /\
    calls w' = calls interrupt_pending.
Proof.
  apply (proj1 (CAN_Handler_without_instance
                  (fun _ => 0) (fun w => w) 0 interrupt_pending
                  ltac:(vm_compute; split; [discriminate | reflexivity]))).
  reflexivity.
Defined.

(** X24.  [handleInterrupt] looks at the receive FIFO only for the new
    message flag of FIFO 0: with that flag clear it polls nothing, calls
    nothing and only writes back the flags it read, whatever the fuel. *)
Theorem handleInterrupt_other_flags
        (available : CANControllerClass -> Z) (between : World -> World)
        (fuel : nat) (w : World) :
  Z.land (IR (CAN1 w)) CAN_IR_RF0N = 0 ->
  handleInterrupt available between fuel w = Some (tt, w).
Proof.
  intros Hflag. explicit_world w.
  unfold handleInterrupt. run_method.
  rewrite Hflag. cbn [Z.eqb]. run_method. reflexivity.
Qed.

Lemma handleInterrupt_other_flags_witness :
  handleInterrupt (fun _ => 0) (fun w => w) 0 (at_rest 4 5)
  = Some (tt, at_rest 4 5).
Proof.
  apply (handleInterrupt_other_flags (fun _ => 0) (fun w => w) 0
                                     (at_rest 4 5)).
  reflexivity.
Defined.

(** The loop of [handleInterrupt] ends at the first poll that returns 0. *)
Lemma drain_ends
      (available : CANControllerClass -> Z) (between : World -> World)
      (fuel : nat) (w w' : World) :
  parsePacket w = Some (0, w') ->
  drain available between (S fuel) w = Some (tt, w').
Proof.
  intros Hpoll. cbn [drain]. unfold bind at 1. rewrite Hpoll. reflexivity.
Qed.

Lemma handleInterrupt_ends
      (available : CANControllerClass -> Z) (between : World -> World)
      (fuel : nat) (w w' : World) :
  Z.land (IR (CAN1 w)) CAN_IR_RF0N <> 0 ->
  parsePacket w = Some (0, w') ->
  handleInterrupt available between (S fuel) w =
  Some (tt, MkWorld (irq w') (can_state w') (set_IR (IR (CAN1 w)) (CAN1 w'))
                    (PCHCTRL_CAN1 w') (this w') (instances w') (calls w')).
Proof.
  intros Hflag Hpoll. unfold handleInterrupt, bind at 1 2, get at 1.
  destruct (Z.eqb_spec (Z.land (IR (CAN1 w)) CAN_IR_RF0N) 0);
    [contradiction|].
  cbn [negb]. rewrite (drain_ends available between fuel w w' Hpoll).
  reflexivity.
Qed.

(** X25.  A message with length code 0 at the head of the FIFO ends the
    loop of [handleInterrupt]: the message is taken (its index is
    acknowledged) but the callback is not called for it, nor for anything
    queued behind it. *)
Theorem handleInterrupt_zero_length_message
        (available : CANControllerClass -> Z) (between : World -> World)
        (fuel : nat) (w : World) (m : _canSAME5x_rx_fifo) :
  Z.land (IR (CAN1 w)) CAN_IR_RF0N <> 0 ->
  rd RXF0S_F0FL (RXF0S (CAN1 w)) <> 0 ->
  index (rx_fifo (can_state w)) (rd RXF0S_F0GI (RXF0S (CAN1 w))) = Some m ->
  rd RXF0E_1_DLC (rxf1 m) = 0 ->
  exists w',
    handleInterrupt available between (S fuel) w = Some (tt, w') /\
    calls w' = calls w /\
    rd RXF0A_F0AI (RXF0A (CAN1 w')) = rd RXF0S_F0GI (RXF0S (CAN1 w)) /\
    _rxDlc (base (this w')) = 0 /\
    IR (CAN1 w') = IR (CAN1 w).
Proof.
  intros Hflag Hfill Hm Hdlc.
  pose proof (rd_range RXF0S_F0GI (RXF0S (CAN1 w)) ltac:(cbn; lia)) as Hgi.
  assert (Hpoll : exists data,
             (if to_bool (rd RXF0E_0_RTR (rxf0 m))
              then Some (_rxData (base (this w)))
              else memcpy (_rxData (base (this w))) (rx_data m)
                          (rd RXF0E_1_DLC (rxf1 m))) = Some data).
  { destruct (to_bool (rd RXF0E_0_RTR (rxf0 m))); [eexists; reflexivity|].
    rewrite Hdlc.
    destruct (memcpy_copies (_rxData (base (this w))) (rx_data m) 0
                ltac:(lia) ltac:(lia)) as (out & Hout & _).
    exists out. exact Hout. }
  destruct Hpoll as (data & Hdata).
  pose proof (parsePacket_filled w m Hfill Hm) as Hrun.
  cbv zeta in Hrun. rewrite Hdata, Hdlc in Hrun.
  rewrite (handleInterrupt_ends available between fuel w _ Hflag Hrun).
  eexists. split; [reflexivity|].
  cbn [calls CAN1 set_IR set_RXF0A RXF0A IR this base _rxDlc].
  split; [reflexivity|].
  split; [rewrite rd_wr_same by (cbn; lia); apply Z.mod_small; exact Hgi|].
  split; reflexivity.
Qed.

Lemma handleInterrupt_zero_length_message_witness :
  exists w',
    handleInterrupt (fun _ => 0) (fun w => w) 1
                    (received data_message_0 interrupt_pending)
    = Some (tt, w') /\
    calls w' = calls (received data_message_0 interrupt_pending) /\
    rd RXF0A_F0AI (RXF0A (CAN1 w'))
    = rd RXF0S_F0GI (RXF0S (CAN1 (received data_message_0
                                            interrupt_pending))) /\
    _rxDlc (base (this w')) = 0 /\
    IR (CAN1 w') = IR (CAN1 (received data_message_0 interrupt_pending)).
Proof.
  apply (handleInterrupt_zero_length_message
           (fun _ => 0) (fun w => w) 0
           (received data_message_0 interrupt_pending) data_message_0).
  - vm_compute. discriminate.
  - vm_compute. discriminate.
  - vm_compute. reflexivity.
  - vm_compute. reflexivity.
Defined.

(** X26.  When the handler of a registered channel finds the new message
    flag set and the receive FIFO empty, it returns with the
    critical-section counter at 1 and the interrupts still masked: the
    poll that sees the empty FIFO enters a critical section that nothing
    leaves.  No callback is called. *)
Theorem CAN1_Handler_empty_fifo
        (available : CANControllerClass -> Z) (between : World -> World)
        (fuel : nat) (w : World) :
  index (instances w) 1 = Some true ->
  Z.land (IR (CAN1 w)) CAN_IR_RF0N <> 0 ->
  rd RXF0S_F0FL (RXF0S (CAN1 w)) = 0 ->
  cpu_irq_critical_section_counter (irq w) = 0 ->
  PRIMASK (irq w) = 0 ->
  exists w',
    CAN1_Handler available between (S fuel) w = Some (tt, w') /\
    cpu_irq_critical_section_counter (irq w') = 1 /\
    irq_enabled (irq w') = false /\
    calls w' = calls w.
Proof.
  intros Hinst Hflag Hempty Hcounter Hmask.
  unfold CAN1_Handler, bind at 1 2, update_irq at 1.
  unfold onInterrupt, bind at 1 2, get at 1, lift at 1.
  cbn [instances]. rewrite Hinst.
  match goal with
  | |- context [handleInterrupt _ _ _ ?w0] => set (w1 := w0)
  end.
  assert (Hpoll := parsePacket_empty w1 Hempty).
  rewrite (handleInterrupt_ends available between fuel w1 _ Hflag Hpoll).
  unfold update_irq.
  eexists. split; [reflexivity|].
  subst w1. cbn [irq calls].
  rewrite (cpu_irq_enter_outermost (irq w) Hcounter), Hmask.
  split; [reflexivity|]. split; reflexivity.
Qed.

Lemma CAN1_Handler_empty_fifo_witness :
  exists w',
    CAN1_Handler (fun _ => 0) (fun w => w) 1 interrupt_pending
    = Some (tt, w') /\
    cpu_irq_critical_section_counter (irq w') = 1 /\
    irq_enabled (irq w') = false /\
    calls w' = calls interrupt_pending.
Proof.
  apply (CAN1_Handler_empty_fifo (fun _ => 0) (fun w => w) 0
                                 interrupt_pending).
  - reflexivity.
  - vm_compute. discriminate.
  - reflexivity.
  - reflexivity.
  - reflexivity.
Defined.

(** X27.  One message with a nonzero length code, after which the FIFO
    reads empty: [handleInterrupt] polls twice.  The first poll takes the
    message, and the callback is called once, with what [available]
    gives for the packet just parsed; the second poll sees the empty FIFO
    and ends the loop, and the flags read at the start are written
    back. *)
Theorem handleInterrupt_one_message
        (available : CANControllerClass -> Z) (between : World -> World)
        (fuel : nat) (w : World) (m : _canSAME5x_rx_fifo) (f : Z) :
  Z.land (IR (CAN1 w)) CAN_IR_RF0N <> 0 ->
  rd RXF0S_F0FL (RXF0S (CAN1 w)) <> 0 ->
  index (rx_fifo (can_state w)) (rd RXF0S_F0GI (RXF0S (CAN1 w))) = Some m ->
  rd RXF0E_1_DLC (rxf1 m) <> 0 ->
  (rd RXF0E_0_RTR (rxf0 m) <> 0 \/
   (rd RXF0E_1_DLC (rxf1 m) <= Z.of_nat (length (rx_data m)) /\
    rd RXF0E_1_DLC (rxf1 m)
    <= Z.of_nat (length (_rxData (base (this w)))))) ->
  _onReceive (base (this w)) = Some f ->
  (forall x, rd RXF0S_F0FL (RXF0S (CAN1 (between x))) = 0) ->
  exists w1,
    parsePacket w = Some (rd RXF0E_1_DLC (rxf1 m), w1) /\
    let called :=
      MkWorld (irq w1) (can_state w1) (CAN1 w1) (PCHCTRL_CAN1 w1) (this w1)
              (instances w1)
              (callback f (available (base (this w1))) :: calls w1) in
    let w2 := between called in
    handleInterrupt available between (S (S fuel)) w =
    Some (tt,
          MkWorld (cpu_irq_enter_critical (irq w2)) (can_state w2)
                  (set_IR (IR (CAN1 w)) (CAN1 w2)) (PCHCTRL_CAN1 w2)
                  (this w2) (instances w2) (calls w2)).
Proof.
  intros Hflag Hfill Hm Hdlc Hok Hcb Hempty.
  pose proof (rd_range RXF0E_1_DLC (rxf1 m) ltac:(cbn; lia)) as Hrange.
  assert (Hdata : exists data,
             (if to_bool (rd RXF0E_0_RTR (rxf0 m))
              then Some (_rxData (base (this w)))
              else memcpy (_rxData (base (this w))) (rx_data m)
                          (rd RXF0E_1_DLC (rxf1 m))) = Some data).
  { unfold to_bool.
    destruct (Z.eqb_spec (rd RXF0E_0_RTR (rxf0 m)) 0) as [H0 | Hrtr];
      cbn [negb]; [|eexists; reflexivity].
    destruct Hok as [Hrtr | (Hsrc & Hdst)]; [contradiction|].
    destruct (memcpy_copies (_rxData (base (this w))) (rx_data m)
                (rd RXF0E_1_DLC (rxf1 m)) ltac:(lia) Hdst)
      as (out & Hout & _).
    exists out. assumption. }
  destruct Hdata as (data & Hdata).
  pose proof (parsePacket_filled w m Hfill Hm) as Hrun.
  cbv zeta in Hrun. rewrite Hdata in Hrun.
  eexists. split; [exact Hrun|]. cbv zeta.
  match type of Hrun with
  | _ = Some (_, ?w0) => set (w1 := w0) in *
  end.
  assert (Hcb1 : _onReceive (base (this w1)) = Some f) by exact Hcb.
  unfold handleInterrupt, bind at 1 2, get at 1.
  destruct (Z.eqb_spec (Z.land (IR (CAN1 w)) CAN_IR_RF0N) 0);
    [contradiction|].
  cbn [negb].
  change (drain available between (S (S fuel)) w)
    with ((n <- parsePacket ;;
           if n =? 0 then ret tt
           else
             me <- get (fun w => base (this w)) ;;
             f <- lift (_onReceive me) ;;
             call (callback f (available me)) ;;
             (fun w => Some (tt, between w)) ;;
             drain available between (S fuel)) w).
  unfold bind at 1. rewrite Hrun.
  destruct (Z.eqb_spec (rd RXF0E_1_DLC (rxf1 m)) 0); [contradiction|].
  unfold bind at 1, get at 1. unfold bind at 1, lift at 1.
  rewrite Hcb1. unfold bind at 1, call at 1. unfold bind at 1.
  rewrite (drain_ends available between fuel _ _
             (parsePacket_empty _ (Hempty _))).
  reflexivity.
Qed.

Lemma handleInterrupt_one_message_witness :
  exists w1,
    parsePacket (received data_message_3 interrupt_pending)
    = Some (rd RXF0E_1_DLC (rxf1 data_message_3), w1) /\
    let called :=
      MkWorld (irq w1) (can_state w1) (CAN1 w1) (PCHCTRL_CAN1 w1) (this w1)
              (instances w1)
              (callback 7 (_rxLength (base (this w1)) - _rxIndex (base (this w1)))
               :: calls w1) in
    let w2 := fifo_emptied called in
    handleInterrupt (fun me => _rxLength me - _rxIndex me) fifo_emptied 2
                    (received data_message_3 interrupt_pending) =
    Some (tt,
          MkWorld (cpu_irq_enter_critical (irq w2)) (can_state w2)
                  (set_IR (IR (CAN1 (received data_message_3
                                               interrupt_pending)))
                          (CAN1 w2))
                  (PCHCTRL_CAN1 w2) (this w2) (instances w2) (calls w2)).
Proof.
  apply (handleInterrupt_one_message
           (fun me => _rxLength me - _rxIndex me) fifo_emptied 0
           (received data_message_3 interrupt_pending) data_message_3 7).
  - vm_compute. discriminate.
  - vm_compute. discriminate.
  - vm_compute. reflexivity.
  - vm_compute. discriminate.
  - right. vm_compute. split; discriminate.
  - reflexivity.
  - intros x. unfold fifo_emptied. cbn [CAN1 RXF0S].
    rewrite rd_wr_same by (cbn; lia). reflexivity.
Defined.
